(** * Renogy Bluetooth integration: protocol engine and section decoders

    A shallow embedding of [renogy/device.py], the per-family decoders
    [renogy/device_dc_charger.py], [renogy/device_inverter.py],
    [renogy/device_shunt.py], [renogy/device_test.py] and the dispatch
    layer [api.py], together with the properties of the specification
    that concern them.

    Conventions.
    - A Python [int] is a [Z]; a Python [float] is a binary64 [float].
    - A Python [bytes]/[bytearray] is a [list byte].
    - A Python [str] is the list of its code points ([list Z]); source
      literals are written [lit "..."].
    - A Python [dict] is a [gmap]; every attribute key in the source is
      a string literal, so attribute maps are keyed by [string].
    - Code that can raise lives in [res]; code that mutates the session
      object and can raise returns the mutated object together with the
      outcome, because a Python exception does not undo earlier
      assignments. *)

From Stdlib Require Import ZArith List String Ascii Strings.Byte Floats Uint63 Lia DecimalString.
From stdpp Require Import gmap strings.

Set Warnings "-inexact-float".

(* ===================================================================== *)
(** * Python values, strings and exceptions *)
(* ===================================================================== *)

(** The exception classes that can reach the modelled code.  The last
    constructor, [UnknownDeviceType], is the error kind of the
    specification's section 4.5; no [raise] of the source produces it. *)
Inductive exn : Set :=
| RangeError
| ValueError
| TypeError
| IndexError
| AttributeError
| UnicodeDecodeError
| BleakError
| DeviceConnectionError
| DeviceCommunicationError
| ConfigEntryNotReady
| APIConnectionError
| UnknownDeviceType.

Inductive res (A : Type) : Type :=
| Ok (a : A)
| Raise (e : exn).
Arguments Ok {A} a.
Arguments Raise {A} e.

Definition res_bind {A B : Type} (m : res A) (k : A -> res B) : res B :=
  match m with
  | Ok a => k a
  | Raise e => Raise e
  end.

Notation "'do' x <- m ; k" := (res_bind m (fun x => k))
  (at level 10, x name, m at level 100, k at level 200,
   format "'[v' 'do'  x  <-  m ; '/' k ']'").

(** A Python [str]: the sequence of its code points. *)
Abbreviation pystr := (list Z).

Definition ord (a : ascii) : Z := Z.of_N (N_of_ascii a).

(** A string literal of the source (all of them are ASCII). *)
Definition lit (s : string) : pystr := map ord (list_ascii_of_string s).

(** The values that a measurement's [state] or an attribute can hold. *)
Inductive pyval : Type :=
| VNone
| VBool (b : bool)
| VInt (z : Z)
| VFloat (f : float)
| VStr (s : pystr).

(** [str(n)] for an integer, as used by the f-string ["_{entity_id}"]. *)
Definition str_of_int (n : Z) : pystr := lit (NilZero.string_of_int (Z.to_int n)).

(** [float(n)]; exact for every integer a decoder extracts (at most four
    bytes wide). *)
Definition float_of_int (n : Z) : float :=
  if (n <? 0)%Z then PrimFloat.opp (PrimFloat.of_uint63 (Uint63.of_Z (- n)))
  else PrimFloat.of_uint63 (Uint63.of_Z n).

(** [a * b] on numbers; used by the decoders only on two floats. *)
Definition py_mul (a b : pyval) : res pyval :=
  match a, b with
  | VInt x, VInt y => Ok (VInt (x * y))
  | VInt x, VFloat y => Ok (VFloat (PrimFloat.mul (float_of_int x) y))
  | VFloat x, VInt y => Ok (VFloat (PrimFloat.mul x (float_of_int y)))
  | VFloat x, VFloat y => Ok (VFloat (PrimFloat.mul x y))
  | _, _ => Raise TypeError
  end.

(** ** [str] methods used by the source *)

(** [str.lower] on the ASCII range.  A BLE address is ASCII; statements
    that depend on [lower] assume it of the address (see [is_ascii]). *)
Definition lower_char (c : Z) : Z :=
  if ((65 <=? c) && (c <=? 90))%Z then (c + 32)%Z else c.
Definition lower (s : pystr) : pystr := map lower_char s.

Definition is_ascii (s : pystr) : Prop := Forall (fun c => (0 <= c < 128)%Z) s.

(** [s.replace(a, b)] for one-character [a] and [b]. *)
Definition replace_char (a b : Z) (s : pystr) : pystr :=
  map (fun c => if (c =? a)%Z then b else c) s.

(** [str.isspace] on one code point: the white-space table of CPython. *)
Definition is_space (c : Z) : bool :=
  ((9 <=? c) && (c <=? 13) || (28 <=? c) && (c <=? 32)
   || (c =? 133) || (c =? 160) || (c =? 5760)
   || (8192 <=? c) && (c <=? 8202)
   || (c =? 8232) || (c =? 8233) || (c =? 8239) || (c =? 8287)
   || (c =? 12288))%Z.

Fixpoint lstrip_by (p : Z -> bool) (s : pystr) : pystr :=
  match s with
  | [] => []
  | c :: r => if p c then lstrip_by p r else s
  end.

Definition rstrip_by (p : Z -> bool) (s : pystr) : pystr :=
  rev (lstrip_by p (rev s)).

(** [s.strip()] *)
Definition strip (s : pystr) : pystr := rstrip_by is_space (lstrip_by is_space s).

(** [s.rstrip("\x00")] *)
Definition rstrip_nul (s : pystr) : pystr := rstrip_by (fun c => (c =? 0)%Z) s.

(** ** [bytes] *)

Definition byte_val (b : byte) : Z := Z.of_N (Byte.to_N b).

(** [bytes(data)] / [bytearray(data)] on a list of integers: every
    element must lie in [range(256)]. *)
Fixpoint bytes_of_ints (l : list Z) : res (list byte) :=
  match l with
  | [] => Ok []
  | z :: r =>
      if ((0 <=? z) && (z <? 256))%Z then
        match Byte.of_N (Z.to_N z) with
        | Some b => do bs <- bytes_of_ints r; Ok (b :: bs)
        | None => Raise ValueError
        end
      else Raise ValueError
  end.

(** [bs[a:b]] for [0 <= a <= b]: slicing never raises. *)
Definition slice (bs : list byte) (a b : nat) : list byte := take (b - a) (drop a bs).

(** [bytes.decode("utf-8")], strict: shortest-form sequences only, no
    surrogates, nothing above U+10FFFF. *)
Definition is_cont (b : Z) : bool := ((128 <=? b) && (b <=? 191))%Z.

Fixpoint utf8_decode (bs : list Z) : res pystr :=
  match bs with
  | [] => Ok []
  | b0 :: r0 =>
      if (b0 <? 128)%Z then do s <- utf8_decode r0; Ok (b0 :: s)
      else if ((194 <=? b0) && (b0 <=? 223))%Z then
        match r0 with
        | b1 :: r1 =>
            if is_cont b1 then
              do s <- utf8_decode r1;
              Ok (((b0 - 192) * 64 + (b1 - 128))%Z :: s)
            else Raise UnicodeDecodeError
        | _ => Raise UnicodeDecodeError
        end
      else if ((224 <=? b0) && (b0 <=? 239))%Z then
        match r0 with
        | b1 :: b2 :: r2 =>
            if is_cont b1 && is_cont b2
               && (negb (b0 =? 224)%Z || (160 <=? b1)%Z)
               && (negb (b0 =? 237)%Z || (b1 <=? 159)%Z) then
              do s <- utf8_decode r2;
              Ok (((b0 - 224) * 4096 + (b1 - 128) * 64 + (b2 - 128))%Z :: s)
            else Raise UnicodeDecodeError
        | _ => Raise UnicodeDecodeError
        end
      else if ((240 <=? b0) && (b0 <=? 244))%Z then
        match r0 with
        | b1 :: b2 :: b3 :: r3 =>
            if is_cont b1 && is_cont b2 && is_cont b3
               && (negb (b0 =? 240)%Z || (144 <=? b1)%Z)
               && (negb (b0 =? 244)%Z || (b1 <=? 143)%Z) then
              do s <- utf8_decode r3;
              Ok (((b0 - 240) * 262144 + (b1 - 128) * 4096
                   + (b2 - 128) * 64 + (b3 - 128))%Z :: s)
            else Raise UnicodeDecodeError
        | _ => Raise UnicodeDecodeError
        end
      else Raise UnicodeDecodeError
  end.

Definition decode_utf8 (bs : list byte) : res pystr := utf8_decode (map byte_val bs).

(* ===================================================================== *)
(** * Binary codec utilities ([renogy/utils.py]) *)
(* ===================================================================== *)

Module Utils.

(** Big-endian accumulation of a byte string. *)
Definition from_bytes_big (bs : list byte) : Z :=
  fold_left (fun acc b => (acc * 256 + byte_val b)%Z) bs 0%Z.

(** Two's complement over the extracted width. *)
Definition to_signed (width : nat) (u : Z) : Z :=
  if (2 ^ (8 * Z.of_nat width - 1) <=? u)%Z then (u - 2 ^ (8 * Z.of_nat width))%Z else u.

(** Modelled from the spec: [bytes_to_int] of [renogy/utils.py], which is
    not among the sources.  Section 4.1: reads [length] bytes starting at
    [offset] as a big-endian integer (two's complement if [signed]) and
    fails with [RangeError] if [offset + length] exceeds the buffer
    length.  This is the integer extraction, before any scaling. *)
Definition bytes_to_int_raw (bs : list byte) (offset length : nat) (signed : bool) : res Z :=
  if (List.length bs <? offset + length)%nat then Raise RangeError
  else
    let u := from_bytes_big (slice bs offset (offset + length)) in
    Ok (if signed then to_signed length u else u).

(** Modelled from the spec: the [scale] argument of [bytes_to_int]
    (section 4.1: the extracted integer is multiplied by [scale]; the
    result is a float when [scale != 1], else an integer).  [None] is the
    default scale, which leaves the integer as it is. *)
Definition bytes_to_int (bs : list byte) (offset length : nat)
    (scale : option float) (signed : bool) : res pyval :=
  do n <- bytes_to_int_raw bs offset length signed;
  match scale with
  | None => Ok (VInt n)
  | Some s => Ok (VFloat (PrimFloat.mul (float_of_int n) s))
  end.

(** Modelled from the spec: [int_to_bytes] of [renogy/utils.py]
    (section 4.1): the high byte ([byte_index = 0]) or the low byte
    ([byte_index = 1]) of a 16-bit unsigned value. *)
Definition int_to_bytes (value : Z) (byte_index : Z) : Z :=
  if (byte_index =? 0)%Z then Z.land (Z.shiftr value 8) 255 else Z.land value 255.

(** One bit of the reflected CRC: shift right, and fold the polynomial
    0xA001 in when the bit shifted out was set. *)
Definition crc_shift (crc : Z) : Z :=
  if Z.testbit crc 0 then Z.lxor (Z.shiftr crc 1) 0xA001 else Z.shiftr crc 1.

Definition crc_byte (crc : Z) (b : byte) : Z :=
  Nat.iter 8 crc_shift (Z.lxor crc (byte_val b)).

Definition crc16 (data : list byte) : Z := fold_left crc_byte data 0xFFFF%Z.

(** Modelled from the spec: [crc16_modbus] of [renogy/utils.py]
    (section 4.1): CRC-16/Modbus, polynomial 0xA001, initial value
    0xFFFF, reflected, returned as (low byte, high byte). *)
Definition crc16_modbus (data : list byte) : Z * Z :=
  let crc := crc16 data in (Z.land crc 255, Z.shiftr crc 8).

End Utils.
Import Utils.

(* ===================================================================== *)
(** * Data model ([renogy/device.py]) *)
(* ===================================================================== *)

Inductive RenogyDeviceType : Set :=
| TEMPERATURE_SENSOR
| DOOR_SENSOR
| VOLTAGE_SENSOR
| CURRENT_SENSOR
| AMP_HOURS_SENSOR
| POWER_SENSOR
| ENERGY_STORAGE
| PERCENTAGE
| STRING_DATA
| INT_DATA.

(** The dataclass [RenogyDeviceData]. *)
Record RenogyDeviceData : Type := mkData {
  device_id : Z;
  device_name : pystr;
  device_unique_id : pystr;
  device_type : RenogyDeviceType;
  name : pystr;
  state : pyval;
  is_main : bool;
  attributes : gmap string pyval;
}.

(** One entry of [self.sections]: [{"register": r, "words": w}]. *)
Record section : Set := mkSection {
  register : Z;
  words : Z;
}.

(** What [parse_section] returns: [{"valid": v, "entities": es}]. *)
Record items : Type := mkItems {
  valid : bool;
  entities : list RenogyDeviceData;
}.

(** The four subclasses of [RenogyDevice]. *)
Inductive family : Set := Inverter | DcDcCharger | SmartShunt300 | TestDevice.

(** A device object: the fields of [RenogyDevice.__init__] and the
    fields the subclasses add ([model], [battery_type], [first_parse]).
    [self.client] is part of the run ([world]) below.  Each subclass
    initialiser below writes out the defaults of the base class
    ([function] 3, [device_id] 255, [READ_OPERATION] 3, no
    characteristics, index 0, event clear, no data) next to the fields
    it overrides; a field a subclass does not have holds a value that
    its decoder never reads. *)
Record RenogyDevice : Type := mkDevice {
  kind : family;
  mac : pystr;
  dev_device_name : option pystr;
  ha_device_name : pystr;
  dev_name : pystr;
  function : Z;
  dev_device_id : Z;
  sections : list section;
  section_index : nat;
  notification_event : bool;
  ret_dev_data : list RenogyDeviceData;
  NOTIFY_SERVICE_UUID : option pystr;
  WRITE_SERVICE_UUID : option pystr;
  READ_OPERATION : Z;
  model : pystr;
  battery_type : pyval;
  first_parse : bool;
}.

Definition set_model (d : RenogyDevice) (m : pystr) : RenogyDevice :=
  mkDevice (kind d) (mac d) (dev_device_name d) (ha_device_name d) (dev_name d)
    (function d) (dev_device_id d) (sections d) (section_index d)
    (notification_event d) (ret_dev_data d) (NOTIFY_SERVICE_UUID d)
    (WRITE_SERVICE_UUID d) (READ_OPERATION d) m (battery_type d) (first_parse d).

Definition set_battery_type (d : RenogyDevice) (b : pyval) : RenogyDevice :=
  mkDevice (kind d) (mac d) (dev_device_name d) (ha_device_name d) (dev_name d)
    (function d) (dev_device_id d) (sections d) (section_index d)
    (notification_event d) (ret_dev_data d) (NOTIFY_SERVICE_UUID d)
    (WRITE_SERVICE_UUID d) (READ_OPERATION d) (model d) b (first_parse d).

Definition set_first_parse (d : RenogyDevice) (b : bool) : RenogyDevice :=
  mkDevice (kind d) (mac d) (dev_device_name d) (ha_device_name d) (dev_name d)
    (function d) (dev_device_id d) (sections d) (section_index d)
    (notification_event d) (ret_dev_data d) (NOTIFY_SERVICE_UUID d)
    (WRITE_SERVICE_UUID d) (READ_OPERATION d) (model d) (battery_type d) b.

Definition set_section_index (d : RenogyDevice) (i : nat) : RenogyDevice :=
  mkDevice (kind d) (mac d) (dev_device_name d) (ha_device_name d) (dev_name d)
    (function d) (dev_device_id d) (sections d) i
    (notification_event d) (ret_dev_data d) (NOTIFY_SERVICE_UUID d)
    (WRITE_SERVICE_UUID d) (READ_OPERATION d) (model d) (battery_type d) (first_parse d).

Definition set_event (d : RenogyDevice) (e : bool) : RenogyDevice :=
  mkDevice (kind d) (mac d) (dev_device_name d) (ha_device_name d) (dev_name d)
    (function d) (dev_device_id d) (sections d) (section_index d)
    e (ret_dev_data d) (NOTIFY_SERVICE_UUID d)
    (WRITE_SERVICE_UUID d) (READ_OPERATION d) (model d) (battery_type d) (first_parse d).

Definition set_ret_dev_data (d : RenogyDevice) (l : list RenogyDeviceData) : RenogyDevice :=
  mkDevice (kind d) (mac d) (dev_device_name d) (ha_device_name d) (dev_name d)
    (function d) (dev_device_id d) (sections d) (section_index d)
    (notification_event d) l (NOTIFY_SERVICE_UUID d)
    (WRITE_SERVICE_UUID d) (READ_OPERATION d) (model d) (battery_type d) (first_parse d).

(** The property [device_unique_id] of [RenogyDevice]:
    ["renogy_" + self.mac.lower().replace(":", "_") + "_id"]. *)
Definition dev_unique_id (mac_ : pystr) : pystr :=
  lit "renogy_" ++ replace_char 58 95 (lower mac_) ++ lit "_id".

(** [self.device_unique_id + f"_{entity_id}"] *)
Definition entity_unique_id (mac_ : pystr) (entity_id : Z) : pystr :=
  dev_unique_id mac_ ++ lit "_" ++ str_of_int entity_id.

(** [RenogyDevice.create_generic_read_request]; [None] arguments and the
    [None] result are [option]s. *)
Definition create_generic_read_request (device_id_ function_ : Z)
    (regAddr readWrd : option Z) : res (option (list Z)) :=
  match regAddr, readWrd with
  | Some regAddr, Some readWrd =>
      let data := [device_id_; function_;
                   int_to_bytes regAddr 0; int_to_bytes regAddr 1;
                   int_to_bytes readWrd 0; int_to_bytes readWrd 1] in
      do raw <- bytes_of_ints data;
      let crc := crc16_modbus raw in
      Ok (Some (data ++ [fst crc] ++ [snd crc]))
  | _, _ => Ok None
  end.

(** [{"valid": False, "entities": []}] *)
Definition invalid_items : items := mkItems false [].

(** A decoder method: it may assign to fields of [self] and it may raise. *)
Definition parser : Type := RenogyDevice -> list byte -> RenogyDevice * res items.

(* ===================================================================== *)
(** * DC-DC charger ([renogy/device_dc_charger.py]) *)
(* ===================================================================== *)

Module DCCharger.

Definition CHARGING_STATE : gmap Z pystr :=
  <[0%Z := lit "deactivated"]> (
  <[1%Z := lit "activated"]> (
  <[2%Z := lit "mppt"]> (
  <[3%Z := lit "equalizing"]> (
  <[4%Z := lit "boost"]> (
  <[5%Z := lit "floating"]> (
  <[6%Z := lit "current limiting"]> (
  <[8%Z := lit "alternator direct"]> ∅))))))).

Definition BATTERY_TYPE : gmap Z pystr :=
  <[1%Z := lit "open"]> (
  <[2%Z := lit "sealed"]> (
  <[3%Z := lit "gel"]> (
  <[4%Z := lit "lithium"]> (
  <[5%Z := lit "custom"]> ∅)))).

(** [table.get(key)]: the entry, or [None].  The keys of both tables are
    integers and every lookup of the source passes the unscaled result
    of [bytes_to_int], an integer. *)
Definition dict_get (table : gmap Z pystr) (key : pyval) : pyval :=
  match key with
  | VInt k => match table !! k with Some s => VStr s | None => VNone end
  | _ => VNone
  end.

(** [DCChargerDevice.__init__] *)
Definition init (mac_ : pystr) (device_name_ : option pystr) (name_ : pystr) : RenogyDevice :=
  {| kind := DcDcCharger;
     mac := mac_;
     dev_device_name := device_name_;
     ha_device_name := lit "Renogy DC-DC Charger";
     dev_name := name_;
     function := 3;
     dev_device_id := 255;
     sections := [mkSection 12 8; mkSection 26 1; mkSection 288 3;
                  mkSection 57348 1; mkSection 256 30];
     section_index := 0;
     notification_event := false;
     ret_dev_data := [];
     NOTIFY_SERVICE_UUID := Some (lit "0000fff1-0000-1000-8000-00805f9b34fb");
     WRITE_SERVICE_UUID := Some (lit "0000ffd1-0000-1000-8000-00805f9b34fb");
     READ_OPERATION := 3;
     model := lit "Unknown";
     battery_type := VStr (lit "Unknown");
     first_parse := false |}.

Definition parse_device_info : parser := fun self bs =>
  match decode_utf8 (slice bs 3 19) with
  | Ok s => (set_model self (strip s), Ok (mkItems true []))
  | Raise e => (self, Raise e)
  end.

Definition parse_device_address : parser := fun self bs =>
  (self,
   do v <- bytes_to_int bs 4 1 None false;
   Ok (mkItems true
     [mkData 1 (ha_device_name self) (entity_unique_id (mac self) 2) INT_DATA
        (lit "Device ID") v false ∅])).

Definition parse_charging_info : parser := fun self bs =>
  let uid := entity_unique_id (mac self) in
  let ha := ha_device_name self in
  (self,
   do v3 <- bytes_to_int bs 3 2 None false;
   let d3 := mkData 2 (lit "Main Battery") (uid 3%Z) PERCENTAGE
               (lit "Battery Percent") v3 false ∅ in
   do v4 <- bytes_to_int bs 5 2 (Some 0.1%float) false;
   let d4 := mkData 2 (lit "Main Battery") (uid 4%Z) VOLTAGE_SENSOR
               (lit "Battery Voltage") v4 false ∅ in
   do v5 <- bytes_to_int bs 7 2 (Some 0.01%float) false;
   let d5 := mkData 1 ha (uid 5%Z) CURRENT_SENSOR
               (lit "Combined Charge Current") v5 true
               (<["model" := VStr (model self)]>
                  (<["battery_type" := battery_type self]> ∅)) in
   do v6 <- bytes_to_int bs 9 1 None false;
   let d6 := mkData 1 ha (uid 6%Z) TEMPERATURE_SENSOR
               (lit "Controller Temperature") v6 false ∅ in
   do v7 <- bytes_to_int bs 10 1 None false;
   let d7 := mkData 2 (lit "Main Battery") (uid 7%Z) TEMPERATURE_SENSOR
               (lit "Battery Temperature") v7 false ∅ in
   do v8 <- bytes_to_int bs 11 2 (Some 0.1%float) false;
   let d8 := mkData 3 (lit "Alternator") (uid 8%Z) VOLTAGE_SENSOR
               (lit "Alternator Voltage") v8 false ∅ in
   do v9 <- bytes_to_int bs 13 2 (Some 0.01%float) false;
   let d9 := mkData 3 (lit "Alternator") (uid 9%Z) CURRENT_SENSOR
               (lit "Alternator Current") v9 false ∅ in
   do v10 <- bytes_to_int bs 15 2 None false;
   let d10 := mkData 3 (lit "Alternator") (uid 10%Z) POWER_SENSOR
               (lit "Alternator Power") v10 false ∅ in
   do v11 <- bytes_to_int bs 17 2 (Some 0.1%float) false;
   let d11 := mkData 4 (lit "Solar") (uid 11%Z) VOLTAGE_SENSOR
               (lit "Solar Voltage") v11 false ∅ in
   do v12 <- bytes_to_int bs 19 2 (Some 0.01%float) false;
   let d12 := mkData 4 (lit "Solar") (uid 12%Z) CURRENT_SENSOR
               (lit "Solar Current") v12 false ∅ in
   do v13 <- bytes_to_int bs 21 2 None false;
   let d13 := mkData 4 (lit "Solar") (uid 13%Z) POWER_SENSOR
               (lit "Solar Power") v13 false ∅ in
   do v14 <- bytes_to_int bs 25 2 (Some 0.1%float) false;
   let d14 := mkData 1 ha (uid 14%Z) VOLTAGE_SENSOR
               (lit "Batt Min Voltage Today") v14 false ∅ in
   do v15 <- bytes_to_int bs 27 2 (Some 0.1%float) false;
   let d15 := mkData 1 ha (uid 15%Z) VOLTAGE_SENSOR
               (lit "Batt Max Voltage Today") v15 false ∅ in
   do v16 <- bytes_to_int bs 29 2 (Some 0.01%float) false;
   let d16 := mkData 1 ha (uid 16%Z) CURRENT_SENSOR
               (lit "Batt Max Current Today") v16 false ∅ in
   do v17 <- bytes_to_int bs 33 2 None false;
   let d17 := mkData 1 ha (uid 17%Z) POWER_SENSOR
               (lit "Batt Charging Power Today") v17 false ∅ in
   do v18 <- bytes_to_int bs 37 2 None false;
   let d18 := mkData 1 ha (uid 18%Z) AMP_HOURS_SENSOR
               (lit "Charging Amp Hours Today") v18 false ∅ in
   do v19 <- bytes_to_int bs 41 2 None false;
   let d19 := mkData 1 ha (uid 19%Z) ENERGY_STORAGE
               (lit "Power Generation Today") v19 false ∅ in
   do v20 <- bytes_to_int bs 45 2 None false;
   let d20 := mkData 1 ha (uid 20%Z) INT_DATA
               (lit "Total Working Days") v20 false ∅ in
   do v21 <- bytes_to_int bs 47 2 None false;
   let d21 := mkData 1 ha (uid 21%Z) INT_DATA
               (lit "Count Battery Overdischarged") v21 false ∅ in
   do v22 <- bytes_to_int bs 49 2 None false;
   let d22 := mkData 1 ha (uid 22%Z) INT_DATA
               (lit "Count Battery Fully Charged") v22 false ∅ in
   do v23 <- bytes_to_int bs 51 4 None false;
   let d23 := mkData 1 ha (uid 23%Z) AMP_HOURS_SENSOR
               (lit "Total Battery AH Accumulated") v23 false ∅ in
   do v24 <- bytes_to_int bs 59 4 None false;
   let d24 := mkData 1 ha (uid 24%Z) ENERGY_STORAGE
               (lit "Power Generation Total") v24 false ∅ in
   Ok (mkItems true
         [d3; d4; d5; d6; d7; d8; d9; d10; d11; d12; d13; d14; d15; d16;
          d17; d18; d19; d20; d21; d22; d23; d24])).

Definition parse_battery_type : parser := fun self bs =>
  match bytes_to_int bs 3 2 None false with
  | Ok code => (set_battery_type self (dict_get BATTERY_TYPE code), Ok (mkItems true []))
  | Raise e => (self, Raise e)
  end.

Definition parse_state : parser := fun self bs =>
  (self,
   do code <- bytes_to_int bs 2 1 None false;
   Ok (mkItems true
     [mkData 1 (ha_device_name self) (entity_unique_id (mac self) 25) STRING_DATA
        (lit "Charge State") (dict_get CHARGING_STATE code) false ∅])).

(** [DCChargerDevice.parse_section] *)
Definition parse_section (self : RenogyDevice) (bs : list byte) (section_index_ : nat)
    : RenogyDevice * res items :=
  match section_index_ with
  | 0 => parse_device_info self bs
  | 1 => parse_device_address self bs
  | 2 => parse_state self bs
  | 3 => parse_battery_type self bs
  | 4 => parse_charging_info self bs
  | _ => (self, Ok invalid_items)
  end.

End DCCharger.

(* ===================================================================== *)
(** * Inverter ([renogy/device_inverter.py]) *)
(* ===================================================================== *)

Module InverterDev.

(** [InverterDevice.__init__] *)
Definition init (mac_ : pystr) (device_name_ : option pystr) (name_ : pystr) : RenogyDevice :=
  {| kind := Inverter;
     mac := mac_;
     dev_device_name := device_name_;
     ha_device_name := lit "Renogy Inverter";
     dev_name := name_;
     function := 3;
     dev_device_id := 255;
     sections := [mkSection 4311 8; mkSection 4109 1; mkSection 4000 10;
                  mkSection 4408 6];
     section_index := 0;
     notification_event := false;
     ret_dev_data := [];
     NOTIFY_SERVICE_UUID := Some (lit "0000fff1-0000-1000-8000-00805f9b34fb");
     WRITE_SERVICE_UUID := Some (lit "0000ffd1-0000-1000-8000-00805f9b34fb");
     READ_OPERATION := 3;
     model := lit "Unknown";
     battery_type := VNone;
     first_parse := false |}.

Definition parse_inverter_model : parser := fun self bs =>
  match decode_utf8 (slice bs 3 19) with
  | Ok s => (set_model self (rstrip_nul s), Ok (mkItems true []))
  | Raise e => (self, Raise e)
  end.

Definition parse_device_id : parser := fun self bs =>
  (self,
   do v <- bytes_to_int bs 3 2 None false;
   Ok (mkItems true
     [mkData 1 (ha_device_name self) (entity_unique_id (mac self) 2) INT_DATA
        (lit "Device ID") v false ∅])).

Definition parse_inverter_stats : parser := fun self bs =>
  let uid := entity_unique_id (mac self) in
  let ha := ha_device_name self in
  (self,
   do v3 <- bytes_to_int bs 3 2 (Some 0.1%float) false;
   let d3 := mkData 1 ha (uid 3%Z) VOLTAGE_SENSOR (lit "Input Voltage") v3 false ∅ in
   do v4 <- bytes_to_int bs 5 2 (Some 0.01%float) false;
   let d4 := mkData 1 ha (uid 4%Z) CURRENT_SENSOR (lit "Input Current") v4 false ∅ in
   do v5 <- bytes_to_int bs 7 2 (Some 0.1%float) false;
   let d5 := mkData 1 ha (uid 5%Z) VOLTAGE_SENSOR (lit "Output Voltage") v5 false ∅ in
   do v6 <- bytes_to_int bs 9 2 (Some 0.01%float) false;
   let d6 := mkData 1 ha (uid 6%Z) CURRENT_SENSOR (lit "Output Current") v6 true
               (<["model" := VStr (model self)]> ∅) in
   do v7 <- bytes_to_int bs 11 2 (Some 0.01%float) false;
   let d7 := mkData 1 ha (uid 7%Z) INT_DATA (lit "Output Frequency") v7 false ∅ in
   do v8 <- bytes_to_int bs 13 2 (Some 0.1%float) false;
   let d8 := mkData 2 (lit "Main Battery") (uid 8%Z) VOLTAGE_SENSOR
               (lit "Battery Voltage") v8 false ∅ in
   do v9 <- bytes_to_int bs 15 2 (Some 0.1%float) false;
   let d9 := mkData 1 ha (uid 9%Z) TEMPERATURE_SENSOR
               (lit "Inverter Temperature") v9 false ∅ in
   do v10 <- bytes_to_int bs 21 2 (Some 0.01%float) false;
   let d10 := mkData 1 ha (uid 10%Z) INT_DATA (lit "Input Frequency") v10 false ∅ in
   Ok (mkItems true [d3; d4; d5; d6; d7; d8; d9; d10])).

Definition parse_load_info : parser := fun self bs =>
  let uid := entity_unique_id (mac self) in
  let ha := ha_device_name self in
  (self,
   do v18 <- bytes_to_int bs 3 2 (Some 0.1%float) false;
   let d18 := mkData 1 ha (uid 18%Z) CURRENT_SENSOR (lit "Load Current") v18 false ∅ in
   do v19 <- bytes_to_int bs 5 2 None false;
   let d19 := mkData 1 ha (uid 19%Z) POWER_SENSOR (lit "Load Active Power") v19 false ∅ in
   do v20 <- bytes_to_int bs 7 2 None false;
   let d20 := mkData 1 ha (uid 20%Z) POWER_SENSOR (lit "Load Apparent Power") v20 false ∅ in
   do v22 <- bytes_to_int bs 13 2 None false;
   let d22 := mkData 1 ha (uid 22%Z) PERCENTAGE (lit "Load Percentage") v22 false ∅ in
   Ok (mkItems true [d18; d19; d20; d22])).

(** [InverterDevice.parse_section] *)
Definition parse_section (self : RenogyDevice) (bs : list byte) (section_index_ : nat)
    : RenogyDevice * res items :=
  match section_index_ with
  | 0 => parse_inverter_model self bs
  | 1 => parse_device_id self bs
  | 2 => parse_inverter_stats self bs
  | 3 => parse_load_info self bs
  | _ => (self, Ok invalid_items)
  end.

End InverterDev.

(* ===================================================================== *)
(** * SmartShunt 300 ([renogy/device_shunt.py]) *)
(* ===================================================================== *)

Module Shunt.

(** [ShuntDevice.__init__]; the write characteristic stays [None]. *)
Definition init (mac_ : pystr) (device_name_ : option pystr) (name_ : pystr) : RenogyDevice :=
  {| kind := SmartShunt300;
     mac := mac_;
     dev_device_name := device_name_;
     ha_device_name := lit "Renogy Battery";
     dev_name := name_;
     function := 3;
     dev_device_id := 255;
     sections := [mkSection 256 110];
     section_index := 0;
     notification_event := false;
     ret_dev_data := [];
     NOTIFY_SERVICE_UUID := Some (lit "0000c411-0000-1000-8000-00805f9b34fb");
     WRITE_SERVICE_UUID := None;
     READ_OPERATION := 87;
     model := [];
     battery_type := VNone;
     first_parse := true |}.

(** [ShuntDevice.parse_section] *)
Definition parse_section (self : RenogyDevice) (bs : list byte) (section_index_ : nat)
    : RenogyDevice * res items :=
  if negb (section_index_ =? 0)%nat || negb (first_parse self)
     || (List.length bs <? 110)%nat
  then (self, Ok invalid_items)
  else
    let self := set_first_parse self false in
    let uid := entity_unique_id (mac self) in
    let ha := ha_device_name self in
    (self,
     do v1 <- bytes_to_int bs 34 2 (Some 0.1%float) false;
     let d1 := mkData 1 ha (uid 1%Z) PERCENTAGE (lit "Main Battery Percent") v1 true ∅ in
     do volts <- bytes_to_int bs 25 3 (Some 0.001%float) false;
     let d2 := mkData 1 ha (uid 2%Z) VOLTAGE_SENSOR (lit "Main Battery Voltage")
                 volts false ∅ in
     do v3 <- bytes_to_int bs 30 2 (Some 0.001%float) false;
     let d3 := mkData 2 (lit "Starter Battery") (uid 3%Z) VOLTAGE_SENSOR
                 (lit "Starter Battery Voltage") v3 false ∅ in
     do amps <- bytes_to_int bs 21 3 (Some 0.001%float) true;
     let d4 := mkData 1 ha (uid 4%Z) CURRENT_SENSOR (lit "Charge Amps") amps false ∅ in
     do watts <- py_mul volts amps;
     let d5 := mkData 1 ha (uid 5%Z) POWER_SENSOR (lit "Charge Watts") watts false ∅ in
     do v6 <- bytes_to_int bs 66 2 (Some 0.1%float) false;
     let d6 := mkData 1 ha (uid 6%Z) TEMPERATURE_SENSOR
                 (lit "Main Battery Temperature") v6 false ∅ in
     Ok (mkItems true [d1; d2; d3; d4; d5; d6])).

End Shunt.

(* ===================================================================== *)
(** * Test device ([renogy/device_test.py]) *)
(* ===================================================================== *)

Module Test.

(** [TestDevice.__init__]; both characteristics are the sentinel ["TEST"]. *)
Definition init (mac_ : pystr) (device_name_ : option pystr) (name_ : pystr) : RenogyDevice :=
  {| kind := TestDevice;
     mac := mac_;
     dev_device_name := device_name_;
     ha_device_name := lit "Renogy Battery";
     dev_name := name_;
     function := 3;
     dev_device_id := 255;
     sections := [mkSection 256 110];
     section_index := 0;
     notification_event := false;
     ret_dev_data := [];
     NOTIFY_SERVICE_UUID := Some (lit "TEST");
     WRITE_SERVICE_UUID := Some (lit "TEST");
     READ_OPERATION := 3;
     model := [];
     battery_type := VNone;
     first_parse := true |}.

(** [TestDevice.parse_section] *)
Definition parse_section (self : RenogyDevice) (bs : list byte) (section_index_ : nat)
    : RenogyDevice * res items :=
  if negb (section_index_ =? 0)%nat || negb (first_parse self)
  then (self, Ok invalid_items)
  else
    let self := set_first_parse self false in
    let uid := entity_unique_id (mac self) in
    let ha := ha_device_name self in
    let d1 := mkData 1 ha (uid 1%Z) PERCENTAGE (lit "Main Battery Percent")
                (VFloat 85.2%float) true (<["model" := VStr (lit "SmartShunt300")]> ∅) in
    let volts := VFloat 13.6%float in
    let d2 := mkData 1 ha (uid 2%Z) VOLTAGE_SENSOR (lit "Main Battery Voltage")
                volts false ∅ in
    let d3 := mkData 2 (lit "Starter Battery") (uid 3%Z) VOLTAGE_SENSOR
                (lit "Starter Battery Voltage") (VFloat 12.6%float) false ∅ in
    let amps := VFloat 3.15%float in
    let d4 := mkData 1 ha (uid 4%Z) CURRENT_SENSOR (lit "Charge Amps") amps false ∅ in
    (self,
     do watts <- py_mul volts amps;
     let d5 := mkData 1 ha (uid 5%Z) POWER_SENSOR (lit "Charge Watts") watts false ∅ in
     let d6 := mkData 1 ha (uid 6%Z) TEMPERATURE_SENSOR
                 (lit "Main Battery Temperature") (VFloat 12.1%float) false ∅ in
     let volts := VFloat 12.45%float in
     let d7 := mkData 1 ha (uid 7%Z) VOLTAGE_SENSOR (lit "Main Battery Voltage (Test)")
                 volts false (<["test_attribute" := VStr (lit "test_value")]> ∅) in
     Ok (mkItems true [d1; d2; d3; d4; d5; d6; d7])).

End Test.

(** Dynamic dispatch of the abstract method [RenogyDevice.parse_section]
    on the class of the object. *)
Definition parse_section (self : RenogyDevice) (bs : list byte) (section_index_ : nat)
    : RenogyDevice * res items :=
  match kind self with
  | Inverter => InverterDev.parse_section self bs section_index_
  | DcDcCharger => DCCharger.parse_section self bs section_index_
  | SmartShunt300 => Shunt.parse_section self bs section_index_
  | TestDevice => Test.parse_section self bs section_index_
  end.

(* ===================================================================== *)
(** * The device session ([RenogyDevice.execute]) *)
(* ===================================================================== *)

(** ** The BLE link

    The link is outside the program.  A [Transport] fixes how it behaves
    during one run: what [establish_connection] does, which writes fail,
    and which notification payloads arrive while the coroutine is
    suspended in its n-th [asyncio.sleep(.2)].  [start_notify] and
    [disconnect] are taken to succeed; [LinkFaults] and [execute_with]
    below lift that. *)
Record Transport : Type := mkTransport {
  connect_result : res bool;
  write_raises : nat -> bool;
  notifications : nat -> list (list byte);
}.

(** [bleak.backends.device.BLEDevice], with the link behind it. *)
Record BLEDevice : Type := mkBLEDevice {
  address : pystr;
  ble_name : option pystr;
  link : Transport;
}.

(** The calls made on the link, in the order they are made. *)
Inductive call : Type :=
| Connect (addr : pystr)
| StartNotify (uuid : pystr)
| Write (uuid : pystr) (frame : list byte)
| Disconnect.

(** The state of one run of [execute]: the device object, whether
    [self.client] is set, the calls made so far and the number of sleeps
    completed. *)
Record world : Type := mkWorld {
  dev : RenogyDevice;
  client_set : bool;
  calls : list call;
  ticks : nat;
}.

Definition with_dev (w : world) (d : RenogyDevice) : world :=
  mkWorld d (client_set w) (calls w) (ticks w).

Definition emit (w : world) (c : call) : world :=
  mkWorld (dev w) (client_set w) (calls w ++ [c]) (ticks w).

Definition is_write (c : call) : bool :=
  match c with Write _ _ => true | _ => false end.

(** The write calls among [cs]. *)
Definition writes (cs : list call) : list call := List.filter is_write cs.

(** [operation == self.READ_OPERATION] *)
Definition py_eq_int (v : pyval) (n : Z) : bool :=
  match v with
  | VInt z => (z =? n)%Z
  | _ => false
  end.

(** [RenogyDevice.notification_callback] *)
Definition notification_callback (self : RenogyDevice) (data : list byte)
    : RenogyDevice * res unit :=
  match bytes_to_int data 1 1 None false with
  | Raise e => (self, Raise e)
  | Ok operation =>
      if py_eq_int operation (READ_OPERATION self) then
        match parse_section self data (section_index self) with
        | (self, Ok its) =>
            if valid its then
              let self := set_ret_dev_data self (ret_dev_data self ++ entities its) in
              (set_event self true, Ok tt)
            else (self, Ok tt)
        | (self, Raise e) => (self, Raise e)
        end
      else (self, Ok tt)
  end.

(** The link runs the callback for one payload; an exception raised in
    the callback ends the callback and does not reach [execute]. *)
Definition deliver (self : RenogyDevice) (data : list byte) : RenogyDevice :=
  fst (notification_callback self data).

(** [await asyncio.sleep(.2)]: the payloads of this sleep are delivered
    in order. *)
Definition sleep (t : Transport) (w : world) : world :=
  mkWorld (fold_left deliver (notifications t (ticks w)) (dev w))
          (client_set w) (calls w) (S (ticks w)).

(** [RenogyDevice.read_section] *)
Definition read_section (t : Transport) (w : world) : world * res unit :=
  let self := dev w in
  let index := section_index self in
  let w := with_dev w (set_event self false) in
  match sections self !! index with
  | None => (w, Raise IndexError)
  | Some s =>
      match create_generic_read_request (dev_device_id self) (function self)
              (Some (register s)) (Some (words s)) with
      | Raise e => (w, Raise e)
      | Ok None => (w, Raise TypeError)
      | Ok (Some request) =>
          match bytes_of_ints request, WRITE_SERVICE_UUID self with
          | Raise e, _ => (w, Raise e)
          | Ok _, None => (w, Raise TypeError)
          | Ok frame, Some uuid =>
              let n := List.length (writes (calls w)) in
              let w := emit w (Write uuid frame) in
              if write_raises t n then (w, Raise BleakError) else (w, Ok tt)
          end
      end
  end.

(** The wait for the event: [n] is [25 - countwait]. *)
Fixpoint wait_loop (t : Transport) (n : nat) (w : world) : world :=
  match n with
  | 0 => w
  | S n' =>
      if notification_event (dev w) then w else wait_loop t n' (sleep t w)
  end.

(** The inner loop [while countsent < 2 and recieved == 0]: [n] is
    [2 - countsent]; the result is whether [recieved] became 1. *)
Fixpoint send_loop (t : Transport) (n : nat) (w : world) : world * res bool :=
  match n with
  | 0 => (w, Ok false)
  | S n' =>
      let (w, r) :=
        match WRITE_SERVICE_UUID (dev w) with
        | Some _ => read_section t w
        | None => (w, Ok tt)
        end in
      match r with
      | Raise e => (w, Raise e)
      | Ok _ =>
          let w := wait_loop t 25 w in
          if notification_event (dev w) then (w, Ok true)
          else send_loop t n' w
      end
  end.

(** The outer loop [while self.section_index < len(self.sections)].
    Every round that does not raise advances the index by one, so the
    loop is given [fuel] rounds; [None] means the fuel ran out. *)
Fixpoint section_loop (t : Transport) (fuel : nat) (w : world)
    : option (world * res unit) :=
  if (section_index (dev w) <? List.length (sections (dev w)))%nat then
    match fuel with
    | 0 => None
    | S fuel' =>
        match send_loop t 2 w with
        | (w, Raise e) => Some (w, Raise e)
        | (w, Ok true) =>
            section_loop t fuel'
              (with_dev w (set_section_index (dev w) (S (section_index (dev w)))))
        | (w, Ok false) => Some (w, Raise DeviceCommunicationError)
        end
    end
  else Some (w, Ok tt).

(** How the [try] block of [execute] ends when it does not raise. *)
Inductive try_end : Set :=
| ReturnedEmpty   (* the [return []] for a missing notify characteristic *)
| FellThrough.    (* the end of the block *)

(** The [try] block of [execute]. *)
Definition execute_try (ble_device : option BLEDevice) (fuel : nat) (w : world)
    : option (world * res try_end) :=
  let self := dev w in
  if bool_decide (WRITE_SERVICE_UUID self = Some (lit "TEST")) then
    match parse_section self (list_byte_of_string "ab232") (section_index self) with
    | (self, Raise e) => Some (with_dev w self, Raise e)
    | (self, Ok its) =>
        if valid its then
          let self := set_ret_dev_data self (ret_dev_data self ++ entities its) in
          Some (with_dev w (set_event self true), Ok FellThrough)
        else Some (with_dev w self, Ok FellThrough)
    end
  else
    match NOTIFY_SERVICE_UUID self with
    | None => Some (w, Ok ReturnedEmpty)
    | Some notify_uuid =>
        match ble_device with
        | None => Some (w, Raise AttributeError)
        | Some ble =>
            let t := link ble in
            let w := emit w (Connect (address ble)) in
            match connect_result t with
            | Raise e => Some (w, Raise e)
            | Ok is_connected =>
                let w := mkWorld (dev w) true (calls w) (ticks w) in
                if negb is_connected then Some (w, Raise DeviceConnectionError)
                else
                  let w := emit w (StartNotify notify_uuid) in
                  match section_loop t fuel w with
                  | None => None
                  | Some (w, Raise e) => Some (w, Raise e)
                  | Some (w, Ok _) => Some (emit w Disconnect, Ok FellThrough)
                  end
            end
        end
    end.

(** [RenogyDevice.add_devices], over the list it walks. *)
Fixpoint add_devices (self : RenogyDevice) (l : list RenogyDeviceData)
    : res (list RenogyDeviceData) :=
  match l with
  | [] => Ok []
  | d :: r =>
      if is_main d then
        match dev_device_name self with
        | None => Raise AttributeError
        | Some dn =>
            let attrs :=
              <["config_name" := VStr (dev_name self)]> (
              <["device_name" := VStr (strip dn)]> (
              <["mac" := VStr (mac self)]> (attributes d))) in
            do r' <- add_devices self r;
            Ok (mkData (device_id d) (device_name d) (device_unique_id d)
                  (device_type d) (name d) (state d) (is_main d) attrs :: r')
        end
      else do r' <- add_devices self r; Ok (d :: r')
  end.

(** [RenogyDevice.execute], given the fuel of the outer loop: the final
    state of the run and what the call returns or raises. *)
Definition execute_fuel (fuel : nat) (self : RenogyDevice) (ble_device : option BLEDevice)
    : option (world * res (list RenogyDeviceData)) :=
  let w := mkWorld self false [] 0 in
  match execute_try ble_device fuel w with
  | None => None
  | Some (w, Raise _) =>
      Some (if client_set w then emit w Disconnect else w, Ok [])
  | Some (w, Ok ReturnedEmpty) => Some (w, Ok [])
  | Some (w, Ok FellThrough) =>
      match add_devices (dev w) (ret_dev_data (dev w)) with
      | Raise e => Some (w, Raise e)
      | Ok l => Some (with_dev w (set_ret_dev_data (dev w) l), Ok l)
      end
  end.

(** [RenogyDevice.execute]: one round of the outer loop per remaining
    section is enough, as the session-loop section proves. *)
Definition execute (self : RenogyDevice) (ble_device : option BLEDevice)
    : option (world * res (list RenogyDeviceData)) :=
  execute_fuel (List.length (sections self) - section_index self) self ble_device.

(** ** A link whose [start_notify] and [disconnect] can fail

    [LinkFaults] adds to a [Transport] whether [start_notify] raises and
    which calls of [disconnect], counted from 0 in the order they are
    made, raise.  [execute_with] is [RenogyDevice.execute] on such a
    link: an exception of [start_notify] or of the [disconnect] at the
    end of the [try] block reaches the handler, which disconnects (again)
    when [self.client] is set; an exception of the handler's own
    [disconnect] leaves [execute].  [execute] is [execute_with] on a link
    without such faults (see [execute_with_no_faults]). *)
Record LinkFaults : Type := mkFaults {
  start_notify_raises : bool;
  disconnect_raises : nat -> bool;
}.

Definition no_faults : LinkFaults := mkFaults false (fun _ => false).

Definition is_disconnect (c : call) : bool :=
  match c with Disconnect => true | _ => false end.

(** [await self.client.disconnect()] *)
Definition disconnect (fl : LinkFaults) (w : world) : world * res unit :=
  let n := List.length (List.filter is_disconnect (calls w)) in
  let w := emit w Disconnect in
  if disconnect_raises fl n then (w, Raise BleakError) else (w, Ok tt).

(** The [try] block of [execute]. *)
Definition execute_try_with (fl : LinkFaults) (ble_device : option BLEDevice)
    (fuel : nat) (w : world) : option (world * res try_end) :=
  let self := dev w in
  if bool_decide (WRITE_SERVICE_UUID self = Some (lit "TEST")) then
    match parse_section self (list_byte_of_string "ab232") (section_index self) with
    | (self, Raise e) => Some (with_dev w self, Raise e)
    | (self, Ok its) =>
        if valid its then
          let self := set_ret_dev_data self (ret_dev_data self ++ entities its) in
          Some (with_dev w (set_event self true), Ok FellThrough)
        else Some (with_dev w self, Ok FellThrough)
    end
  else
    match NOTIFY_SERVICE_UUID self with
    | None => Some (w, Ok ReturnedEmpty)
    | Some notify_uuid =>
        match ble_device with
        | None => Some (w, Raise AttributeError)
        | Some ble =>
            let t := link ble in
            let w := emit w (Connect (address ble)) in
            match connect_result t with
            | Raise e => Some (w, Raise e)
            | Ok is_connected =>
                let w := mkWorld (dev w) true (calls w) (ticks w) in
                if negb is_connected then Some (w, Raise DeviceConnectionError)
                else
                  let w := emit w (StartNotify notify_uuid) in
                  if start_notify_raises fl then Some (w, Raise BleakError)
                  else
                    match section_loop t fuel w with
                    | None => None
                    | Some (w, Raise e) => Some (w, Raise e)
                    | Some (w, Ok _) =>
                        match disconnect fl w with
                        | (w, Raise e) => Some (w, Raise e)
                        | (w, Ok _) => Some (w, Ok FellThrough)
                        end
                    end
            end
        end
    end.

(** [RenogyDevice.execute] on a link with faults, given the fuel of the
    outer loop. *)
Definition execute_with_fuel (fl : LinkFaults) (fuel : nat) (self : RenogyDevice)
    (ble_device : option BLEDevice)
    : option (world * res (list RenogyDeviceData)) :=
  let w := mkWorld self false [] 0 in
  match execute_try_with fl ble_device fuel w with
  | None => None
  | Some (w, Raise _) =>
      if client_set w then
        match disconnect fl w with
        | (w, Raise e) => Some (w, Raise e)
        | (w, Ok _) => Some (w, Ok [])
        end
      else Some (w, Ok [])
  | Some (w, Ok ReturnedEmpty) => Some (w, Ok [])
  | Some (w, Ok FellThrough) =>
      match add_devices (dev w) (ret_dev_data (dev w)) with
      | Raise e => Some (w, Raise e)
      | Ok l => Some (with_dev w (set_ret_dev_data (dev w) l), Ok l)
      end
  end.

Definition execute_with (fl : LinkFaults) (self : RenogyDevice)
    (ble_device : option BLEDevice)
    : option (world * res (list RenogyDeviceData)) :=
  execute_with_fuel fl (List.length (sections self) - section_index self) self
    ble_device.

(* ===================================================================== *)
(** * Dispatch ([api.py]) *)
(* ===================================================================== *)

Module API.

(** [API.get_devices].  [lookup] is
    [bluetooth.async_ble_device_from_address(hass, .)].  The result is
    the list of calls made on the link and what the method returns or
    raises. *)
Definition get_devices (lookup : pystr -> option BLEDevice)
    (mac_ name_ device_type_ : pystr)
    : option (list call * res (list RenogyDeviceData)) :=
  let resolved : res (option BLEDevice * option pystr) :=
    if bool_decide (device_type_ = lit "TestDevice") then
      Ok (None, Some (lit "Test_A1234"))
    else
      match lookup mac_ with
      | None => Raise ConfigEntryNotReady
      | Some ble => Ok (Some ble, ble_name ble)
      end in
  match resolved with
  | Raise e => Some ([], Raise e)
  | Ok (ble_device, device_name_) =>
      let ran : option (list call * res (list RenogyDeviceData)) :=
        if bool_decide (device_type_ = lit "Inverter") then
          match execute (InverterDev.init mac_ device_name_ name_) ble_device with
          | Some (w, r) => Some (calls w, r)
          | None => None
          end
        else if bool_decide (device_type_ = lit "DcDcCharger") then
          match execute (DCCharger.init mac_ device_name_ name_) ble_device with
          | Some (w, r) => Some (calls w, r)
          | None => None
          end
        else if bool_decide (device_type_ = lit "SmartShunt300") then
          match execute (Shunt.init mac_ device_name_ name_) ble_device with
          | Some (w, r) => Some (calls w, r)
          | None => None
          end
        else if bool_decide (device_type_ = lit "TestDevice") then
          match execute (Test.init mac_ device_name_ name_) None with
          | Some (w, r) => Some (calls w, r)
          | None => None
          end
        else Some ([], Ok []) in
      match ran with
      | None => None
      | Some (cs, Raise e) => Some (cs, Raise e)
      | Some (cs, Ok devicesRet) =>
          if (List.length devicesRet =? 0)%nat then Some (cs, Raise APIConnectionError)
          else Some (cs, Ok devicesRet)
      end
  end.

End API.

(* ===================================================================== *)
(** * Properties *)
(* ===================================================================== *)

(** ** Request framing *)

Section Framing.

Local Open Scope Z_scope.

Lemma int_to_bytes_hi (v : Z) : 0 <= v < 65536 -> int_to_bytes v 0 = v / 256.
Proof.
  intros Hv. unfold int_to_bytes. simpl.
  change 255 with (Z.ones 8). rewrite Z.land_ones by lia.
  rewrite Z.shiftr_div_pow2 by lia. change (2 ^ 8) with 256.
  apply Z.mod_small. split.
  - apply Z.div_pos; lia.
  - apply Z.div_lt_upper_bound; lia.
Qed.

Lemma int_to_bytes_lo (v : Z) : int_to_bytes v 1 = v mod 256.
Proof.
  unfold int_to_bytes. simpl.
  change 255 with (Z.ones 8). now rewrite Z.land_ones by lia.
Qed.

Lemma int_to_bytes_range (v i : Z) : 0 <= int_to_bytes v i < 256.
Proof.
  unfold int_to_bytes. change 255 with (Z.ones 8).
  destruct (i =? 0); rewrite Z.land_ones by lia; apply Z.mod_pos_bound; lia.
Qed.

Lemma bytes_of_ints_total (l : list Z) :
  Forall (fun z => 0 <= z < 256) l ->
  exists raw, bytes_of_ints l = Ok raw /\ map byte_val raw = l.
Proof.
  induction 1 as [|z r Hz _ [raw [IH1 IH2]]]; simpl.
  - now exists [].
  - replace ((0 <=? z) && (z <? 256))%bool with true
      by (symmetry; apply andb_true_iff; split; [apply Z.leb_le | apply Z.ltb_lt]; lia).
    destruct (Byte.of_N (Z.to_N z)) as [b|] eqn:Hb.
    + exists (b :: raw). rewrite IH1. simpl. split; [reflexivity|].
      rewrite IH2. f_equal. unfold byte_val.
      apply Byte.to_of_N in Hb. rewrite Hb. apply Z2N.id. lia.
    + apply Byte.of_N_None_iff in Hb. lia.
Qed.

Lemma byte_val_range (b : byte) : 0 <= byte_val b < 256.
Proof.
  unfold byte_val. pose proof (Byte.to_N_bounded b). lia.
Qed.

Lemma lxor_range (n a b : Z) :
  0 <= n -> 0 <= a < 2 ^ n -> 0 <= b < 2 ^ n -> 0 <= Z.lxor a b < 2 ^ n.
Proof.
  intros Hn Ha Hb.
  assert (H0 : 0 <= Z.lxor a b) by (apply Z.lxor_nonneg; lia).
  split; [exact H0|].
  destruct (Z.eq_dec (Z.lxor a b) 0) as [->|Hne]; [apply Z.pow_pos_nonneg; lia|].
  assert (Hpos : 0 < n).
  { destruct (Z.eq_dec n 0) as [->|]; [|lia].
    change (2 ^ 0) with 1 in *. replace a with 0 in Hne by lia.
    replace b with 0 in Hne by lia. now elim Hne. }
  apply Z.log2_lt_pow2; [lia|].
  eapply Z.le_lt_trans; [apply Z.log2_lxor; lia|].
  apply Z.max_lub_lt.
  - destruct (Z.eq_dec a 0) as [->|]; [simpl|apply Z.log2_lt_pow2]; lia.
  - destruct (Z.eq_dec b 0) as [->|]; [simpl|apply Z.log2_lt_pow2]; lia.
Qed.

Lemma crc_shift_range (crc : Z) : 0 <= crc < 65536 -> 0 <= crc_shift crc < 65536.
Proof.
  intros H. unfold crc_shift.
  assert (Hs : 0 <= Z.shiftr crc 1 < 32768).
  { rewrite Z.shiftr_div_pow2 by lia. change (2 ^ 1) with 2. split.
    - apply Z.div_pos; lia.
    - apply Z.div_lt_upper_bound; lia. }
  destruct (Z.testbit crc 0); [|lia].
  apply (lxor_range 16); lia.
Qed.

Lemma crc_byte_range (crc : Z) (b : byte) :
  0 <= crc < 65536 -> 0 <= crc_byte crc b < 65536.
Proof.
  intros H. unfold crc_byte.
  assert (Hx : 0 <= Z.lxor crc (byte_val b) < 65536).
  { pose proof (byte_val_range b). apply (lxor_range 16); lia. }
  simpl. repeat apply crc_shift_range. exact Hx.
Qed.

Lemma crc16_range (data : list byte) : 0 <= crc16 data < 65536.
Proof.
  unfold crc16. assert (H : 0 <= 0xFFFF < 65536) by lia.
  revert H. generalize 0xFFFF. induction data as [|b r IH]; intros c Hc; simpl.
  - exact Hc.
  - apply IH. now apply crc_byte_range.
Qed.

Lemma crc16_modbus_range (data : list byte) :
  0 <= fst (crc16_modbus data) < 256 /\ 0 <= snd (crc16_modbus data) < 256.
Proof.
  unfold crc16_modbus. simpl. pose proof (crc16_range data) as H. split.
  - change 255 with (Z.ones 8). rewrite Z.land_ones by lia. apply Z.mod_pos_bound. lia.
  - rewrite Z.shiftr_div_pow2 by lia. change (2 ^ 8) with 256. split.
    + apply Z.div_pos; lia.
    + apply Z.div_lt_upper_bound; lia.
Qed.

(** The CRC of the specification is the published CRC-16/MODBUS: its
    check value over the ASCII digits 1 to 9 is 0x4B37. *)
Example crc16_modbus_check_value :
  crc16_modbus (list_byte_of_string "123456789") = (0x37, 0x4B).
Proof. reflexivity. Qed.

(** C2. For every [device_id] and [function] in u8 and every [register]
    and [word_count] in u16, the read request is the 8-element frame
    [device_id, function, register_hi, register_lo, word_count_hi,
    word_count_lo, crc_lo, crc_hi], every element of it is a byte, and
    [(crc_lo, crc_hi)] is the CRC-16/Modbus of the first six bytes. *)
Theorem read_request_frame (device_id_ function_ register_ word_count : Z) :
  0 <= device_id_ < 256 -> 0 <= function_ < 256 ->
  0 <= register_ < 65536 -> 0 <= word_count < 65536 ->
  exists (frame : list Z) (first6 : list byte) (crc_lo crc_hi : Z),
    create_generic_read_request device_id_ function_ (Some register_) (Some word_count)
      = Ok (Some frame)
    /\ frame = [device_id_; function_; register_ / 256; register_ mod 256;
                word_count / 256; word_count mod 256; crc_lo; crc_hi]
    /\ List.length frame = 8%nat
    /\ Forall (fun z => 0 <= z < 256) frame
    /\ map byte_val first6 = take 6 frame
    /\ crc16_modbus first6 = (crc_lo, crc_hi).
Proof.
  intros Hd Hf Hr Hw.
  unfold create_generic_read_request.
  rewrite !int_to_bytes_lo, !int_to_bytes_hi by assumption.
  set (data := [device_id_; function_; register_ / 256; register_ mod 256;
                word_count / 256; word_count mod 256]).
  assert (Hdata : Forall (fun z => 0 <= z < 256) data).
  { unfold data. repeat constructor; try lia;
      try (apply Z.div_pos; lia); try (apply Z.div_lt_upper_bound; lia);
      apply Z.mod_pos_bound; lia. }
  destruct (bytes_of_ints_total data Hdata) as [raw [Hraw Hmap]].
  rewrite Hraw. simpl.
  pose proof (crc16_modbus_range raw) as [Hlo Hhi].
  exists (data ++ [fst (crc16_modbus raw)] ++ [snd (crc16_modbus raw)]),
    raw, (fst (crc16_modbus raw)), (snd (crc16_modbus raw)).
  repeat split; try reflexivity; try lia.
  - apply Forall_app. split; [exact Hdata|]. repeat constructor; lia.
  - exact Hmap.
Qed.

Lemma read_request_frame_witness :
  exists (frame : list Z) (first6 : list byte) (crc_lo crc_hi : Z),
    create_generic_read_request 255 3 (Some 256) (Some 110) = Ok (Some frame)
    /\ frame = [255; 3; 256 / 256; 256 mod 256; 110 / 256; 110 mod 256; crc_lo; crc_hi]
    /\ List.length frame = 8%nat
    /\ Forall (fun z => 0 <= z < 256) frame
    /\ map byte_val first6 = take 6 frame
    /\ crc16_modbus first6 = (crc_lo, crc_hi).
Proof. apply (read_request_frame 255 3 256 110); lia. Defined.

(** The known vector of the specification: device 255, function 3,
    register 256, 110 words. *)
Example read_request_known_vector :
  create_generic_read_request 255 3 (Some 256) (Some 110)
  = Ok (Some [255; 3; 1; 0; 0; 110; 208; 4]).
Proof. reflexivity. Qed.

End Framing.

(** ** Reading fields of a payload *)

Section Fields.

Lemma res_bind_ok {A B : Type} (m : res A) (k : A -> res B) (b : B) :
  res_bind m k = Ok b -> exists a, m = Ok a /\ k a = Ok b.
Proof. destruct m as [a|e]; simpl; [eauto | discriminate]. Qed.

Lemma bytes_to_int_raw_in_range (bs : list byte) (off len : nat) (sg : bool) :
  off + len <= List.length bs ->
  bytes_to_int_raw bs off len sg
  = Ok (let u := from_bytes_big (slice bs off (off + len)) in
        if sg then to_signed len u else u).
Proof.
  intros H. unfold bytes_to_int_raw.
  destruct (Nat.ltb_spec (List.length bs) (off + len)); [lia | reflexivity].
Qed.

Lemma bytes_to_int_short (bs : list byte) (off len : nat) (sc : option float) (sg : bool) :
  List.length bs < off + len -> bytes_to_int bs off len sc sg = Raise RangeError.
Proof.
  intros H. unfold bytes_to_int, bytes_to_int_raw.
  destruct (Nat.ltb_spec (List.length bs) (off + len)); [reflexivity | lia].
Qed.

(** An unscaled read gives an integer. *)
Lemma bytes_to_int_unscaled (bs : list byte) (off len : nat) (sg : bool) (v : pyval) :
  bytes_to_int bs off len None sg = Ok v -> exists n, v = VInt n.
Proof.
  unfold bytes_to_int. intros H. apply res_bind_ok in H as [n [_ H]].
  exists n. congruence.
Qed.

(** A scaled read succeeds on a long enough payload, with a float. *)
Lemma bytes_to_int_scaled (bs : list byte) (off len : nat) (s : float) (sg : bool) :
  off + len <= List.length bs ->
  exists f, bytes_to_int bs off len (Some s) sg = Ok (VFloat f).
Proof.
  intros H. unfold bytes_to_int. rewrite bytes_to_int_raw_in_range by exact H.
  simpl. eauto.
Qed.

Lemma bytes_to_int_plain (bs : list byte) (off len : nat) (sg : bool) :
  off + len <= List.length bs ->
  exists n, bytes_to_int bs off len None sg = Ok (VInt n).
Proof.
  intros H. unfold bytes_to_int. rewrite bytes_to_int_raw_in_range by exact H.
  simpl. eauto.
Qed.

(** The one-byte unsigned field at [off]. *)
Lemma bytes_to_int_byte (bs : list byte) (off : nat) (b : byte) :
  bs !! off = Some b ->
  bytes_to_int bs off 1 None false = Ok (VInt (byte_val b)).
Proof.
  intros H. pose proof (lookup_lt_Some _ _ _ H) as Hlen.
  unfold bytes_to_int. rewrite bytes_to_int_raw_in_range by lia.
  unfold slice. replace (off + 1 - off) with 1 by lia.
  rewrite (drop_S _ _ _ H). reflexivity.
Qed.

(** The two-byte unsigned big-endian field at [off]. *)
Lemma bytes_to_int_word (bs : list byte) (off : nat) (hi lo : byte) :
  bs !! off = Some hi -> bs !! S off = Some lo ->
  bytes_to_int bs off 2 None false = Ok (VInt (byte_val hi * 256 + byte_val lo)).
Proof.
  intros H1 H2. pose proof (lookup_lt_Some _ _ _ H2) as Hlen.
  unfold bytes_to_int. rewrite bytes_to_int_raw_in_range by lia.
  unfold slice. replace (off + 2 - off) with 2 by lia.
  rewrite (drop_S _ _ _ H1), (drop_S _ _ _ H2). reflexivity.
Qed.

End Fields.

(** Inversion of a chain of [do] steps that ended in [Ok]. *)
Ltac bind_inv H :=
  repeat (apply res_bind_ok in H; destruct H as [? [? H]]).

(** ** The lookup tables of the DC-DC charger *)

Section Tables.

Import DCCharger.
Local Open Scope Z_scope.

(** The charging-state table read as a function of the code: the eight
    codes 0 to 6 and 8 have a name, every other code has none. *)
Definition charging_state_name (code : Z) : pyval :=
  if code =? 0 then VStr (lit "deactivated")
  else if code =? 1 then VStr (lit "activated")
  else if code =? 2 then VStr (lit "mppt")
  else if code =? 3 then VStr (lit "equalizing")
  else if code =? 4 then VStr (lit "boost")
  else if code =? 5 then VStr (lit "floating")
  else if code =? 6 then VStr (lit "current limiting")
  else if code =? 8 then VStr (lit "alternator direct")
  else VNone.

(** The battery-type table read as a function of the code. *)
Definition battery_type_name (code : Z) : pyval :=
  if code =? 1 then VStr (lit "open")
  else if code =? 2 then VStr (lit "sealed")
  else if code =? 3 then VStr (lit "gel")
  else if code =? 4 then VStr (lit "lithium")
  else if code =? 5 then VStr (lit "custom")
  else VNone.

Ltac split_code code :=
  repeat match goal with
         | |- context [code =? ?k] =>
             destruct (Z.eqb_spec code k); [subst code; reflexivity|]
         end.

Lemma charging_state_get (code : Z) :
  dict_get CHARGING_STATE (VInt code) = charging_state_name code.
Proof.
  unfold charging_state_name. split_code code.
  unfold dict_get, CHARGING_STATE.
  rewrite !lookup_insert_ne by congruence. now rewrite lookup_empty.
Qed.

Lemma battery_type_get (code : Z) :
  dict_get BATTERY_TYPE (VInt code) = battery_type_name code.
Proof.
  unfold battery_type_name. split_code code.
  unfold dict_get, BATTERY_TYPE.
  rewrite !lookup_insert_ne by congruence. now rewrite lookup_empty.
Qed.

Lemma charging_state_missing (code : Z) :
  CHARGING_STATE !! code = None <-> ~ (0 <= code <= 6 \/ code = 8).
Proof.
  pose proof (charging_state_get code) as H.
  unfold dict_get, charging_state_name in H. split.
  - intros Hn. rewrite Hn in H.
    repeat match type of H with
           | context [code =? ?k] => destruct (Z.eqb_spec code k); [discriminate|]
           end. lia.
  - intros Hn.
    repeat match type of H with
           | context [code =? ?k] => destruct (Z.eqb_spec code k); [lia|]
           end.
    destruct (CHARGING_STATE !! code); [discriminate | reflexivity].
Qed.

Lemma battery_type_missing (code : Z) :
  BATTERY_TYPE !! code = None <-> ~ (1 <= code <= 5).
Proof.
  pose proof (battery_type_get code) as H.
  unfold dict_get, battery_type_name in H. split.
  - intros Hn. rewrite Hn in H.
    repeat match type of H with
           | context [code =? ?k] => destruct (Z.eqb_spec code k); [discriminate|]
           end. lia.
  - intros Hn.
    repeat match type of H with
           | context [code =? ?k] => destruct (Z.eqb_spec code k); [lia|]
           end.
    destruct (BATTERY_TYPE !! code); [discriminate | reflexivity].
Qed.

(** The "Charge State" measurement for a given value. *)
Definition charge_state_entity (self : RenogyDevice) (v : pyval) : RenogyDeviceData :=
  mkData 1 (ha_device_name self) (entity_unique_id (mac self) 25) STRING_DATA
    (lit "Charge State") v false ∅.

(** C6, as the code has it.  The state section maps the byte at offset
    2 through the charging-state table, which has eight entries, for the
    codes 0 to 6 and 8; the battery-type section maps the two-byte code
    at offset 3 through the five-entry table for the codes 1 to 5. *)
Theorem charger_tables (self : RenogyDevice) (bs_state bs_type : list byte)
    (b hi lo : byte) :
  bs_state !! 2%nat = Some b ->
  bs_type !! 3%nat = Some hi -> bs_type !! 4%nat = Some lo ->
  size CHARGING_STATE = 8%nat
  /\ size BATTERY_TYPE = 5%nat
  /\ (forall code, dict_get CHARGING_STATE (VInt code) = charging_state_name code)
  /\ (forall code, dict_get BATTERY_TYPE (VInt code) = battery_type_name code)
  /\ parse_state self bs_state
     = (self, Ok (mkItems true
          [charge_state_entity self (charging_state_name (byte_val b))]))
  /\ parse_battery_type self bs_type
     = (set_battery_type self (battery_type_name (byte_val hi * 256 + byte_val lo)),
        Ok (mkItems true [])).
Proof.
  intros Hb Hhi Hlo.
  split; [reflexivity|]. split; [reflexivity|].
  split; [exact charging_state_get|]. split; [exact battery_type_get|]. split.
  - unfold parse_state.
    rewrite (bytes_to_int_byte _ _ _ Hb). cbn [res_bind].
    now rewrite charging_state_get.
  - unfold parse_battery_type.
    rewrite (bytes_to_int_word _ _ _ _ Hhi Hlo).
    now rewrite battery_type_get.
Qed.

Lemma charger_tables_witness :
  let self := init (lit "AA:BB") None (lit "van") in
  size CHARGING_STATE = 8%nat
  /\ size BATTERY_TYPE = 5%nat
  /\ (forall code, dict_get CHARGING_STATE (VInt code) = charging_state_name code)
  /\ (forall code, dict_get BATTERY_TYPE (VInt code) = battery_type_name code)
  /\ parse_state self [xff; x03; x04; x00]
     = (self, Ok (mkItems true
          [charge_state_entity self (charging_state_name (byte_val x04))]))
  /\ parse_battery_type self [xff; x03; x02; x00; x04]
     = (set_battery_type self (battery_type_name (byte_val x00 * 256 + byte_val x04)),
        Ok (mkItems true [])).
Proof.
  intros self.
  apply (charger_tables self [xff; x03; x04; x00] [xff; x03; x02; x00; x04] x04 x00 x04);
    reflexivity.
Defined.

(** Code 7 has no entry: the table does not cover 0 through 8 and does
    not have nine entries; a state payload carrying 7 yields [None]. *)
Lemma charging_state_table_lacks_7 :
  ~ (size CHARGING_STATE = 9%nat
     /\ forall code, 0 <= code <= 8 -> is_Some (CHARGING_STATE !! code)).
Proof.
  intros [Hsize _]. vm_compute in Hsize. discriminate.
Qed.

Example charge_state_code_7 :
  CHARGING_STATE !! 7 = None
  /\ parse_state (init [] None []) [x01; x03; x07]
     = (init [] None [], Ok (mkItems true [charge_state_entity (init [] None []) VNone])).
Proof. split; reflexivity. Qed.

End Tables.

(** ** Codes outside the tables *)

Section UnknownCodes.

Import DCCharger.
Local Open Scope Z_scope.

(** What a successful [parse_charging_info] returns: the device is
    untouched and the third measurement is the primary one, carrying the
    cached model and battery type. *)
Lemma parse_charging_info_ok (self self' : RenogyDevice) (bs : list byte) (its : items) :
  parse_charging_info self bs = (self', Ok its) ->
  self' = self /\ valid its = true
  /\ exists v3 v5 before after,
      entities its
      = mkData 2 (lit "Main Battery") (entity_unique_id (mac self) 3) PERCENTAGE
          (lit "Battery Percent") v3 false ∅
        :: before
        ++ mkData 1 (ha_device_name self) (entity_unique_id (mac self) 5) CURRENT_SENSOR
             (lit "Combined Charge Current") v5 true
             (<["model" := VStr (model self)]>
                (<["battery_type" := battery_type self]> ∅))
        :: after
      /\ bytes_to_int bs 3 2 None false = Ok v3
      /\ Forall (fun d => is_main d = false) before
      /\ Forall (fun d => is_main d = false) after.
Proof.
  unfold parse_charging_info. intros H. injection H as <- H.
  bind_inv H. injection H as <-. simpl.
  split; [reflexivity|]. split; [reflexivity|].
  eexists _, _, [_], _. split; [reflexivity|]. split; [eassumption|].
  split; repeat constructor.
Qed.

(** C10. A battery-type code outside 1..5 makes [parse_battery_type]
    succeed and cache [None], which the primary measurement then carries
    as its [battery_type] attribute; a state code without an entry in
    the charging-state table makes "Charge State" hold [None]. *)
Theorem unknown_codes_give_none (self self' : RenogyDevice)
    (bs_type bs_state bs_info : list byte) (tcode scode : Z) (its : items) :
  bytes_to_int bs_type 3 2 None false = Ok (VInt tcode) ->
  ~ (1 <= tcode <= 5) ->
  bytes_to_int bs_state 2 1 None false = Ok (VInt scode) ->
  CHARGING_STATE !! scode = None ->
  parse_charging_info (fst (parse_battery_type self bs_type)) bs_info = (self', Ok its) ->
  parse_battery_type self bs_type = (set_battery_type self VNone, Ok (mkItems true []))
  /\ (exists d, In d (entities its) /\ is_main d = true
                /\ name d = lit "Combined Charge Current"
                /\ attributes d !! "battery_type" = Some VNone)
  /\ parse_state self bs_state
     = (self, Ok (mkItems true [charge_state_entity self VNone])).
Proof.
  intros Ht Hout Hs Hmiss Hinfo.
  assert (Hbt : parse_battery_type self bs_type
                = (set_battery_type self VNone, Ok (mkItems true []))).
  { unfold parse_battery_type. rewrite Ht. unfold dict_get.
    now rewrite (proj2 (battery_type_missing tcode) Hout). }
  split; [exact Hbt|]. split.
  - rewrite Hbt in Hinfo. simpl in Hinfo.
    apply parse_charging_info_ok in Hinfo
      as (_ & _ & v3 & v5 & before & after & Hent & _).
    eexists. split; [rewrite Hent; right; apply in_or_app; right; left; reflexivity|].
    repeat split.
  - unfold parse_state. rewrite Hs. cbn [res_bind]. unfold dict_get.
    now rewrite Hmiss.
Qed.

(** A payload for the charging-info section: 63 zero bytes. *)
Definition zero_info : list byte := List.repeat x00 63.

Definition zero_info_items : items :=
  match snd (parse_charging_info
               (fst (parse_battery_type (init (lit "AA:BB") None (lit "van"))
                       [xff; x03; x02; x00; x09])) zero_info) with
  | Ok its => its
  | Raise _ => invalid_items
  end.

Lemma unknown_codes_give_none_witness :
  let self := init (lit "AA:BB") None (lit "van") in
  parse_battery_type self [xff; x03; x02; x00; x09]
  = (set_battery_type self VNone, Ok (mkItems true []))
  /\ (exists d, In d (entities zero_info_items) /\ is_main d = true
                /\ name d = lit "Combined Charge Current"
                /\ attributes d !! "battery_type" = Some VNone)
  /\ parse_state self [xff; x03; x07]
     = (self, Ok (mkItems true [charge_state_entity self VNone])).
Proof.
  intros self.
  apply (unknown_codes_give_none self (set_battery_type self VNone)
           [xff; x03; x02; x00; x09] [xff; x03; x07] zero_info 9 7 zero_info_items).
  - reflexivity.
  - lia.
  - reflexivity.
  - reflexivity.
  - vm_compute. reflexivity.
Defined.

End UnknownCodes.

(** ** The first-parse latch of the shunt and test decoders *)

Section Latch.

(** Two payloads fed in sequence at section index 0: the first decode is
    valid and the second is not. *)
Definition first_valid_second_invalid
    (parse : RenogyDevice -> list byte -> nat -> RenogyDevice * res items)
    (fresh : RenogyDevice) (p1 p2 : list byte) : Prop :=
  exists d1 i1 d2 i2,
    parse fresh p1 0 = (d1, Ok i1) /\ valid i1 = true
    /\ parse d1 p2 0 = (d2, Ok i2) /\ valid i2 = false.

Lemma test_first_decode (self : RenogyDevice) (bs : list byte) :
  first_parse self = true ->
  exists its, Test.parse_section self bs 0 = (set_first_parse self false, Ok its)
              /\ valid its = true.
Proof.
  intros Hf. unfold Test.parse_section. rewrite Hf. simpl. eauto.
Qed.

Lemma test_later_decode (self : RenogyDevice) (bs : list byte) (i : nat) :
  first_parse self = false ->
  Test.parse_section self bs i = (self, Ok invalid_items).
Proof.
  intros Hf. unfold Test.parse_section. rewrite Hf.
  now rewrite orb_true_r.
Qed.

Lemma shunt_first_decode (self : RenogyDevice) (bs : list byte) :
  first_parse self = true -> 110 <= List.length bs ->
  exists its, Shunt.parse_section self bs 0 = (set_first_parse self false, Ok its)
              /\ valid its = true.
Proof.
  intros Hf Hlen. unfold Shunt.parse_section. rewrite Hf.
  destruct (Nat.ltb_spec (List.length bs) 110) as [|_]; [lia|]. simpl.
  destruct (bytes_to_int_scaled bs 34 2 0.1%float false) as [f1 ->]; [lia|].
  destruct (bytes_to_int_scaled bs 25 3 0.001%float false) as [f2 ->]; [lia|].
  destruct (bytes_to_int_scaled bs 30 2 0.001%float false) as [f3 ->]; [lia|].
  destruct (bytes_to_int_scaled bs 21 3 0.001%float true) as [f4 ->]; [lia|].
  destruct (bytes_to_int_scaled bs 66 2 0.1%float false) as [f6 ->]; [lia|].
  simpl. eauto.
Qed.

Lemma shunt_short_decode (self : RenogyDevice) (bs : list byte) (i : nat) :
  List.length bs < 110 ->
  Shunt.parse_section self bs i = (self, Ok invalid_items).
Proof.
  intros Hlen. unfold Shunt.parse_section.
  destruct (Nat.ltb_spec (List.length bs) 110) as [_|]; [|lia].
  now rewrite orb_true_r.
Qed.

Lemma shunt_later_decode (self : RenogyDevice) (bs : list byte) (i : nat) :
  first_parse self = false ->
  Shunt.parse_section self bs i = (self, Ok invalid_items).
Proof.
  intros Hf. unfold Shunt.parse_section. rewrite Hf.
  now rewrite orb_true_r.
Qed.

(** C4, as the code has it.  From a fresh session the test decoder
    accepts the first payload and rejects the second whatever they hold;
    the shunt decoder does so when the first payload has at least 110
    bytes. *)
Theorem single_valid_frame (mac_ : pystr) (dn : option pystr) (nm : pystr)
    (p1 p2 q1 q2 : list byte) :
  110 <= List.length q1 ->
  first_valid_second_invalid Test.parse_section (Test.init mac_ dn nm) p1 p2
  /\ first_valid_second_invalid Shunt.parse_section (Shunt.init mac_ dn nm) q1 q2.
Proof.
  intros Hlen. split.
  - destruct (test_first_decode (Test.init mac_ dn nm) p1 eq_refl) as [i1 [H1 V1]].
    exists (set_first_parse (Test.init mac_ dn nm) false), i1,
      (set_first_parse (Test.init mac_ dn nm) false), invalid_items.
    split; [exact H1|]. split; [exact V1|]. split; [|reflexivity].
    now apply test_later_decode.
  - destruct (shunt_first_decode (Shunt.init mac_ dn nm) q1 eq_refl Hlen) as [i1 [H1 V1]].
    exists (set_first_parse (Shunt.init mac_ dn nm) false), i1,
      (set_first_parse (Shunt.init mac_ dn nm) false), invalid_items.
    split; [exact H1|]. split; [exact V1|]. split; [|reflexivity].
    now apply shunt_later_decode.
Qed.

Lemma single_valid_frame_witness :
  first_valid_second_invalid Test.parse_section
    (Test.init (lit "AA:BB") None (lit "t")) [] [x01]
  /\ first_valid_second_invalid Shunt.parse_section
       (Shunt.init (lit "AA:BB") None (lit "t")) (List.repeat x00 110) [].
Proof.
  apply (single_valid_frame (lit "AA:BB") None (lit "t") [] [x01] (List.repeat x00 110) []).
  simpl. lia.
Defined.

(** The shunt decoder rejects a first payload shorter than 110 bytes,
    and its latch stays open: the next long payload is accepted. *)
Lemma shunt_rejects_short_first_payload :
  ~ first_valid_second_invalid Shunt.parse_section
      (Shunt.init (lit "AA:BB") None (lit "s")) [x01; x57] (List.repeat x00 110).
Proof.
  intros (d1 & i1 & d2 & i2 & H1 & V1 & _).
  rewrite shunt_short_decode in H1 by (simpl; lia).
  injection H1 as _ <-. discriminate.
Qed.

End Latch.

(** ** What a decoder does to the device object *)

Section DecoderEffect.

(** The only fields a decoder assigns are [model], [battery_type] and
    [first_parse], and it assigns them only on a decode that it reports
    as valid. *)
Definition decoder_assigned (self self' : RenogyDevice) : Prop :=
  (exists m, self' = set_model self m)
  \/ (exists b, self' = set_battery_type self b)
  \/ (first_parse self = true /\ self' = set_first_parse self false).

Lemma parse_section_effect (self self' : RenogyDevice) (bs : list byte) (i : nat)
    (r : res items) :
  parse_section self bs i = (self', r) ->
  self' = self
  \/ exists its, r = Ok its /\ valid its = true /\ decoder_assigned self self'.
Proof.
  unfold parse_section, decoder_assigned. destruct (kind self).
  - unfold InverterDev.parse_section.
    destruct i as [|[|[|[|i]]]]; try (intros [= <- _]; now left).
    unfold InverterDev.parse_inverter_model.
    destruct (decode_utf8 (slice bs 3 19)); intros [= <- <-]; [right | now left].
    eexists. split; [reflexivity|]. split; [reflexivity|]. left. eauto.
  - unfold DCCharger.parse_section.
    destruct i as [|[|[|[|[|i]]]]]; try (intros [= <- _]; now left).
    + unfold DCCharger.parse_device_info.
      destruct (decode_utf8 (slice bs 3 19)); intros [= <- <-]; [right | now left].
      eexists. split; [reflexivity|]. split; [reflexivity|]. left. eauto.
    + unfold DCCharger.parse_battery_type.
      destruct (bytes_to_int bs 3 2 None false); intros [= <- <-]; [right | now left].
      eexists. split; [reflexivity|]. split; [reflexivity|]. right. left. eauto.
  - destruct i as [|i].
    + destruct (first_parse self) eqn:Hf.
      * destruct (Nat.lt_ge_cases (List.length bs) 110) as [Hlen|Hlen].
        -- rewrite shunt_short_decode by exact Hlen. intros [= <- _]. now left.
        -- destruct (shunt_first_decode self bs Hf Hlen) as [its [-> V]].
           intros [= <- <-]. right. exists its.
           split; [reflexivity|]. split; [exact V|]. right. right. now split.
      * rewrite shunt_later_decode by exact Hf. intros [= <- _]. now left.
    + unfold Shunt.parse_section. simpl. intros [= <- _]. now left.
  - destruct i as [|i].
    + destruct (first_parse self) eqn:Hf.
      * destruct (test_first_decode self bs Hf) as [its [-> V]].
        intros [= <- <-]. right. exists its.
        split; [reflexivity|]. split; [exact V|]. right. right. now split.
      * rewrite test_later_decode by exact Hf. intros [= <- _]. now left.
    + unfold Test.parse_section. simpl. intros [= <- _]. now left.
Qed.

(** The entity indices a valid decode emits, with the primary flag of
    each measurement, per family and section index. *)
Definition emitted (f : family) (i : nat) : list (Z * bool) :=
  match f, i with
  | Inverter, 1 => [(2%Z, false)]
  | Inverter, 2 =>
      [(3%Z, false); (4%Z, false); (5%Z, false); (6%Z, true); (7%Z, false); (8%Z, false);
       (9%Z, false); (10%Z, false)]
  | Inverter, 3 => [(18%Z, false); (19%Z, false); (20%Z, false); (22%Z, false)]
  | DcDcCharger, 1 => [(2%Z, false)]
  | DcDcCharger, 2 => [(25%Z, false)]
  | DcDcCharger, 4 =>
      [(3%Z, false); (4%Z, false); (5%Z, true); (6%Z, false); (7%Z, false); (8%Z, false);
       (9%Z, false); (10%Z, false); (11%Z, false); (12%Z, false); (13%Z, false);
       (14%Z, false); (15%Z, false); (16%Z, false); (17%Z, false); (18%Z, false);
       (19%Z, false); (20%Z, false); (21%Z, false); (22%Z, false); (23%Z, false);
       (24%Z, false)]
  | SmartShunt300, 0 =>
      [(1%Z, true); (2%Z, false); (3%Z, false); (4%Z, false); (5%Z, false); (6%Z, false)]
  | TestDevice, 0 =>
      [(1%Z, true); (2%Z, false); (3%Z, false); (4%Z, false); (5%Z, false); (6%Z, false);
       (7%Z, false)]
  | _, _ => []
  end.

(** The unique id and the primary flag of each measurement in a list. *)
Definition ids_and_flags (l : list RenogyDeviceData) : list (pystr * bool) :=
  map (fun d => (device_unique_id d, is_main d)) l.

Definition expected_ids_and_flags (mac_ : pystr) (f : family) (i : nat)
    : list (pystr * bool) :=
  map (fun p => (entity_unique_id mac_ (fst p), snd p)) (emitted f i).

(** An invalid decode emits nothing; a valid one emits the measurements
    of [emitted], with unique ids built from the address alone. *)
Lemma parse_section_shape (self self' : RenogyDevice) (bs : list byte) (i : nat)
    (its : items) :
  parse_section self bs i = (self', Ok its) ->
  (valid its = false /\ entities its = [])
  \/ (valid its = true
      /\ ids_and_flags (entities its) = expected_ids_and_flags (mac self) (kind self) i).
Proof.
  unfold parse_section, expected_ids_and_flags. destruct (kind self).
  - unfold InverterDev.parse_section.
    destruct i as [|[|[|[|i]]]].
    + unfold InverterDev.parse_inverter_model.
      destruct (decode_utf8 (slice bs 3 19)); intros [= _ <-]. now right.
    + unfold InverterDev.parse_device_id. intros [= _ H].
      bind_inv H. injection H as <-. now right.
    + unfold InverterDev.parse_inverter_stats. intros [= _ H].
      bind_inv H. injection H as <-. now right.
    + unfold InverterDev.parse_load_info. intros [= _ H].
      bind_inv H. injection H as <-. now right.
    + intros [= _ <-]. now left.
  - unfold DCCharger.parse_section.
    destruct i as [|[|[|[|[|i]]]]].
    + unfold DCCharger.parse_device_info.
      destruct (decode_utf8 (slice bs 3 19)); intros [= _ <-]. now right.
    + unfold DCCharger.parse_device_address. intros [= _ H].
      bind_inv H. injection H as <-. now right.
    + unfold DCCharger.parse_state. intros [= _ H].
      bind_inv H. injection H as <-. now right.
    + unfold DCCharger.parse_battery_type.
      destruct (bytes_to_int bs 3 2 None false); intros [= _ <-]. now right.
    + unfold DCCharger.parse_charging_info. intros [= _ H].
      bind_inv H. injection H as <-. now right.
    + intros [= _ <-]. now left.
  - unfold Shunt.parse_section.
    destruct (negb (i =? 0) || negb (first_parse self) || (List.length bs <? 110)) eqn:Hc.
    + intros [= _ <-]. now left.
    + intros [= _ H]. bind_inv H. injection H as <-.
      destruct i; [now right | discriminate].
  - unfold Test.parse_section.
    destruct (negb (i =? 0) || negb (first_parse self)) eqn:Hc.
    + intros [= _ <-]. now left.
    + intros [= _ <-].
      destruct i; [now right | discriminate].
Qed.

End DecoderEffect.

(** ** Exactly one primary measurement *)

Section Primary.

(** The fields of the base class. *)
Definition base_fields (d : RenogyDevice) :=
  (kind d, mac d, dev_device_name d, ha_device_name d, dev_name d, function d,
   dev_device_id d, sections d, section_index d, notification_event d,
   ret_dev_data d, NOTIFY_SERVICE_UUID d, WRITE_SERVICE_UUID d, READ_OPERATION d).

(** A decoder leaves the fields of the base class alone. *)
Lemma parse_section_keeps (self self' : RenogyDevice) (bs : list byte) (i : nat)
    (r : res items) :
  parse_section self bs i = (self', r) -> base_fields self' = base_fields self.
Proof.
  intros H. apply parse_section_effect in H as [->|(its & _ & _ & Ha)]; [reflexivity|].
  destruct Ha as [[m ->]|[[b ->]|[_ ->]]]; reflexivity.
Qed.

Lemma parse_section_kind (self self' : RenogyDevice) (bs : list byte) (i : nat)
    (r : res items) :
  parse_section self bs i = (self', r) -> kind self' = kind self.
Proof. intros H. apply parse_section_keeps in H. now injection H. Qed.

Lemma parse_section_mac (self self' : RenogyDevice) (bs : list byte) (i : nat)
    (r : res items) :
  parse_section self bs i = (self', r) -> mac self' = mac self.
Proof. intros H. apply parse_section_keeps in H. now injection H. Qed.

(** The device object a configured tag constructs. *)
Definition new_device (f : family) (mac_ : pystr) (dn : option pystr) (nm : pystr)
    : RenogyDevice :=
  match f with
  | Inverter => InverterDev.init mac_ dn nm
  | DcDcCharger => DCCharger.init mac_ dn nm
  | SmartShunt300 => Shunt.init mac_ dn nm
  | TestDevice => Test.init mac_ dn nm
  end.

(** Decoding the payloads in order from section index [i], as the
    session does with one valid notification per section: the
    measurements accumulate, and the decode is not a full one ([None])
    as soon as a decoder raises or reports its payload invalid. *)
Fixpoint decode_from (self : RenogyDevice) (i : nat) (payloads : list (list byte))
    : option (list RenogyDeviceData) :=
  match payloads with
  | [] => Some []
  | p :: ps =>
      match parse_section self p i with
      | (self, Ok its) =>
          if valid its then
            match decode_from self (S i) ps with
            | Some l => Some (entities its ++ l)
            | None => None
            end
          else None
      | (_, Raise _) => None
      end
  end.

(** A full decode of a family: one payload per section of a fresh
    device object. *)
Definition full_decode (f : family) (mac_ : pystr) (dn : option pystr) (nm : pystr)
    (payloads : list (list byte)) : option (list RenogyDeviceData) :=
  let self := new_device f mac_ dn nm in
  if (List.length payloads =? List.length (sections self))%nat
  then decode_from self 0 payloads else None.

Lemma decode_from_flags (payloads : list (list byte)) :
  forall (self : RenogyDevice) (i : nat) (es : list RenogyDeviceData),
    decode_from self i payloads = Some es ->
    ids_and_flags es
    = flat_map (expected_ids_and_flags (mac self) (kind self))
        (seq i (List.length payloads)).
Proof.
  induction payloads as [|p ps IH]; intros self i es; simpl.
  - now intros [= <-].
  - destruct (parse_section self p i) as [self1 [its|e]] eqn:Hp; [|discriminate].
    destruct (valid its) eqn:Hv; [|discriminate].
    destruct (decode_from self1 (S i) ps) as [l|] eqn:Hd; [|discriminate].
    intros [= <-]. unfold ids_and_flags. rewrite map_app. f_equal.
    + apply parse_section_shape in Hp as [[Hf _]|[_ Hs]]; [congruence | exact Hs].
    + rewrite <- (parse_section_kind _ _ _ _ _ Hp), <- (parse_section_mac _ _ _ _ _ Hp).
      now apply IH.
Qed.

Lemma count_main_flags (es : list RenogyDeviceData) :
  List.length (List.filter is_main es)
  = List.length (List.filter snd (ids_and_flags es)).
Proof.
  induction es as [|d r IH]; simpl; [reflexivity|].
  destruct (is_main d); simpl; now rewrite IH.
Qed.

(** C5. In every family, a full decode of one payload per section in
    order yields exactly one measurement marked primary. *)
Theorem one_primary_per_decode (f : family) (mac_ : pystr) (dn : option pystr)
    (nm : pystr) (payloads : list (list byte)) (es : list RenogyDeviceData) :
  full_decode f mac_ dn nm payloads = Some es ->
  List.length (List.filter is_main es) = 1.
Proof.
  unfold full_decode. intros H.
  destruct (Nat.eqb_spec (List.length payloads)
              (List.length (sections (new_device f mac_ dn nm)))) as [Hlen|];
    [|discriminate].
  apply decode_from_flags in H. rewrite count_main_flags, H, Hlen.
  destruct f; reflexivity.
Qed.

(** Sample payloads, one per section of each family. *)
Definition zeros (n : nat) : list byte := List.repeat x00 n.

Definition sample_payloads (f : family) : list (list byte) :=
  match f with
  | Inverter => [zeros 19; zeros 5; zeros 23; zeros 15]
  | DcDcCharger => [zeros 19; zeros 5; zeros 3; zeros 5; zeros 63]
  | SmartShunt300 => [zeros 110]
  | TestDevice => [[]]
  end.

Definition sample_decode (f : family) : list RenogyDeviceData :=
  match full_decode f (lit "AA:BB") None (lit "van") (sample_payloads f) with
  | Some es => es
  | None => []
  end.

Lemma one_primary_per_decode_witness :
  List.length (List.filter is_main (sample_decode Inverter)) = 1
  /\ List.length (List.filter is_main (sample_decode DcDcCharger)) = 1
  /\ List.length (List.filter is_main (sample_decode SmartShunt300)) = 1
  /\ List.length (List.filter is_main (sample_decode TestDevice)) = 1.
Proof.
  split; [|split; [|split]].
  - apply (one_primary_per_decode Inverter (lit "AA:BB") None (lit "van")
             (sample_payloads Inverter)). vm_compute. reflexivity.
  - apply (one_primary_per_decode DcDcCharger (lit "AA:BB") None (lit "van")
             (sample_payloads DcDcCharger)). vm_compute. reflexivity.
  - apply (one_primary_per_decode SmartShunt300 (lit "AA:BB") None (lit "van")
             (sample_payloads SmartShunt300)). vm_compute. reflexivity.
  - apply (one_primary_per_decode TestDevice (lit "AA:BB") None (lit "van")
             (sample_payloads TestDevice)). vm_compute. reflexivity.
Defined.

(** The sample decodes are full ones: 13, 24, 6 and 7 measurements. *)
Example sample_decode_sizes :
  map (fun f => List.length (sample_decode f))
    [Inverter; DcDcCharger; SmartShunt300; TestDevice] = [13; 24; 6; 7].
Proof. vm_compute. reflexivity. Qed.

End Primary.

(** ** Unique ids *)

Section UniqueIds.

Local Open Scope Z_scope.

(** The address with every occurrence of a character deleted. *)
Definition remove_char (a : Z) (s : pystr) : pystr :=
  List.filter (fun c => negb (c =? a)) s.

(** The unique id of entity [k], laid out: the prefix, the lower-cased
    address with each colon turned into an underscore, and the index. *)
Lemma entity_unique_id_layout (mac_ : pystr) (k : Z) :
  entity_unique_id mac_ k
  = lit "renogy_" ++ replace_char 58 95 (lower mac_) ++ lit "_id_" ++ str_of_int k.
Proof.
  unfold entity_unique_id, dev_unique_id. now rewrite <- !app_assoc.
Qed.

Lemma replace_colon_free (s : pystr) : ~ In 58 (replace_char 58 95 s).
Proof.
  unfold replace_char. intros H. apply in_map_iff in H as [c [Hc _]].
  destruct (Z.eqb_spec c 58); congruence.
Qed.

(** Every index a decoder uses is between 1 and 25 and prints without a
    colon. *)
Definition index_ok (k : Z) : bool :=
  (1 <=? k) && (k <=? 25) && negb (existsb (Z.eqb 58) (str_of_int k)).

Lemma emitted_indices_ok (f : family) (i : nat) :
  forallb (fun p => index_ok (fst p)) (emitted f i) = true.
Proof.
  destruct f; destruct i as [|[|[|[|[|i]]]]]; reflexivity.
Qed.

Lemma index_ok_spec (k : Z) :
  index_ok k = true -> 1 <= k <= 25 /\ ~ In 58 (str_of_int k).
Proof.
  unfold index_ok. intros H.
  apply andb_true_iff in H as [H Hc]. apply andb_true_iff in H as [H1 H2].
  split; [lia|]. intros Hin.
  apply negb_true_iff in Hc.
  assert (Ht : existsb (Z.eqb 58) (str_of_int k) = true).
  { apply existsb_exists. exists 58. split; [exact Hin | apply Z.eqb_refl]. }
  congruence.
Qed.

Lemma entity_unique_id_colon_free (mac_ : pystr) (k : Z) :
  ~ In 58 (str_of_int k) -> ~ In 58 (entity_unique_id mac_ k).
Proof.
  intros Hk. rewrite entity_unique_id_layout. intros H.
  apply in_app_or in H as [H|H].
  { vm_compute in H. intuition discriminate. }
  apply in_app_or in H as [H|H].
  { now apply replace_colon_free in H. }
  apply in_app_or in H as [H|H]; [|now apply Hk].
  vm_compute in H. intuition discriminate.
Qed.

(** A string made of two-character groups separated by colons, no group
    holding a colon; a BLE address is six such groups. *)
Inductive colon_separated : pystr -> Prop :=
| one_group (x y : Z) : x <> 58 -> y <> 58 -> colon_separated [x; y]
| more_groups (x y : Z) (r : pystr) :
    x <> 58 -> y <> 58 -> colon_separated r -> colon_separated (x :: y :: 58 :: r).

(** The groups of a colon-free string, two characters each, joined by
    underscores. *)
Fixpoint join_pairs (a : pystr) : pystr :=
  match a with
  | x :: y :: r =>
      match r with
      | [] => [x; y]
      | _ :: _ => x :: y :: 95 :: join_pairs r
      end
  | _ => a
  end.

(** The unique id of entity [k], from the address lower-cased and with
    its colons removed. *)
Definition from_colon_free (a : pystr) (k : Z) : pystr :=
  lit "renogy_" ++ join_pairs a ++ lit "_id_" ++ str_of_int k.

Lemma lower_char_colon (c : Z) : c <> 58 -> lower_char c <> 58.
Proof.
  unfold lower_char. intros Hc.
  destruct ((65 <=? c) && (c <=? 90)) eqn:Hu; [|exact Hc].
  apply andb_true_iff in Hu as [H1 H2]. apply Z.leb_le in H1, H2. lia.
Qed.

Lemma colon_separated_nonempty (s : pystr) :
  colon_separated s -> exists c r, remove_char 58 (lower s) = c :: r.
Proof.
  intros H. destruct H as [x y Hx Hy | x y r Hx Hy _];
    cbn [lower map remove_char List.filter];
    apply lower_char_colon in Hx; apply Z.eqb_neq in Hx; rewrite Hx; cbn [negb]; eauto.
Qed.

(** On colon-separated groups, replacing each colon by an underscore is
    regrouping the colon-free string. *)
Lemma replace_is_join (s : pystr) :
  colon_separated s ->
  replace_char 58 95 (lower s) = join_pairs (remove_char 58 (lower s)).
Proof.
  intros H. induction H as [x y Hx Hy | x y r Hx Hy Hr IH];
    pose proof (lower_char_colon _ Hx) as Hx'; pose proof (lower_char_colon _ Hy) as Hy';
    apply Z.eqb_neq in Hx', Hy'.
  - cbn [lower map replace_char remove_char List.filter join_pairs].
    rewrite Hx', Hy'. reflexivity.
  - destruct (colon_separated_nonempty r Hr) as (c & r' & Hr').
    change (lower (x :: y :: 58 :: r))
      with (lower_char x :: lower_char y :: 58 :: lower r).
    cbn [replace_char map remove_char List.filter]. rewrite Hx', Hy'.
    cbn [negb Z.eqb Pos.eqb]. fold (replace_char 58 95 (lower r)).
    fold (remove_char 58 (lower r)). rewrite IH, Hr'. reflexivity.
Qed.

Lemma entity_unique_id_from_colon_free (mac_ : pystr) (k : Z) :
  colon_separated mac_ ->
  entity_unique_id mac_ k = from_colon_free (remove_char 58 (lower mac_)) k.
Proof.
  intros H. rewrite entity_unique_id_layout. unfold from_colon_free.
  now rewrite replace_is_join.
Qed.

(** What the unique id of a measurement is, for a given address. *)
Definition unique_id_of (mac_ : pystr) (d : RenogyDeviceData) : Prop :=
  exists k, 1 <= k <= 25
    /\ device_unique_id d = from_colon_free (remove_char 58 (lower mac_)) k
    /\ ~ In 58 (device_unique_id d).

Lemma expected_ids_ok (mac_ : pystr) (f : family) (i : nat)
    (l : list RenogyDeviceData) :
  colon_separated mac_ ->
  ids_and_flags l = expected_ids_and_flags mac_ f i ->
  Forall (unique_id_of mac_) l.
Proof.
  intros Hmac. unfold expected_ids_and_flags. pose proof (emitted_indices_ok f i) as Hok.
  revert l Hok. induction (emitted f i) as [|p ps IH]; intros [|d l] Hok H;
    try discriminate; constructor.
  - simpl in Hok. apply andb_true_iff in Hok as [Hp _].
    apply index_ok_spec in Hp as [Hr Hc].
    injection H as Hid _ _. exists (fst p). split; [exact Hr|].
    rewrite Hid. split; [now apply entity_unique_id_from_colon_free|].
    now apply entity_unique_id_colon_free.
  - simpl in Hok. apply andb_true_iff in Hok as [_ Hps].
    injection H as _ _ H. now apply IH.
Qed.

(** C7.  Every measurement a decoder of any family emits for a
    controller with a colon-separated address has a unique id that is a
    function, [from_colon_free], of the address lower-cased with its
    colons removed and of an entity index between 1 and 25, and the id
    holds no colon.  Two valid decodes of the same section by the same
    family, for addresses that agree once lower-cased and colon-free,
    give the same unique ids in the same order, whatever the payloads
    and the cached state: the ids are stable across polls. *)
Theorem unique_id_from_address (self1 self2 self1' self2' : RenogyDevice)
    (bs1 bs2 : list byte) (i : nat) (its1 its2 : items) :
  is_ascii (mac self1) -> is_ascii (mac self2) ->
  colon_separated (mac self1) -> colon_separated (mac self2) ->
  kind self2 = kind self1 ->
  remove_char 58 (lower (mac self2)) = remove_char 58 (lower (mac self1)) ->
  parse_section self1 bs1 i = (self1', Ok its1) -> valid its1 = true ->
  parse_section self2 bs2 i = (self2', Ok its2) -> valid its2 = true ->
  Forall (unique_id_of (mac self1)) (entities its1)
  /\ map device_unique_id (entities its1) = map device_unique_id (entities its2).
Proof.
  intros _ _ Hc1 Hc2 Hk Hm H1 V1 H2 V2.
  apply parse_section_shape in H1 as [[Hf _]|[_ S1]]; [congruence|].
  apply parse_section_shape in H2 as [[Hf _]|[_ S2]]; [congruence|].
  split; [now apply expected_ids_ok in S1|].
  apply (f_equal (map fst)) in S1, S2. unfold ids_and_flags in S1, S2.
  rewrite map_map in S1, S2. cbn [fst] in S1, S2.
  change (map (fun d => device_unique_id d)) with (map device_unique_id) in S1, S2.
  rewrite S1, S2, Hk. unfold expected_ids_and_flags. rewrite !map_map. cbn [fst].
  apply map_ext. intros p.
  rewrite !entity_unique_id_from_colon_free by assumption. now rewrite Hm.
Qed.

Definition sample_state_items (mac_ : pystr) (bs : list byte) : items :=
  match snd (parse_section (DCCharger.init mac_ None (lit "van")) bs 2) with
  | Ok its => its
  | Raise _ => invalid_items
  end.

Lemma unique_id_from_address_witness :
  Forall (unique_id_of (lit "AA:BB:0C"))
    (entities (sample_state_items (lit "AA:BB:0C") [xff; x03; x04]))
  /\ map device_unique_id (entities (sample_state_items (lit "AA:BB:0C") [xff; x03; x04]))
     = map device_unique_id
         (entities (sample_state_items (lit "aa:Bb:0c") [xff; x03; x08; x00])).
Proof.
  apply (unique_id_from_address
           (DCCharger.init (lit "AA:BB:0C") None (lit "van"))
           (DCCharger.init (lit "aa:Bb:0c") None (lit "van"))
           (DCCharger.init (lit "AA:BB:0C") None (lit "van"))
           (DCCharger.init (lit "aa:Bb:0c") None (lit "van"))
           [xff; x03; x04] [xff; x03; x08; x00] 2%nat).
  - repeat constructor; vm_compute; intuition discriminate.
  - repeat constructor; vm_compute; intuition discriminate.
  - vm_compute. repeat (constructor; [lia | lia |]). constructor; lia.
  - vm_compute. repeat (constructor; [lia | lia |]). constructor; lia.
  - reflexivity.
  - vm_compute. reflexivity.
  - vm_compute. reflexivity.
  - reflexivity.
  - vm_compute. reflexivity.
  - reflexivity.
Defined.

Example sample_unique_id :
  map device_unique_id (entities (sample_state_items (lit "AA:BB:0C") [xff; x03; x04]))
  = [lit "renogy_aa_bb_0c_id_25"]
  /\ from_colon_free (lit "aabb0c") 25 = lit "renogy_aa_bb_0c_id_25".
Proof. vm_compute. split; reflexivity. Qed.

End UniqueIds.

(** ** The notification callback *)

Section Notifications.

Lemma py_eq_int_true (v : pyval) (n : Z) : py_eq_int v n = true -> v = VInt n.
Proof.
  destruct v; simpl; try discriminate. intros H. apply Z.eqb_eq in H. now subst.
Qed.

(** The two ways a notification can go. *)
Lemma deliver_cases (self : RenogyDevice) (data : list byte) :
  (deliver self data = self
   \/ exists self1 its,
        bytes_to_int data 1 1 None false = Ok (VInt (READ_OPERATION self))
        /\ parse_section self data (section_index self) = (self1, Ok its)
        /\ valid its = true
        /\ deliver self data
           = set_event (set_ret_dev_data self1 (ret_dev_data self ++ entities its)) true)
  /\ section_index (deliver self data) = section_index self.
Proof.
  unfold deliver, notification_callback.
  destruct (bytes_to_int data 1 1 None false) as [operation|e] eqn:Hop;
    [|split; [now left | reflexivity]].
  destruct (py_eq_int operation (READ_OPERATION self)) eqn:Heq;
    [|split; [now left | reflexivity]].
  apply py_eq_int_true in Heq. subst operation.
  destruct (parse_section self data (section_index self)) as [self1 r] eqn:Hp.
  pose proof (parse_section_keeps _ _ _ _ _ Hp) as Hk.
  pose proof (parse_section_effect _ _ _ _ _ Hp) as He.
  injection Hk as _ _ _ _ _ _ _ _ Hidx _ Hret _ _ _.
  destruct r as [its|e].
  - destruct (valid its) eqn:Hv.
    + split; [|exact Hidx]. right. exists self1, its.
      split; [reflexivity|]. split; [reflexivity|]. split; [exact Hv|].
      simpl. now rewrite Hret.
    + destruct He as [->|(its' & [= <-] & Hv' & _)]; [|congruence].
      split; [now left | reflexivity].
  - destruct He as [->|(its' & Hr & _)]; [|discriminate].
    split; [now left | reflexivity].
Qed.

(** A payload whose operation byte is not the expected code changes
    nothing. *)
Lemma deliver_other_operation (self : RenogyDevice) (data : list byte) :
  bytes_to_int data 1 1 None false <> Ok (VInt (READ_OPERATION self)) ->
  deliver self data = self.
Proof.
  intros Hne. unfold deliver, notification_callback.
  destruct (bytes_to_int data 1 1 None false) as [operation|e]; [|reflexivity].
  destruct (py_eq_int operation (READ_OPERATION self)) eqn:Heq; [|reflexivity].
  apply py_eq_int_true in Heq. now subst.
Qed.

(** A payload the decoder reports invalid, or on which it raises,
    changes nothing, the first-parse latch included. *)
Lemma deliver_not_valid (self self1 : RenogyDevice) (data : list byte) (r : res items) :
  parse_section self data (section_index self) = (self1, r) ->
  (forall its, r = Ok its -> valid its = false) ->
  deliver self data = self.
Proof.
  intros Hp Hr.
  destruct (proj1 (deliver_cases self data)) as [H|(s & its & _ & Hp' & Hv & _)];
    [exact H|].
  rewrite Hp in Hp'. injection Hp' as _ ->.
  specialize (Hr its eq_refl). congruence.
Qed.

(** C9. A notification changes the accumulated measurements, the
    response-received event or any other field of the device object only
    when its operation byte (offset 1) equals the expected read-response
    code and the decoder reports the payload valid; then the decoded
    measurements are appended, the event is set, and the decoder has at
    most assigned one of its own cached fields.  A payload with another
    operation code, or one the decoder rejects or fails on, leaves the
    whole device object as it was.  The section index is never changed. *)
Theorem notification_frame (self : RenogyDevice) (data : list byte) :
  (deliver self data = self
   \/ exists self1 its,
        bytes_to_int data 1 1 None false = Ok (VInt (READ_OPERATION self))
        /\ parse_section self data (section_index self) = (self1, Ok its)
        /\ valid its = true
        /\ (self1 = self \/ decoder_assigned self self1)
        /\ ret_dev_data (deliver self data) = ret_dev_data self ++ entities its
        /\ notification_event (deliver self data) = true
        /\ deliver self data
           = set_event (set_ret_dev_data self1 (ret_dev_data self ++ entities its)) true)
  /\ section_index (deliver self data) = section_index self
  /\ (bytes_to_int data 1 1 None false <> Ok (VInt (READ_OPERATION self)) ->
      deliver self data = self)
  /\ (forall self1 r,
        parse_section self data (section_index self) = (self1, r) ->
        (forall its, r = Ok its -> valid its = false) ->
        deliver self data = self).
Proof.
  destruct (deliver_cases self data) as [Hcases Hidx].
  split; [|split; [exact Hidx|split]].
  - destruct Hcases as [H|(self1 & its & Hop & Hp & Hv & Hd)]; [now left|].
    right. exists self1, its.
    split; [exact Hop|]. split; [exact Hp|]. split; [exact Hv|]. split.
    + apply parse_section_effect in Hp as [->|(its' & _ & _ & Ha)]; [now left|now right].
    + rewrite Hd. repeat split.
  - apply deliver_other_operation.
  - intros self1 r. apply deliver_not_valid.
Qed.

(** A shunt session and two frames: one with another operation code,
    one of 110 bytes carrying the vendor code 87. *)
Definition shunt_session : RenogyDevice :=
  Shunt.init (lit "AA:BB:CC:DD:EE:FF") (Some (lit "RTMShunt300")) (lit "van").

Definition modbus_frame : list byte := [xff; x03; x02; x00; x01].

Definition shunt_frame : list byte := xff :: x57 :: List.repeat x00 108.

Lemma notification_frame_witness :
  deliver shunt_session modbus_frame = shunt_session
  /\ deliver shunt_session [xff; x57; x00] = shunt_session
  /\ section_index (deliver shunt_session shunt_frame) = section_index shunt_session.
Proof.
  destruct (notification_frame shunt_session modbus_frame) as (_ & _ & Hop & _).
  destruct (notification_frame shunt_session [xff; x57; x00]) as (_ & _ & _ & Hinv).
  destruct (notification_frame shunt_session shunt_frame) as (_ & Hidx & _).
  split; [|split].
  - apply Hop. vm_compute. discriminate.
  - apply (Hinv shunt_session (Ok invalid_items)); [reflexivity|].
    intros its [= <-]. reflexivity.
  - exact Hidx.
Defined.

Example shunt_frame_accepted :
  List.length (ret_dev_data (deliver shunt_session shunt_frame)) = 6
  /\ notification_event (deliver shunt_session shunt_frame) = true
  /\ first_parse (deliver shunt_session shunt_frame) = false.
Proof. vm_compute. repeat split. Qed.

End Notifications.

(** ** The session loop returns *)

Section SessionLoop.










(** [execute] is [execute_with] on a link whose [start_notify] and
    [disconnect] succeed. *)
Lemma execute_with_no_faults (self : RenogyDevice) (ble_device : option BLEDevice) :
  execute_with no_faults self ble_device = execute self ble_device.
Proof.
  unfold execute_with, execute, execute_with_fuel, execute_fuel, execute_try_with,
    execute_try, disconnect. cbn [dev no_faults start_notify_raises disconnect_raises].
  destruct (bool_decide (WRITE_SERVICE_UUID self = Some (lit "TEST"))).
  { destruct (parse_section self (list_byte_of_string "ab232") (section_index self))
      as [self1 [its|e]]; [destruct (valid its)|]; reflexivity. }
  destruct (NOTIFY_SERVICE_UUID self) as [nu|]; [|reflexivity].
  destruct ble_device as [ble|]; [|reflexivity].
  destruct (connect_result (link ble)) as [[|]|e]; cbn [negb client_set];
    try reflexivity.
  match goal with
  | |- context [section_loop ?t ?fuel ?w0] =>
      destruct (section_loop t fuel w0) as [[w1 [[]|e]]|]; try reflexivity
  end.
  now destruct (client_set w1).
Qed.


End SessionLoop.

(** ** A link that never answers *)

Section SilentLink.

(** No payload the link delivers carries the operation code [op] at
    offset 1. *)
Definition silent (t : Transport) (op : Z) : Prop :=
  forall (k : nat) (data : list byte),
    In data (notifications t k) ->
    bytes_to_int data 1 1 None false <> Ok (VInt op).

Lemma silent_deliver_all (op : Z) (l : list (list byte)) (self : RenogyDevice) :
  READ_OPERATION self = op ->
  (forall data, In data l -> bytes_to_int data 1 1 None false <> Ok (VInt op)) ->
  fold_left deliver l self = self.
Proof.
  intros Hop. induction l as [|p l IH]; intros Hl; simpl; [reflexivity|].
  rewrite deliver_other_operation.
  - apply IH. intros data Hd. apply Hl. now right.
  - rewrite Hop. apply Hl. now left.
Qed.

Lemma silent_wait (t : Transport) (n : nat) :
  forall w : world,
    silent t (READ_OPERATION (dev w)) ->
    notification_event (dev w) = false ->
    wait_loop t n w = mkWorld (dev w) (client_set w) (calls w) (n + ticks w).
Proof.
  induction n as [|n IH]; intros w Hs He; cbn [wait_loop].
  - now destruct w.
  - rewrite He.
    assert (Hsl : sleep t w = mkWorld (dev w) (client_set w) (calls w) (S (ticks w))).
    { unfold sleep. f_equal. apply (silent_deliver_all (READ_OPERATION (dev w)));
        [reflexivity|]. intros data Hd. now apply (Hs (ticks w)). }
    rewrite Hsl. rewrite IH by assumption. simpl. f_equal. lia.
Qed.

(** One [read_section] on a link whose writes succeed. *)
Lemma read_section_sends (t : Transport) (w : world) (uuid : pystr) (s : section)
    (req : list Z) (frame : list byte) :
  WRITE_SERVICE_UUID (dev w) = Some uuid ->
  sections (dev w) !! section_index (dev w) = Some s ->
  create_generic_read_request (dev_device_id (dev w)) (function (dev w))
    (Some (register s)) (Some (words s)) = Ok (Some req) ->
  bytes_of_ints req = Ok frame ->
  (forall n, write_raises t n = false) ->
  read_section t w
  = (mkWorld (set_event (dev w) false) (client_set w)
       (calls w ++ [Write uuid frame]) (ticks w), Ok tt).
Proof.
  intros Hw Hs Hreq Hframe Hok. unfold read_section.
  rewrite Hs, Hreq, Hframe, Hw, Hok. reflexivity.
Qed.

(** The two attempts of the inner loop on a silent link: two
    writes when there is a write characteristic, none otherwise, fifty
    sleeps, and no response. *)
Lemma silent_send_loop (t : Transport) (w : world) (s : section)
    (req : list Z) (frame : list byte) :
  notification_event (dev w) = false ->
  sections (dev w) !! section_index (dev w) = Some s ->
  create_generic_read_request (dev_device_id (dev w)) (function (dev w))
    (Some (register s)) (Some (words s)) = Ok (Some req) ->
  bytes_of_ints req = Ok frame ->
  (forall n, write_raises t n = false) ->
  silent t (READ_OPERATION (dev w)) ->
  send_loop t 2 w
  = (mkWorld (set_event (dev w) false) (client_set w)
       (calls w ++ match WRITE_SERVICE_UUID (dev w) with
                   | Some uuid => [Write uuid frame; Write uuid frame]
                   | None => []
                   end)
       (50 + ticks w), Ok false).
Proof.
  intros He Hs Hreq Hframe Hok Hsil. cbn [send_loop].
  destruct (WRITE_SERVICE_UUID (dev w)) as [uuid|] eqn:Hw.
  - rewrite (read_section_sends t w uuid s req frame) by assumption.
    cbv beta iota. rewrite (silent_wait t 25); [|exact Hsil|reflexivity].
    cbn [dev notification_event set_event WRITE_SERVICE_UUID]. rewrite Hw.
    rewrite (read_section_sends t _ uuid s req frame) by (simpl; auto).
    cbv beta iota. rewrite (silent_wait t 25); [|exact Hsil|first [exact He | reflexivity]].
    cbn [dev notification_event set_event calls client_set ticks].
    rewrite <- app_assoc. reflexivity.
  - cbv beta iota. rewrite (silent_wait t 25); [|exact Hsil|exact He].
    cbn [dev]. rewrite He, Hw. cbv beta iota.
    rewrite (silent_wait t 25); [|exact Hsil|first [exact He | reflexivity]].
    cbn [dev calls client_set ticks]. rewrite He, app_nil_r.
    destruct (dev w); simpl in *. subst. reflexivity.
Qed.

(** C1, as the code has it.  On a link that connects, accepts writes
    and never delivers a notification with the expected operation code,
    a session with a write characteristic sends the read request of its
    current section exactly twice; a session without one sends nothing
    and waits twice all the same.  Either way [execute] raises
    [DeviceCommunicationError] inside its [try] block, disconnects,
    accumulates no measurement and returns the empty list. *)
Theorem silent_link_fails (self : RenogyDevice) (ble : BLEDevice) (nu : pystr)
    (s : section) (req : list Z) (frame : list byte) :
  WRITE_SERVICE_UUID self <> Some (lit "TEST") ->
  NOTIFY_SERVICE_UUID self = Some nu ->
  notification_event self = false ->
  sections self !! section_index self = Some s ->
  create_generic_read_request (dev_device_id self) (function self)
    (Some (register s)) (Some (words s)) = Ok (Some req) ->
  bytes_of_ints req = Ok frame ->
  connect_result (link ble) = Ok true ->
  (forall n, write_raises (link ble) n = false) ->
  silent (link ble) (READ_OPERATION self) ->
  let sent := match WRITE_SERVICE_UUID self with
              | Some uuid => [Write uuid frame; Write uuid frame]
              | None => []
              end in
  exists w w',
    execute_try (Some ble) (List.length (sections self) - section_index self)
      (mkWorld self false [] 0) = Some (w, Raise DeviceCommunicationError)
    /\ execute self (Some ble) = Some (w', Ok [])
    /\ calls w' = [Connect (address ble); StartNotify nu] ++ sent ++ [Disconnect]
    /\ writes (calls w') = sent
    /\ ret_dev_data (dev w') = ret_dev_data self.
Proof.
  intros Htest Hnu He Hs Hreq Hframe Hconn Hok Hsil sent.
  pose proof (lookup_lt_Some _ _ _ Hs) as Hlt.
  destruct (List.length (sections self) - section_index self) as [|fuel] eqn:Hfuel;
    [lia|].
  unfold execute, execute_fuel. rewrite Hfuel. unfold execute_try. cbn [dev].
  rewrite bool_decide_eq_false_2 by exact Htest.
  rewrite Hnu, Hconn. cbn [negb]. cbn [section_loop emit dev calls client_set ticks].
  destruct (Nat.ltb_spec (section_index self) (List.length (sections self))) as [_|];
    [|lia].
  rewrite (silent_send_loop _ _ s req frame) by (simpl; auto).
  cbn [dev calls client_set ticks]. fold sent.
  eexists _, _. split; [reflexivity|]. split; [reflexivity|].
  cbn [calls emit dev client_set]. split; [|split].
  - now rewrite <- !app_assoc.
  - subst sent. destruct (WRITE_SERVICE_UUID self); reflexivity.
  - reflexivity.
Qed.

(** A link that connects and stays quiet. *)
Definition quiet_link : Transport :=
  mkTransport (Ok true) (fun _ => false) (fun _ => []).

Definition quiet_ble : BLEDevice :=
  mkBLEDevice (lit "AA:BB:CC:DD:EE:FF") (Some (lit "BT-TH-1234  ")) quiet_link.

Lemma quiet_link_silent (op : Z) : silent quiet_link op.
Proof. intros k data []. Qed.

Lemma silent_link_fails_witness :
  let self := DCCharger.init (lit "AA:BB:CC:DD:EE:FF") (Some (lit "BT-TH-1234  "))
                (lit "van") in
  let uuid := lit "0000ffd1-0000-1000-8000-00805f9b34fb" in
  let frame := [xff; x03; x00; x0c; x00; x08; x91; xd1] in
  let sent := match WRITE_SERVICE_UUID self with
              | Some uuid => [Write uuid frame; Write uuid frame]
              | None => []
              end in
  exists w w',
    execute_try (Some quiet_ble) (List.length (sections self) - section_index self)
      (mkWorld self false [] 0) = Some (w, Raise DeviceCommunicationError)
    /\ execute self (Some quiet_ble) = Some (w', Ok [])
    /\ calls w'
       = [Connect (address quiet_ble);
          StartNotify (lit "0000fff1-0000-1000-8000-00805f9b34fb")]
         ++ sent ++ [Disconnect]
    /\ writes (calls w') = sent
    /\ ret_dev_data (dev w') = ret_dev_data self.
Proof.
  intros self uuid frame.
  apply (silent_link_fails self quiet_ble
           (lit "0000fff1-0000-1000-8000-00805f9b34fb")
           (mkSection 12 8) [255; 3; 0; 12; 0; 8; 145; 209]%Z frame).
  - vm_compute. discriminate.
  - reflexivity.
  - reflexivity.
  - reflexivity.
  - reflexivity.
  - reflexivity.
  - reflexivity.
  - reflexivity.
  - apply quiet_link_silent.
Defined.

(** The shunt session has no write characteristic: on a quiet link it
    sends no read request at all before it gives up. *)
Lemma shunt_sends_no_request :
  ~ exists w c1 c2,
      execute (Shunt.init (lit "AA:BB:CC:DD:EE:FF") (Some (lit "RTMShunt300")) (lit "van"))
        (Some quiet_ble) = Some (w, Ok [])
      /\ writes (calls w) = [c1; c2].
Proof.
  intros (w & c1 & c2 & Hex & Hw).
  vm_compute in Hex. injection Hex as <-. discriminate.
Qed.

End SilentLink.

(** ** Dispatch on an unknown tag *)

Section UnknownTag.

(** C8, as the code has it.  For a tag outside the four known ones no
    device object is constructed and no call is made on the link.  The
    method raises [ConfigEntryNotReady] when the address does not
    resolve to a BLE device, and otherwise [APIConnectionError], the
    error it raises for any empty result. *)
Theorem unknown_tag_fails (lookup : pystr -> option BLEDevice)
    (mac_ name_ tag : pystr) :
  tag <> lit "Inverter" -> tag <> lit "DcDcCharger" ->
  tag <> lit "SmartShunt300" -> tag <> lit "TestDevice" ->
  API.get_devices lookup mac_ name_ tag
  = Some ([], Raise (match lookup mac_ with
                     | None => ConfigEntryNotReady
                     | Some _ => APIConnectionError
                     end)).
Proof.
  intros H1 H2 H3 H4. unfold API.get_devices.
  rewrite !bool_decide_eq_false_2 by assumption.
  destruct (lookup mac_); reflexivity.
Qed.

Lemma unknown_tag_fails_witness :
  API.get_devices (fun _ => Some quiet_ble) (lit "AA:BB:CC:DD:EE:FF") (lit "van")
    (lit "Foo")
  = Some ([], Raise (match Some quiet_ble with
                     | None => ConfigEntryNotReady
                     | Some _ => APIConnectionError
                     end)).
Proof.
  apply (unknown_tag_fails (fun _ => Some quiet_ble)); vm_compute; discriminate.
Defined.

(** The tag "Foo" does not fail with [UnknownDeviceType]. *)
Lemma foo_is_not_unknown_device_type :
  ~ exists cs,
      API.get_devices (fun _ => Some quiet_ble) (lit "AA:BB:CC:DD:EE:FF") (lit "van")
        (lit "Foo") = Some (cs, Raise UnknownDeviceType).
Proof.
  intros [cs H]. vm_compute in H. discriminate.
Qed.

End UnknownTag.

(** ** A poll that is answered *)

Section AnsweredPoll.

(** A request can always be framed for a byte-sized device id and
    function code. *)
Lemma create_request_ok (d f r w : Z) :
  (0 <= d < 256)%Z -> (0 <= f < 256)%Z ->
  exists req frame,
    create_generic_read_request d f (Some r) (Some w) = Ok (Some req)
    /\ bytes_of_ints req = Ok frame.
Proof.
  intros Hd Hf. unfold create_generic_read_request.
  set (data := [d; f; int_to_bytes r 0; int_to_bytes r 1;
                int_to_bytes w 0; int_to_bytes w 1]).
  assert (Hdata : Forall (fun z => (0 <= z < 256)%Z) data).
  { unfold data. repeat constructor; try lia; apply int_to_bytes_range. }
  destruct (bytes_of_ints_total data Hdata) as [raw [Hraw _]].
  rewrite Hraw. cbn [res_bind].
  destruct (crc16_modbus_range raw) as [Hlo Hhi].
  destruct (bytes_of_ints_total (data ++ [fst (crc16_modbus raw)] ++ [snd (crc16_modbus raw)]))
    as [frame [Hframe _]].
  { apply Forall_app. split; [exact Hdata|]. repeat constructor; lia. }
  eauto.
Qed.

(** The fields of the device object a decoder reads. *)
Definition decoder_fields (d : RenogyDevice) :=
  (kind d, mac d, ha_device_name d, model d, battery_type d, first_parse d).

(** A decoder's result depends on the device object only through
    [decoder_fields], and so do the fields it leaves behind. *)
Lemma parse_section_reads (d1 d2 d1' d2' : RenogyDevice) (bs : list byte) (i : nat)
    (r1 r2 : res items) :
  decoder_fields d1 = decoder_fields d2 ->
  parse_section d1 bs i = (d1', r1) ->
  parse_section d2 bs i = (d2', r2) ->
  r1 = r2 /\ decoder_fields d1' = decoder_fields d2'.
Proof.
  unfold decoder_fields. intros Hf. injection Hf as Hk Hm Hha Hmo Hb Hfp.
  assert (Hfin : forall (x1 x2 : RenogyDevice) (y1 y2 : res items),
             y1 = y2 -> decoder_fields x1 = decoder_fields x2 ->
             (x1, y1) = (d1', r1) -> (x2, y2) = (d2', r2) ->
             r1 = r2 /\ (kind d1', mac d1', ha_device_name d1', model d1',
                         battery_type d1', first_parse d1')
                        = (kind d2', mac d2', ha_device_name d2', model d2',
                           battery_type d2', first_parse d2')).
  { intros x1 x2 y1 y2 Hy Hx [= <- <-] [= <- <-]. now split. }
  assert (Hsame : decoder_fields d1 = decoder_fields d2)
    by (unfold decoder_fields; congruence).
  unfold parse_section. rewrite <- Hk. destruct (kind d1).
  - unfold InverterDev.parse_section.
    destruct i as [|[|[|[|i]]]];
      unfold InverterDev.parse_inverter_model, InverterDev.parse_device_id,
        InverterDev.parse_inverter_stats, InverterDev.parse_load_info;
      try destruct (decode_utf8 (slice bs 3 19));
      apply Hfin; rewrite ?Hm, ?Hha, ?Hmo, ?Hb, ?Hfp; try reflexivity;
      try exact Hsame; unfold decoder_fields in *; simpl; congruence.
  - unfold DCCharger.parse_section.
    destruct i as [|[|[|[|[|i]]]]];
      unfold DCCharger.parse_device_info, DCCharger.parse_device_address,
        DCCharger.parse_state, DCCharger.parse_battery_type,
        DCCharger.parse_charging_info;
      try destruct (decode_utf8 (slice bs 3 19));
      try destruct (bytes_to_int bs 3 2 None false);
      apply Hfin; rewrite ?Hm, ?Hha, ?Hmo, ?Hb, ?Hfp; try reflexivity;
      try exact Hsame; unfold decoder_fields in *; simpl; congruence.
  - unfold Shunt.parse_section. rewrite <- Hfp.
    destruct (negb (i =? 0) || negb (first_parse d1) || (List.length bs <? 110));
      apply Hfin; cbn [mac ha_device_name set_first_parse];
      rewrite ?Hm, ?Hha, ?Hmo, ?Hb; try reflexivity;
      try exact Hsame; unfold decoder_fields in *; simpl; congruence.
  - unfold Test.parse_section. rewrite <- Hfp.
    destruct (negb (i =? 0) || negb (first_parse d1));
      apply Hfin; cbn [mac ha_device_name set_first_parse];
      rewrite ?Hm, ?Hha, ?Hmo, ?Hb; try reflexivity;
      try exact Hsame; unfold decoder_fields in *; simpl; congruence.
Qed.

Lemma decode_from_reads (payloads : list (list byte)) :
  forall (d1 d2 : RenogyDevice) (i : nat),
    decoder_fields d1 = decoder_fields d2 ->
    decode_from d1 i payloads = decode_from d2 i payloads.
Proof.
  induction payloads as [|p ps IH]; intros d1 d2 i Hf; simpl; [reflexivity|].
  destruct (parse_section d1 p i) as [d1' r1] eqn:H1.
  destruct (parse_section d2 p i) as [d2' r2] eqn:H2.
  destruct (parse_section_reads _ _ _ _ _ _ _ _ Hf H1 H2) as [<- Hf'].
  destruct r1 as [its|e]; [|reflexivity].
  destruct (valid its); [|reflexivity].
  now rewrite (IH d1' d2' (S i) Hf').
Qed.

Lemma wait_loop_step (t : Transport) (n : nat) (w : world) :
  wait_loop t (S n) w
  = if notification_event (dev w) then w else wait_loop t n (sleep t w).
Proof. reflexivity. Qed.

Lemma wait_loop_event_set (t : Transport) (n : nat) (w : world) :
  notification_event (dev w) = true -> wait_loop t n w = w.
Proof. intros H. destruct n; [reflexivity|]. now rewrite wait_loop_step, H. Qed.

Lemma send_loop_step (t : Transport) (n : nat) (w : world) :
  send_loop t (S n) w
  = let (w1, r) :=
      match WRITE_SERVICE_UUID (dev w) with
      | Some _ => read_section t w
      | None => (w, Ok tt)
      end in
    match r with
    | Raise e => (w1, Raise e)
    | Ok _ =>
        let w2 := wait_loop t 25 w1 in
        if notification_event (dev w2) then (w2, Ok true) else send_loop t n w2
    end.
Proof. reflexivity. Qed.

(** One payload that carries the expected operation code and that the
    decoder accepts, delivered to a device whose event is clear. *)
Lemma deliver_accepted (self self1 : RenogyDevice) (p : list byte) (its : items) :
  bytes_to_int p 1 1 None false = Ok (VInt (READ_OPERATION self)) ->
  parse_section self p (section_index self) = (self1, Ok its) ->
  valid its = true ->
  deliver self p
  = set_event (set_ret_dev_data self1 (ret_dev_data self1 ++ entities its)) true.
Proof.
  intros Hop Hp Hv. unfold deliver, notification_callback.
  rewrite Hop. cbn [py_eq_int]. rewrite Z.eqb_refl, Hp, Hv. reflexivity.
Qed.

(** One round of the inner loop when the link delivers, during the
    first sleep, one payload that carries the expected operation code
    and that the decoder accepts. *)
Lemma answered_send_loop (t : Transport) (w : world) (uuid : pystr) (s : section)
    (req : list Z) (frame p : list byte) (self1 : RenogyDevice) (its : items) :
  WRITE_SERVICE_UUID (dev w) = Some uuid ->
  sections (dev w) !! section_index (dev w) = Some s ->
  create_generic_read_request (dev_device_id (dev w)) (function (dev w))
    (Some (register s)) (Some (words s)) = Ok (Some req) ->
  bytes_of_ints req = Ok frame ->
  (forall n, write_raises t n = false) ->
  notifications t (ticks w) = [p] ->
  bytes_to_int p 1 1 None false = Ok (VInt (READ_OPERATION (dev w))) ->
  parse_section (set_event (dev w) false) p (section_index (dev w)) = (self1, Ok its) ->
  valid its = true ->
  send_loop t 2 w
  = (mkWorld (set_event (set_ret_dev_data self1 (ret_dev_data self1 ++ entities its)) true)
       (client_set w) (calls w ++ [Write uuid frame]) (S (ticks w)), Ok true).
Proof.
  intros Hw Hs Hreq Hframe Hok Hn Hop Hp Hv.
  rewrite send_loop_step, Hw.
  rewrite (read_section_sends t w uuid s req frame) by assumption.
  cbv beta iota zeta.
  set (w1 := mkWorld (set_event (dev w) false) (client_set w)
               (calls w ++ [Write uuid frame]) (ticks w)).
  assert (Hsl : sleep t w1
                = mkWorld (set_event (set_ret_dev_data self1
                                        (ret_dev_data self1 ++ entities its)) true)
                    (client_set w) (calls w ++ [Write uuid frame]) (S (ticks w))).
  { unfold sleep, w1. cbn [ticks dev client_set calls]. rewrite Hn. cbn [fold_left].
    now rewrite (deliver_accepted _ self1 p its). }
  rewrite (wait_loop_step t 24 w1).
  replace (notification_event (dev w1)) with false by reflexivity.
  rewrite Hsl, wait_loop_event_set by reflexivity.
  reflexivity.
Qed.

Lemma add_devices_reads (d1 d2 : RenogyDevice) (l : list RenogyDeviceData) :
  mac d1 = mac d2 -> dev_device_name d1 = dev_device_name d2 ->
  dev_name d1 = dev_name d2 ->
  add_devices d1 l = add_devices d2 l.
Proof.
  intros Hm Hd Hn. induction l as [|d l IH]; simpl; [reflexivity|].
  now rewrite Hm, Hd, Hn, IH.
Qed.

(** The outer loop when every remaining section is answered during the
    first sleep of its first attempt by one payload, and the payloads
    decode in order to [es]: the loop ends normally, having
    accumulated [es] and written one request per section. *)
Lemma answered_section_loop (t : Transport) (uuid : pystr) :
  (forall n, write_raises t n = false) ->
  forall (payloads : list (list byte)) (w : world) (es : list RenogyDeviceData),
    WRITE_SERVICE_UUID (dev w) = Some uuid ->
    (0 <= dev_device_id (dev w) < 256)%Z -> (0 <= function (dev w) < 256)%Z ->
    section_index (dev w) + List.length payloads = List.length (sections (dev w)) ->
    (forall j p, payloads !! j = Some p ->
       notifications t (ticks w + j) = [p]
       /\ bytes_to_int p 1 1 None false = Ok (VInt (READ_OPERATION (dev w)))) ->
    decode_from (dev w) (section_index (dev w)) payloads = Some es ->
    exists w',
      section_loop t (List.length payloads) w = Some (w', Ok tt)
      /\ ret_dev_data (dev w') = ret_dev_data (dev w) ++ es
      /\ mac (dev w') = mac (dev w)
      /\ dev_device_name (dev w') = dev_device_name (dev w)
      /\ dev_name (dev w') = dev_name (dev w)
      /\ client_set w' = client_set w
      /\ List.length (writes (calls w'))
         = List.length (writes (calls w)) + List.length payloads.
Proof.
  intros Hok. induction payloads as [|p ps IH]; intros w es Hw Hd Hf Hlen Hn Hdec.
  - simpl in *. injection Hdec as <-. exists w.
    destruct (Nat.ltb_spec (section_index (dev w)) (List.length (sections (dev w))));
      [lia|].
    rewrite app_nil_r. repeat split; lia.
  - cbn [List.length section_loop].
    destruct (Nat.ltb_spec (section_index (dev w)) (List.length (sections (dev w))))
      as [Hlt|]; [|simpl in Hlen; lia].
    destruct (lookup_lt_is_Some_2 _ _ Hlt) as [s Hs].
    destruct (create_request_ok (dev_device_id (dev w)) (function (dev w))
                (register s) (words s) Hd Hf) as (req & frame & Hreq & Hframe).
    cbn [decode_from] in Hdec.
    destruct (parse_section (dev w) p (section_index (dev w))) as [d1 [its|e]] eqn:Hp;
      [|discriminate].
    destruct (valid its) eqn:Hv; [|discriminate].
    destruct (decode_from d1 (S (section_index (dev w))) ps) as [l|] eqn:Hl;
      [|discriminate].
    injection Hdec as <-.
    destruct (parse_section (set_event (dev w) false) p (section_index (dev w)))
      as [d1' r'] eqn:Hp'.
    assert (Hfields : decoder_fields (set_event (dev w) false) = decoder_fields (dev w))
      by reflexivity.
    destruct (parse_section_reads _ _ _ _ _ _ _ _ Hfields Hp' Hp) as [-> Hf1].
    pose proof (parse_section_keeps _ _ _ _ _ Hp') as Hk. unfold base_fields in Hk.
    cbn [kind mac dev_device_name ha_device_name dev_name function dev_device_id
         sections section_index notification_event ret_dev_data NOTIFY_SERVICE_UUID
         WRITE_SERVICE_UUID READ_OPERATION set_event] in Hk.
    injection Hk as K1 K2 K3 K4 K5 K6 K7 K8 K9 K10 K11 K12 K13 K14.
    destruct (Hn 0 p eq_refl) as [Hn0 Hop0]. rewrite Nat.add_0_r in Hn0.
    rewrite (answered_send_loop t w uuid s req frame p d1' its) by assumption.
    set (w1 := with_dev _ _).
    destruct (IH w1 l) as (w' & Hloop & Hret & Hmac & Hdn & Hnm & Hcs & Hwr).
    + subst w1. simpl. congruence.
    + subst w1. simpl. congruence.
    + subst w1. simpl. congruence.
    + subst w1. simpl. rewrite K8, K9. simpl in Hlen. lia.
    + intros j q Hq. subst w1. cbn [with_dev ticks dev READ_OPERATION set_section_index
                                     set_event set_ret_dev_data].
      destruct (Hn (S j) q Hq) as [Hnj Hopj].
      rewrite K14. split; [|exact Hopj].
      rewrite <- Hnj. f_equal. lia.
    + subst w1. cbn [with_dev dev section_index set_section_index set_event
                       set_ret_dev_data].
      rewrite K9. rewrite <- Hl. apply decode_from_reads.
      rewrite <- Hf1. reflexivity.
    + exists w'. split; [exact Hloop|].
      subst w1. cbn [with_dev dev calls client_set ret_dev_data mac dev_device_name
                       dev_name set_section_index set_event set_ret_dev_data] in *.
      rewrite Hret, Hmac, Hdn, Hnm, Hcs, Hwr, K11, K2, K3, K5.
      repeat split; try reflexivity.
      * now rewrite app_assoc.
      * unfold writes. rewrite List.filter_app, length_app. simpl. lia.
Qed.

End AnsweredPoll.

(** ** The DC-DC charger, answered *)

Section ChargerPoll.

(** What [add_devices] does to one measurement when the advertised name
    is known. *)
Definition with_controller (self : RenogyDevice) (dn : pystr) (d : RenogyDeviceData)
    : RenogyDeviceData :=
  if is_main d then
    mkData (device_id d) (device_name d) (device_unique_id d) (device_type d)
      (name d) (state d) (is_main d)
      (<["config_name" := VStr (dev_name self)]> (
       <["device_name" := VStr (strip dn)]> (
       <["mac" := VStr (mac self)]> (attributes d))))
  else d.

Lemma add_devices_named (self : RenogyDevice) (dn : pystr) (l : list RenogyDeviceData) :
  dev_device_name self = Some dn ->
  add_devices self l = Ok (map (with_controller self dn) l).
Proof.
  intros Hdn. induction l as [|d l IH]; simpl; [reflexivity|].
  unfold with_controller at 1. rewrite Hdn, IH. now destruct (is_main d).
Qed.

(** [execute] on a link that connects, accepts writes and answers each
    section during the first sleep of its first attempt: the call
    returns what [add_devices] makes of the decoded measurements. *)
Lemma answered_execute (self : RenogyDevice) (ble : BLEDevice) (nu uuid : pystr)
    (payloads : list (list byte)) (es : list RenogyDeviceData) :
  WRITE_SERVICE_UUID self = Some uuid -> uuid <> lit "TEST" ->
  NOTIFY_SERVICE_UUID self = Some nu ->
  (0 <= dev_device_id self < 256)%Z -> (0 <= function self < 256)%Z ->
  connect_result (link ble) = Ok true ->
  (forall n, write_raises (link ble) n = false) ->
  section_index self + List.length payloads = List.length (sections self) ->
  (forall j p, payloads !! j = Some p ->
     notifications (link ble) j = [p]
     /\ bytes_to_int p 1 1 None false = Ok (VInt (READ_OPERATION self))) ->
  decode_from self (section_index self) payloads = Some es ->
  exists w, execute self (Some ble)
            = Some (w, add_devices self (ret_dev_data self ++ es)).
Proof.
  intros Hw Hne Hnu Hd Hf Hconn Hok Hlen Hn Hdec.
  unfold execute, execute_fuel.
  replace (List.length (sections self) - section_index self)
    with (List.length payloads) by lia.
  unfold execute_try. cbn [dev]. rewrite Hw.
  rewrite bool_decide_eq_false_2 by congruence.
  rewrite Hnu, Hconn. cbn [negb].
  match goal with
  | |- context [section_loop ?t ?fuel ?w0] =>
      destruct (answered_section_loop t uuid Hok payloads w0 es)
        as (w' & Hloop & Hret & Hmac & Hdn & Hnm & Hcs & _); try assumption
  end.
  rewrite Hloop. cbn [emit dev ret_dev_data] in *.
  rewrite Hret.
  rewrite (add_devices_reads (dev w') self) by assumption.
  destruct (add_devices self (ret_dev_data self ++ es)); eauto.
Qed.

(** The charging-info section decodes whenever the payload reaches the
    last field. *)
Lemma parse_charging_info_total (self : RenogyDevice) (bs : list byte) :
  63 <= List.length bs ->
  exists its, DCCharger.parse_charging_info self bs = (self, Ok its).
Proof.
  intros Hlen. unfold DCCharger.parse_charging_info, bytes_to_int, bytes_to_int_raw.
  repeat match goal with
         | |- context [(List.length bs <? ?k)%nat] =>
             destruct (Nat.ltb_spec (List.length bs) k) as [|_]; [simpl in *; lia|]
         end.
  cbn [res_bind]. eauto.
Qed.

(** The five payloads of a charger poll decode, in order, to a list
    that holds "Battery Percent", read from the first two data bytes of
    the last payload, and the primary "Combined Charge Current", which
    carries the model of the first payload and the battery type of the
    fourth. *)
Lemma charger_decode (mac_ nm : pystr) (dn : option pystr)
    (b0 b1 b2 b3 b4 : list byte) (m bt : pystr) (hi lo phi plo : byte) :
  decode_utf8 (slice b0 3 19) = Ok m ->
  5 <= List.length b1 -> 3 <= List.length b2 ->
  b3 !! 3 = Some hi -> b3 !! 4 = Some lo ->
  DCCharger.BATTERY_TYPE !! (byte_val hi * 256 + byte_val lo)%Z = Some bt ->
  63 <= List.length b4 ->
  b4 !! 3 = Some phi -> b4 !! 4 = Some plo ->
  exists es,
    decode_from (DCCharger.init mac_ dn nm) 0 [b0; b1; b2; b3; b4] = Some es
    /\ (exists d, In d es /\ name d = lit "Combined Charge Current"
                  /\ is_main d = true
                  /\ attributes d
                     = <["model" := VStr (strip m)]>
                         (<["battery_type" := VStr bt]> ∅))
    /\ (exists d, In d es /\ name d = lit "Battery Percent"
                  /\ is_main d = false
                  /\ state d = VInt (byte_val phi * 256 + byte_val plo)).
Proof.
  intros Hm H1 H2 Hhi Hlo Hbt H4 Hphi Hplo.
  set (d0 := DCCharger.init mac_ dn nm).
  set (d1 := set_model d0 (strip m)).
  set (d3 := set_battery_type d1 (VStr bt)).
  assert (P0 : parse_section d0 b0 0 = (d1, Ok (mkItems true []))).
  { unfold parse_section, DCCharger.parse_section, DCCharger.parse_device_info.
    cbn [kind d0 DCCharger.init]. now rewrite Hm. }
  destruct (bytes_to_int_plain b1 4 1 false) as [n1 E1]; [lia|].
  assert (P1 : exists its, parse_section d1 b1 1 = (d1, Ok its) /\ valid its = true
                           /\ Forall (fun d => is_main d = false) (entities its)).
  { unfold parse_section, DCCharger.parse_section, DCCharger.parse_device_address.
    cbn [kind d1 d0 set_model DCCharger.init]. rewrite E1. cbn [res_bind].
    eexists. split; [reflexivity|]. split; [reflexivity|]. repeat constructor. }
  destruct (bytes_to_int_plain b2 2 1 false) as [n2 E2]; [lia|].
  assert (P2 : exists its, parse_section d1 b2 2 = (d1, Ok its) /\ valid its = true
                           /\ Forall (fun d => is_main d = false) (entities its)).
  { unfold parse_section, DCCharger.parse_section, DCCharger.parse_state.
    cbn [kind d1 d0 set_model DCCharger.init]. rewrite E2. cbn [res_bind].
    eexists. split; [reflexivity|]. split; [reflexivity|]. repeat constructor. }
  assert (P3 : parse_section d1 b3 3 = (d3, Ok (mkItems true []))).
  { unfold parse_section, DCCharger.parse_section, DCCharger.parse_battery_type.
    cbn [kind d1 d0 set_model DCCharger.init].
    rewrite (bytes_to_int_word _ _ _ _ Hhi Hlo). unfold DCCharger.dict_get.
    now rewrite Hbt. }
  destruct (parse_charging_info_total d3 b4 H4) as [its4 Hits].
  assert (P4 : parse_section d3 b4 4 = (d3, Ok its4)).
  { unfold parse_section, DCCharger.parse_section.
    cbn [kind d3 d1 d0 set_model set_battery_type DCCharger.init]. exact Hits. }
  apply parse_charging_info_ok in Hits
    as (_ & Hv & v3 & v5 & before & after & Hent & Hv3 & Hb & Ha).
  rewrite (bytes_to_int_word _ _ _ _ Hphi Hplo) in Hv3. injection Hv3 as <-.
  destruct P1 as (its1 & P1 & V1 & M1). destruct P2 as (its2 & P2 & V2 & M2).
  cbn [decode_from]. rewrite P0. cbn [valid entities]. rewrite P1, V1, P2, V2, P3.
  cbn [valid entities]. rewrite P4, Hv.
  eexists. split; [reflexivity|].
  rewrite Hent, app_nil_r. cbn [app]. split.
  - eexists. split.
    + apply in_or_app. right. apply in_or_app. right. right.
      apply in_or_app. right. left. reflexivity.
    + repeat split.
  - eexists. split.
    + apply in_or_app. right. apply in_or_app. right. left. reflexivity.
    + repeat split.
Qed.

(** C3. A DC-DC charger session on a link that connects, accepts writes
    and answers each of the five sections with one read response: the
    poll returns a list that holds "Combined Charge Current", marked
    primary, whose attributes hold the model decoded from bytes 3..18 of
    the first payload (UTF-8, stripped) and the battery type named by
    the two-byte code at offset 3 of the fourth payload, and that holds
    "Battery Percent", whose value is the unsigned big-endian two-byte
    integer at offset 3 of the last payload, unscaled. *)
Theorem charger_happy_path (mac_ dn nm : pystr) (ble : BLEDevice)
    (b0 b1 b2 b3 b4 : list byte) (m bt : pystr) (hi lo phi plo : byte) :
  connect_result (link ble) = Ok true ->
  (forall n, write_raises (link ble) n = false) ->
  (forall j p, [b0; b1; b2; b3; b4] !! j = Some p ->
     notifications (link ble) j = [p] /\ p !! 1 = Some x03) ->
  decode_utf8 (slice b0 3 19) = Ok m ->
  5 <= List.length b1 -> 3 <= List.length b2 ->
  b3 !! 3 = Some hi -> b3 !! 4 = Some lo ->
  DCCharger.BATTERY_TYPE !! (byte_val hi * 256 + byte_val lo)%Z = Some bt ->
  63 <= List.length b4 ->
  b4 !! 3 = Some phi -> b4 !! 4 = Some plo ->
  exists w es,
    execute (DCCharger.init mac_ (Some dn) nm) (Some ble) = Some (w, Ok es)
    /\ (exists d, In d es /\ name d = lit "Combined Charge Current"
                  /\ is_main d = true
                  /\ attributes d !! "model" = Some (VStr (strip m))
                  /\ attributes d !! "battery_type" = Some (VStr bt))
    /\ (exists d, In d es /\ name d = lit "Battery Percent"
                  /\ state d = VInt (byte_val phi * 256 + byte_val plo)).
Proof.
  intros Hconn Hok Hn Hm H1 H2 Hhi Hlo Hbt H4 Hphi Hplo.
  destruct (charger_decode mac_ nm (Some dn) b0 b1 b2 b3 b4 m bt hi lo phi plo)
    as (es & Hdec & (c & Hc & Hcn & Hcm & Hca) & (p & Hp & Hpn & Hpm & Hps));
    try assumption.
  destruct (answered_execute (DCCharger.init mac_ (Some dn) nm) ble
              (lit "0000fff1-0000-1000-8000-00805f9b34fb")
              (lit "0000ffd1-0000-1000-8000-00805f9b34fb")
              [b0; b1; b2; b3; b4] es) as [w Hex];
    try reflexivity; try assumption; try (cbn; lia).
  { vm_compute. discriminate. }
  { intros j q Hq. destruct (Hn j q Hq) as [Hnj Hop]. split; [exact Hnj|].
    now rewrite (bytes_to_int_byte _ _ _ Hop). }
  rewrite (add_devices_named _ dn) in Hex by reflexivity.
  cbn [ret_dev_data DCCharger.init app] in Hex.
  exists w, (map (with_controller (DCCharger.init mac_ (Some dn) nm) dn) es).
  split; [exact Hex|]. split.
  - exists (with_controller (DCCharger.init mac_ (Some dn) nm) dn c).
    split; [now apply in_map|].
    unfold with_controller. rewrite Hcm. cbn [name is_main attributes].
    split; [exact Hcn|]. split; [reflexivity|]. rewrite Hca. split; reflexivity.
  - exists (with_controller (DCCharger.init mac_ (Some dn) nm) dn p).
    split; [now apply in_map|].
    unfold with_controller. rewrite Hpm. auto.
Qed.

(** Five read responses of a charger: model ["RBC50D1S-G1"] padded with
    blanks, address 96, state payload, battery type 4, and a
    charging-info payload whose first register is 100. *)
Definition sample_model : list byte :=
  [xff; x03; x10] ++ list_byte_of_string "  RBC50D1S-G1   " ++ [x00; x00].

Definition sample_address : list byte := [xff; x03; x02; x00; x60; x00; x00].

Definition sample_state : list byte :=
  [xff; x03; x06; x00; x00; x00; x00; x00; x00; x00; x00].

Definition sample_battery : list byte := [xff; x03; x02; x00; x04; x00; x00].

Definition sample_info : list byte :=
  [xff; x03; x3c; x00; x64] ++ List.repeat x00 60.

Definition sample_responses : list (list byte) :=
  [sample_model; sample_address; sample_state; sample_battery; sample_info].

(** A link that answers the n-th sleep with the n-th response. *)
Definition answering_link : Transport :=
  mkTransport (Ok true) (fun _ => false)
    (fun j => match sample_responses !! j with Some p => [p] | None => [] end).

Definition answering_ble : BLEDevice :=
  mkBLEDevice (lit "AA:BB:CC:DD:EE:FF") (Some (lit "BT-TH-1234  ")) answering_link.

Lemma charger_happy_path_witness :
  exists w es,
    execute (DCCharger.init (lit "AA:BB:CC:DD:EE:FF") (Some (lit "BT-TH-1234  "))
               (lit "van")) (Some answering_ble) = Some (w, Ok es)
    /\ (exists d, In d es /\ name d = lit "Combined Charge Current"
                  /\ is_main d = true
                  /\ attributes d !! "model"
                     = Some (VStr (strip (lit "  RBC50D1S-G1   ")))
                  /\ attributes d !! "battery_type" = Some (VStr (lit "lithium")))
    /\ (exists d, In d es /\ name d = lit "Battery Percent"
                  /\ state d = VInt (byte_val x00 * 256 + byte_val x64)).
Proof.
  apply (charger_happy_path (lit "AA:BB:CC:DD:EE:FF") (lit "BT-TH-1234  ") (lit "van")
           answering_ble sample_model sample_address sample_state sample_battery
           sample_info (lit "  RBC50D1S-G1   ") (lit "lithium") x00 x04 x00 x64).
  - reflexivity.
  - reflexivity.
  - intros [|[|[|[|[|j]]]]] p [= <-]; split; reflexivity.
  - reflexivity.
  - simpl. lia.
  - simpl. lia.
  - reflexivity.
  - reflexivity.
  - reflexivity.
  - simpl. lia.
  - reflexivity.
  - reflexivity.
Defined.

(** The same poll, run: 24 measurements, the model stripped of its
    blanks. *)
Example sample_poll :
  match execute (DCCharger.init (lit "AA:BB:CC:DD:EE:FF") (Some (lit "BT-TH-1234  "))
                   (lit "van")) (Some answering_ble) with
  | Some (w, Ok es) =>
      List.length es = 24
      /\ List.length (writes (calls w)) = 5
      /\ model (dev w) = lit "RBC50D1S-G1"
      /\ map state (List.filter (fun d => bool_decide (name d = lit "Battery Percent")) es)
         = [VInt 100]
  | _ => False
  end.
Proof. vm_compute. repeat split. Qed.

End ChargerPoll.

(* ===================================================================== *)
(** * Further properties of the session *)
(* ===================================================================== *)

(** ** The calls a session makes on the link *)

Section LinkCalls.







End LinkCalls.

(** ** Failures of the link *)

Section LinkFailures.

(** A link whose first [disconnect] fails. *)
Definition failing_release : LinkFaults := mkFaults false (fun n => n =? 0).

(** What a run of [execute_with] ends with; it always returns, so the
    default is never used. *)
Definition run_with (fl : LinkFaults) (self : RenogyDevice)
    (ble_device : option BLEDevice) : world * res (list RenogyDeviceData) :=
  match execute_with fl self ble_device with
  | Some x => x
  | None => (mkWorld self false [] 0, Ok [])
  end.


(** The same answered poll as [sample_poll], on a link whose first
    [disconnect] fails: the 24 measurements were decoded, the handler
    disconnects a second time, and the poll returns the empty list. *)
Example failed_release_loses_the_poll :
  let (w, r) := run_with failing_release
                  (DCCharger.init (lit "AA:BB:CC:DD:EE:FF")
                     (Some (lit "BT-TH-1234  ")) (lit "van"))
                  (Some answering_ble) in
  r = Ok []
  /\ List.length (ret_dev_data (dev w)) = 24
  /\ List.filter is_disconnect (calls w) = [Disconnect; Disconnect]
  /\ List.length (writes (calls w)) = 5.
Proof. vm_compute. repeat split. Qed.

(** When the connection cannot be established, [execute] returns the
    empty list without subscribing or writing: after the one connection
    attempt it makes no further call if [establish_connection] raised,
    and only disconnects if the client reports that it is not
    connected.  Nothing is retried and no measurement is accumulated. *)
Theorem connection_failure (self : RenogyDevice) (ble : BLEDevice) (nu : pystr) :
  WRITE_SERVICE_UUID self <> Some (lit "TEST") ->
  NOTIFY_SERVICE_UUID self = Some nu ->
  connect_result (link ble) <> Ok true ->
  exists w,
    execute self (Some ble) = Some (w, Ok [])
    /\ dev w = self
    /\ calls w = match connect_result (link ble) with
                 | Raise _ => [Connect (address ble)]
                 | Ok _ => [Connect (address ble); Disconnect]
                 end.
Proof.
  intros Htest Hnu Hconn. unfold execute, execute_fuel, execute_try. cbn [dev].
  rewrite bool_decide_eq_false_2 by exact Htest. rewrite Hnu.
  destruct (connect_result (link ble)) as [[|]|e]; [congruence| |];
    cbn; eexists; repeat split.
Qed.

(** A link whose connection attempt raises. *)
Definition dead_ble : BLEDevice :=
  mkBLEDevice (lit "AA:BB:CC:DD:EE:FF") (Some (lit "BT-TH-1234  "))
    (mkTransport (Raise BleakError) (fun _ => false) (fun _ => [])).

Lemma connection_failure_witness :
  let self := InverterDev.init (lit "AA:BB:CC:DD:EE:FF") (Some (lit "RNGRIU1"))
                (lit "van") in
  exists w,
    execute self (Some dead_ble) = Some (w, Ok [])
    /\ dev w = self
    /\ calls w = match connect_result (link dead_ble) with
                 | Raise _ => [Connect (address dead_ble)]
                 | Ok _ => [Connect (address dead_ble); Disconnect]
                 end.
Proof.
  intros self.
  apply (connection_failure self dead_ble (lit "0000fff1-0000-1000-8000-00805f9b34fb")).
  - vm_compute. discriminate.
  - reflexivity.
  - vm_compute. discriminate.
Defined.

(** When the first write raises, [execute] does not try the request a
    second time: it disconnects and returns the empty list, having made
    exactly one write. *)
Theorem write_failure (self : RenogyDevice) (ble : BLEDevice) (nu uuid : pystr)
    (s : section) (req : list Z) (frame : list byte) :
  WRITE_SERVICE_UUID self = Some uuid -> uuid <> lit "TEST" ->
  NOTIFY_SERVICE_UUID self = Some nu ->
  sections self !! section_index self = Some s ->
  create_generic_read_request (dev_device_id self) (function self)
    (Some (register s)) (Some (words s)) = Ok (Some req) ->
  bytes_of_ints req = Ok frame ->
  connect_result (link ble) = Ok true ->
  write_raises (link ble) 0 = true ->
  exists w,
    execute self (Some ble) = Some (w, Ok [])
    /\ calls w = [Connect (address ble); StartNotify nu; Write uuid frame; Disconnect]
    /\ ret_dev_data (dev w) = ret_dev_data self.
Proof.
  intros Hw Hne Hnu Hs Hreq Hframe Hconn Hraise.
  pose proof (lookup_lt_Some _ _ _ Hs) as Hlt.
  destruct (List.length (sections self) - section_index self) as [|fuel] eqn:Hfuel;
    [lia|].
  unfold execute, execute_fuel. rewrite Hfuel. unfold execute_try. cbn [dev].
  rewrite Hw. rewrite bool_decide_eq_false_2 by congruence.
  rewrite Hnu, Hconn. cbn [negb]. cbn [section_loop emit dev calls client_set ticks].
  destruct (Nat.ltb_spec (section_index self) (List.length (sections self))) as [_|];
    [|lia].
  rewrite send_loop_step. cbn [dev emit]. rewrite Hw.
  unfold read_section. cbn [dev calls with_dev emit client_set ticks].
  rewrite Hs, Hreq, Hframe, Hw. cbn [writes List.filter is_write app List.length].
  rewrite Hraise. cbn [dev calls client_set emit app]. eexists. repeat split.
Qed.

(** A link that connects and refuses every write. *)
Definition refusing_ble : BLEDevice :=
  mkBLEDevice (lit "AA:BB:CC:DD:EE:FF") (Some (lit "BT-TH-1234  "))
    (mkTransport (Ok true) (fun _ => true) (fun _ => [])).

Lemma write_failure_witness :
  let self := DCCharger.init (lit "AA:BB:CC:DD:EE:FF") (Some (lit "BT-TH-1234  "))
                (lit "van") in
  exists w,
    execute self (Some refusing_ble) = Some (w, Ok [])
    /\ calls w
       = [Connect (address refusing_ble);
          StartNotify (lit "0000fff1-0000-1000-8000-00805f9b34fb");
          Write (lit "0000ffd1-0000-1000-8000-00805f9b34fb")
            [xff; x03; x00; x0c; x00; x08; x91; xd1];
          Disconnect]
    /\ ret_dev_data (dev w) = ret_dev_data self.
Proof.
  intros self.
  apply (write_failure self refusing_ble
           (lit "0000fff1-0000-1000-8000-00805f9b34fb")
           (lit "0000ffd1-0000-1000-8000-00805f9b34fb")
           (mkSection 12 8) [255; 3; 0; 12; 0; 8; 145; 209]%Z);
    try reflexivity.
  vm_compute. discriminate.
Defined.

End LinkFailures.

(** ** Finalisation and the simulated device *)

Section Finalisation.

(** The three keys [add_devices] writes. *)
Definition controller_keys : list string := ["mac"; "device_name"; "config_name"].

(** How [add_devices] relates a measurement to what it returns for it. *)
Definition finalised (self : RenogyDevice) (d d' : RenogyDeviceData) : Prop :=
  device_id d' = device_id d /\ device_name d' = device_name d
  /\ device_unique_id d' = device_unique_id d /\ device_type d' = device_type d
  /\ name d' = name d /\ state d' = state d /\ is_main d' = is_main d
  /\ (is_main d = false -> d' = d)
  /\ (is_main d = true ->
      attributes d' !! "mac" = Some (VStr (mac self))
      /\ attributes d' !! "config_name" = Some (VStr (dev_name self))
      /\ (exists dn, dev_device_name self = Some dn
                     /\ attributes d' !! "device_name" = Some (VStr (strip dn)))
      /\ forall k, ~ In k controller_keys -> attributes d' !! k = attributes d !! k).

(** When [add_devices] returns, it has kept the list in order and in
    length, has left every measurement that is not primary untouched,
    and has only added the controller's address, stripped advertised
    name and configured name to the attributes of the primary ones,
    keeping their other attributes. *)
Theorem add_devices_effect (self : RenogyDevice) (l l' : list RenogyDeviceData) :
  add_devices self l = Ok l' -> Forall2 (finalised self) l l'.
Proof.
  revert l'. induction l as [|d l IH]; intros l'; cbn [add_devices].
  - intros [= <-]. constructor.
  - destruct (is_main d) eqn:Hm.
    + destruct (dev_device_name self) as [dn|] eqn:Hdn; [|discriminate].
      destruct (add_devices self l) as [r|e]; [|discriminate].
      cbn [res_bind]. intros [= <-]. constructor; [|now apply IH].
      unfold finalised. cbn [device_id device_name device_unique_id device_type
                               name state is_main attributes].
      do 7 (split; [first [reflexivity | congruence]|]). split; [congruence|].
      intros _.
      split; [|split; [|split]].
      * rewrite lookup_insert_ne by discriminate.
        rewrite lookup_insert_ne by discriminate. apply lookup_insert_eq.
      * apply lookup_insert_eq.
      * exists dn. split; [exact Hdn|].
        rewrite lookup_insert_ne by discriminate. apply lookup_insert_eq.
      * intros k Hk. unfold controller_keys in Hk. simpl in Hk.
        rewrite !lookup_insert_ne by (intros <-; tauto). reflexivity.
    + destruct (add_devices self l) as [r|e]; [|discriminate].
      cbn [res_bind]. intros [= <-]. constructor; [|now apply IH].
      unfold finalised. repeat split; congruence.
Qed.

Lemma add_devices_effect_witness :
  Forall2 (finalised shunt_session)
    (ret_dev_data (deliver shunt_session shunt_frame))
    (map (with_controller shunt_session (lit "RTMShunt300"))
       (ret_dev_data (deliver shunt_session shunt_frame))).
Proof.
  apply (add_devices_effect shunt_session). vm_compute. reflexivity.
Defined.

(** [add_devices] raises, with the [AttributeError] of [None.strip()],
    exactly when the advertised name is missing and some measurement is
    primary; it raises nothing else. *)
Theorem add_devices_raises (self : RenogyDevice) (l : list RenogyDeviceData) :
  add_devices self l = Raise AttributeError
  <-> (dev_device_name self = None /\ exists d, In d l /\ is_main d = true).
Proof.
  destruct (dev_device_name self) as [dn|] eqn:Hdn.
  - rewrite (add_devices_named self dn l Hdn). split; [discriminate|].
    intros [H _]. discriminate.
  - induction l as [|d l IH]; cbn [add_devices].
    + split; [discriminate | intros (_ & d & [] & _)].
    + rewrite Hdn. destruct (is_main d) eqn:Hm.
      * split; [|reflexivity]. intros _. split; [reflexivity|].
        exists d. split; [now left | exact Hm].
      * destruct (add_devices self l) as [r|e]; cbn [res_bind].
        -- split; [discriminate|].
           intros (_ & d' & [<-|Hin] & Hd'); [congruence|].
           assert (Hc : Ok r = Raise AttributeError)
             by (apply IH; split; [reflexivity|]; eauto).
           discriminate.
        -- split.
           ++ intros [= ->]. destruct (proj1 IH eq_refl) as (_ & d' & Hin & Hd').
              split; [reflexivity|]. exists d'. split; [now right | exact Hd'].
           ++ intros (_ & d' & [<-|Hin] & Hd'); [congruence|].
              assert (H : @Raise (list RenogyDeviceData) e = Raise AttributeError)
                by (apply IH; split; [reflexivity|]; eauto).
              now injection H as ->.
Qed.

Lemma add_devices_raises_witness :
  add_devices (Shunt.init (lit "AA:BB") None (lit "van"))
    (ret_dev_data (deliver shunt_session shunt_frame)) = Raise AttributeError.
Proof.
  apply (add_devices_raises (Shunt.init (lit "AA:BB") None (lit "van"))).
  split; [reflexivity|].
  eexists. split; [left; reflexivity | reflexivity].
Defined.

(** The simulated device through the dispatch layer: whatever the
    address, the configured name and the Bluetooth registry, the tag
    "TestDevice" makes no call on any link and returns seven
    measurements with the entity indices 1 to 7, the first of which is
    the primary one and carries the advertised name "Test_A1234". *)
Theorem test_device_poll (lookup : pystr -> option BLEDevice) (mac_ name_ : pystr) :
  exists es d,
    API.get_devices lookup mac_ name_ (lit "TestDevice") = Some ([], Ok es)
    /\ map device_unique_id es
       = map (entity_unique_id mac_) [1; 2; 3; 4; 5; 6; 7]%Z
    /\ map is_main es = [true; false; false; false; false; false; false]
    /\ head es = Some d
    /\ attributes d
       = <["model" := VStr (lit "SmartShunt300")]> (
         <["mac" := VStr mac_]> (
         <["device_name" := VStr (lit "Test_A1234")]> (
         <["config_name" := VStr name_]> ∅))).
Proof.
  eexists _, _. unfold API.get_devices.
  rewrite (bool_decide_eq_true_2 (lit "TestDevice" = lit "TestDevice")) by reflexivity.
  rewrite (bool_decide_eq_false_2 (lit "TestDevice" = lit "Inverter"))
    by (vm_compute; discriminate).
  rewrite (bool_decide_eq_false_2 (lit "TestDevice" = lit "DcDcCharger"))
    by (vm_compute; discriminate).
  rewrite (bool_decide_eq_false_2 (lit "TestDevice" = lit "SmartShunt300"))
    by (vm_compute; discriminate).
  cbv beta iota. unfold execute, execute_fuel, execute_try.
  cbn [dev Test.init WRITE_SERVICE_UUID].
  rewrite (bool_decide_eq_true_2 (Some (lit "TEST") = Some (lit "TEST"))) by reflexivity.
  cbn -[lit entity_unique_id]. repeat split.
Qed.

End Finalisation.

(** ** Decoders at the edges *)

Section DecoderEdges.

(** A section index past the last section of the family: the decoder
    reports the payload invalid, emits nothing and assigns nothing,
    whatever the payload and the cached state. *)
Theorem parse_section_past_last (self : RenogyDevice) (bs : list byte) (i : nat) :
  List.length (sections (new_device (kind self) (mac self) (dev_device_name self)
                           (dev_name self))) <= i ->
  parse_section self bs i = (self, Ok invalid_items).
Proof.
  unfold parse_section, new_device. destruct (kind self); cbn; intros Hi.
  - do 4 (destruct i as [|i]; [lia|]). reflexivity.
  - do 5 (destruct i as [|i]; [lia|]). reflexivity.
  - destruct i as [|i]; [lia|]. reflexivity.
  - destruct i as [|i]; [lia|]. reflexivity.
Qed.

Lemma parse_section_past_last_witness :
  parse_section shunt_session shunt_frame 1 = (shunt_session, Ok invalid_items).
Proof.
  apply (parse_section_past_last shunt_session shunt_frame 1). simpl. lia.
Defined.

(** The model slice [bs[3:19]] of a payload of at most three bytes is
    empty, and an empty slice decodes: a truncated read response that
    carries the read operation code is accepted as the model section of
    an inverter or charger session, with the empty string as the model. *)
Theorem truncated_model_accepted (self : RenogyDevice) (bs : list byte) :
  kind self = Inverter \/ kind self = DcDcCharger ->
  section_index self = 0 -> READ_OPERATION self = 3%Z ->
  bs !! 1 = Some x03 -> List.length bs <= 3 ->
  parse_section self bs 0 = (set_model self [], Ok (mkItems true []))
  /\ model (deliver self bs) = []
  /\ notification_event (deliver self bs) = true
  /\ ret_dev_data (deliver self bs) = ret_dev_data self.
Proof.
  intros Hk Hidx Hop Hb Hlen.
  assert (Hslice : slice bs 3 19 = []).
  { unfold slice. rewrite drop_ge by lia. reflexivity. }
  assert (Hp : parse_section self bs 0 = (set_model self [], Ok (mkItems true []))).
  { unfold parse_section.
    destruct Hk as [-> | ->]; cbn;
      unfold InverterDev.parse_inverter_model, DCCharger.parse_device_info;
      rewrite Hslice; reflexivity. }
  split; [exact Hp|].
  rewrite (deliver_accepted self (set_model self []) bs (mkItems true [])).
  - cbn. rewrite app_nil_r. auto.
  - rewrite Hop. apply (bytes_to_int_byte _ _ _ Hb).
  - now rewrite Hidx.
  - reflexivity.
Qed.

Lemma truncated_model_accepted_witness :
  let self := DCCharger.init (lit "AA:BB") (Some (lit "BT-TH-1")) (lit "van") in
  parse_section self [xff; x03] 0 = (set_model self [], Ok (mkItems true []))
  /\ model (deliver self [xff; x03]) = []
  /\ notification_event (deliver self [xff; x03]) = true
  /\ ret_dev_data (deliver self [xff; x03]) = ret_dev_data self.
Proof.
  intros self. apply (truncated_model_accepted self [xff; x03]).
  - now right.
  - reflexivity.
  - reflexivity.
  - reflexivity.
  - simpl. lia.
Defined.

(** Once the latch of a shunt or test session is closed, no
    notification changes the session any more. *)
Lemma latch_closed (self : RenogyDevice) (frames : list (list byte)) :
  kind self = SmartShunt300 \/ kind self = TestDevice ->
  first_parse self = false ->
  fold_left deliver frames self = self.
Proof.
  intros Hk Hf. induction frames as [|q frames IH]; cbn [fold_left]; [reflexivity|].
  rewrite (deliver_not_valid self self q (Ok invalid_items)); [exact IH| |].
  - unfold parse_section. destruct Hk as [-> | ->].
    + now apply shunt_later_decode.
    + now apply test_later_decode.
  - now intros its [= <-].
Qed.

(** A valid decode of a shunt or test payload closes the latch. *)
Lemma valid_closes_latch (self self1 : RenogyDevice) (bs : list byte) (i : nat)
    (its : items) :
  kind self = SmartShunt300 \/ kind self = TestDevice ->
  parse_section self bs i = (self1, Ok its) -> valid its = true ->
  first_parse self1 = false.
Proof.
  intros Hk. unfold parse_section. destruct Hk as [-> | ->].
  - unfold Shunt.parse_section.
    destruct (negb (i =? 0) || negb (first_parse self) || (List.length bs <? 110)).
    + intros [= _ <-]. discriminate.
    + intros [= <- _] _. reflexivity.
  - unfold Test.parse_section.
    destruct (negb (i =? 0) || negb (first_parse self)).
    + intros [= _ <-]. discriminate.
    + intros [= <- _] _. reflexivity.
Qed.

(** A shunt or test session keeps the first frame it accepts: after a
    notification that changed the session, every further notification,
    in any number and with any content, leaves it exactly as it is. *)
Theorem first_frame_kept (self : RenogyDevice) (p : list byte)
    (frames : list (list byte)) :
  kind self = SmartShunt300 \/ kind self = TestDevice ->
  deliver self p <> self ->
  fold_left deliver frames (deliver self p) = deliver self p.
Proof.
  intros Hk Hch.
  destruct (proj1 (deliver_cases self p)) as [H|(self1 & its & _ & Hp & Hv & Hd)];
    [contradiction|].
  apply latch_closed.
  - rewrite Hd. cbn [kind set_event set_ret_dev_data].
    rewrite (parse_section_kind _ _ _ _ _ Hp). exact Hk.
  - rewrite Hd. cbn [first_parse set_event set_ret_dev_data].
    exact (valid_closes_latch _ _ _ _ _ Hk Hp Hv).
Qed.

Lemma first_frame_kept_witness :
  fold_left deliver [shunt_frame; modbus_frame; shunt_frame]
    (deliver shunt_session shunt_frame)
  = deliver shunt_session shunt_frame.
Proof.
  apply (first_frame_kept shunt_session shunt_frame).
  - now left.
  - intros H. apply (f_equal notification_event) in H. vm_compute in H. discriminate.
Defined.

End DecoderEdges.

(** ** Repeated responses *)

Section RepeatedResponses.

(** Decoding a payload again, in the state its first decode left behind:
    the decoders of the inverter and the charger have no latch and give
    the same result again. *)
Lemma modbus_decode_again (self self1 : RenogyDevice) (bs : list byte) (i : nat)
    (its : items) :
  kind self = Inverter \/ kind self = DcDcCharger ->
  parse_section self bs i = (self1, Ok its) ->
  exists self2, parse_section self1 bs i = (self2, Ok its).
Proof.
  intros Hk Hp. unfold parse_section in Hp |- *.
  destruct Hk as [Hk | Hk]; rewrite Hk in Hp.
  - unfold InverterDev.parse_section in Hp.
    destruct i as [|[|[|[|i]]]];
      unfold InverterDev.parse_inverter_model, InverterDev.parse_device_id,
        InverterDev.parse_inverter_stats, InverterDev.parse_load_info in Hp;
      try (destruct (decode_utf8 (slice bs 3 19)) as [m|e] eqn:Hd;
           [|injection Hp as _ Hr; discriminate]);
      injection Hp as <- Hr; cbn [kind set_model]; rewrite Hk;
      unfold InverterDev.parse_section, InverterDev.parse_inverter_model,
        InverterDev.parse_device_id, InverterDev.parse_inverter_stats,
        InverterDev.parse_load_info;
      cbn [mac ha_device_name model set_model]; rewrite ?Hd;
      eexists; first [rewrite Hr | rewrite <- Hr]; reflexivity.
  - unfold DCCharger.parse_section in Hp.
    destruct i as [|[|[|[|[|i]]]]];
      unfold DCCharger.parse_device_info, DCCharger.parse_device_address,
        DCCharger.parse_state, DCCharger.parse_battery_type,
        DCCharger.parse_charging_info in Hp;
      [ destruct (decode_utf8 (slice bs 3 19)) as [m|e] eqn:Hd;
          [|injection Hp as _ Hr; discriminate]
      | | | destruct (bytes_to_int bs 3 2 None false) as [c|e] eqn:Hd;
              [|injection Hp as _ Hr; discriminate]
      | | ];
      injection Hp as <- Hr; cbn [kind set_model set_battery_type]; rewrite Hk;
      unfold DCCharger.parse_section, DCCharger.parse_device_info,
        DCCharger.parse_device_address, DCCharger.parse_state,
        DCCharger.parse_battery_type, DCCharger.parse_charging_info;
      cbn [mac ha_device_name model battery_type set_model set_battery_type];
      rewrite ?Hd;
      eexists; first [rewrite Hr | rewrite <- Hr]; reflexivity.
Qed.

(** An inverter or charger session does not recognise a response it has
    already taken: when the same valid response is delivered twice
    before the session moves on, its measurements are accumulated
    twice, the primary one included. *)
Theorem repeated_response_accumulates (self self1 : RenogyDevice) (p : list byte)
    (its : items) :
  kind self = Inverter \/ kind self = DcDcCharger ->
  bytes_to_int p 1 1 None false = Ok (VInt (READ_OPERATION self)) ->
  parse_section self p (section_index self) = (self1, Ok its) ->
  valid its = true ->
  ret_dev_data (deliver (deliver self p) p)
  = ret_dev_data self ++ entities its ++ entities its.
Proof.
  intros Hk Hop Hp Hv.
  pose proof (parse_section_keeps _ _ _ _ _ Hp) as Hkeep. unfold base_fields in Hkeep.
  injection Hkeep as K1 K2 K3 K4 K5 K6 K7 K8 K9 K10 K11 K12 K13 K14.
  rewrite (deliver_accepted self self1 p its Hop Hp Hv).
  set (s1 := set_event _ true).
  destruct (modbus_decode_again _ _ _ _ _ Hk Hp) as [self2 Hp2].
  destruct (parse_section s1 p (section_index s1)) as [s2 r2] eqn:Hp3.
  assert (Hidx : section_index s1 = section_index self) by (subst s1; cbn; congruence).
  rewrite Hidx in Hp3.
  assert (Hfields : decoder_fields s1 = decoder_fields self1) by reflexivity.
  destruct (parse_section_reads _ _ _ _ _ _ _ _ Hfields Hp3 Hp2) as [-> _].
  rewrite <- Hidx in Hp3.
  rewrite (deliver_accepted s1 s2 p its).
  - cbn [ret_dev_data set_event set_ret_dev_data].
    apply parse_section_keeps in Hp3. unfold base_fields in Hp3.
    injection Hp3 as _ _ _ _ _ _ _ _ _ _ Hret _ _ _.
    rewrite Hret. subst s1. cbn [ret_dev_data set_event set_ret_dev_data].
    now rewrite K11, <- app_assoc.
  - subst s1. cbn [READ_OPERATION set_event set_ret_dev_data]. now rewrite K14.
  - exact Hp3.
  - exact Hv.
Qed.

(** A charger session that has reached its last section. *)
Definition charger_at_info : RenogyDevice :=
  set_section_index
    (DCCharger.init (lit "AA:BB:CC:DD:EE:FF") (Some (lit "BT-TH-1234  ")) (lit "van")) 4.

Definition sample_info_items : items :=
  match snd (parse_section charger_at_info sample_info 4) with
  | Ok its => its
  | Raise _ => invalid_items
  end.

Lemma repeated_response_accumulates_witness :
  ret_dev_data (deliver (deliver charger_at_info sample_info) sample_info)
  = ret_dev_data charger_at_info ++ entities sample_info_items
    ++ entities sample_info_items.
Proof.
  apply (repeated_response_accumulates charger_at_info charger_at_info sample_info
           sample_info_items).
  - now right.
  - reflexivity.
  - vm_compute. reflexivity.
  - reflexivity.
Defined.

(** The two deliveries leave two primary measurements behind. *)
Example repeated_response_two_primaries :
  List.length (List.filter is_main
                 (ret_dev_data (deliver (deliver charger_at_info sample_info)
                                  sample_info))) = 2.
Proof. vm_compute. reflexivity. Qed.

End RepeatedResponses.

(* ===================================================================== *)
(** * The coordinator ([coordinator.py]) *)
(* ===================================================================== *)

(** [RenogyCoordinator.get_device_by_unique_id], over [self.data.devices]:
    the first measurement with that unique id, or [None] when the list
    comprehension is empty and indexing it raises [IndexError]. *)
Definition get_device_by_unique_id (devices : list RenogyDeviceData) (unique_id : pystr)
    : option RenogyDeviceData :=
  head (List.filter (fun d => bool_decide (device_unique_id d = unique_id)) devices).

Section Lookup.

(** The entity indices of a family, in the order a full decode emits
    them. *)
Definition family_indices (f : family) : list Z :=
  flat_map (fun i => map fst (emitted f i))
    (seq 0 (List.length (sections (new_device f [] None [])))).

Lemma full_decode_ids (f : family) (mac_ : pystr) (dn : option pystr) (nm : pystr)
    (payloads : list (list byte)) (es : list RenogyDeviceData) :
  full_decode f mac_ dn nm payloads = Some es ->
  map device_unique_id es = map (entity_unique_id mac_) (family_indices f).
Proof.
  unfold full_decode. intros H.
  destruct (Nat.eqb_spec (List.length payloads)
              (List.length (sections (new_device f mac_ dn nm)))) as [Hlen|];
    [|discriminate].
  apply decode_from_flags in H.
  assert (He : map device_unique_id es = map fst (ids_and_flags es))
    by (unfold ids_and_flags; now rewrite map_map).
  rewrite He, H, Hlen. destruct f; reflexivity.
Qed.

Lemma entity_unique_id_inj (mac_ : pystr) (j k : Z) :
  entity_unique_id mac_ j = entity_unique_id mac_ k -> str_of_int j = str_of_int k.
Proof.
  unfold entity_unique_id. intros H.
  apply app_inv_head in H. now apply app_inv_head in H.
Qed.

Lemma family_ids_distinct (f : family) (mac_ : pystr) :
  NoDup (map (entity_unique_id mac_) (family_indices f)).
Proof.
  assert (Hs : NoDup (map str_of_int (family_indices f))).
  { apply (bool_decide_unpack (NoDup (map str_of_int (family_indices f)))).
    destruct f; vm_compute; exact I. }
  revert Hs. induction (family_indices f) as [|k ks IH]; cbn [map];
    intros Hs; [constructor|].
  apply NoDup_cons in Hs as [Hk Hks]. apply NoDup_cons. split; [|now apply IH].
  intros Hin. apply Hk. apply list_elem_of_In. apply list_elem_of_In in Hin.
  apply in_map_iff in Hin as (j & Hj & Hjin).
  apply in_map_iff. exists j. split; [|exact Hjin].
  now apply entity_unique_id_inj in Hj.
Qed.

(** The unique ids of the measurements of a full decode are those of
    the family's entity indices, in order, and no two of them are
    equal: 13 measurements for the inverter, 24 for the charger, 6 for
    the shunt and 7 for the test device. *)
Theorem decode_ids_distinct (f : family) (mac_ : pystr) (dn : option pystr)
    (nm : pystr) (payloads : list (list byte)) (es : list RenogyDeviceData) :
  full_decode f mac_ dn nm payloads = Some es ->
  map device_unique_id es = map (entity_unique_id mac_) (family_indices f)
  /\ NoDup (map device_unique_id es)
  /\ List.length es = match f with
                      | Inverter => 13
                      | DcDcCharger => 24
                      | SmartShunt300 => 6
                      | TestDevice => 7
                      end.
Proof.
  intros H. apply full_decode_ids in H. split; [exact H|]. split.
  - rewrite H. apply family_ids_distinct.
  - apply (f_equal (@List.length _)) in H. rewrite !length_map in H.
    rewrite H. destruct f; reflexivity.
Qed.

Lemma decode_ids_distinct_witness :
  map device_unique_id (sample_decode DcDcCharger)
  = map (entity_unique_id (lit "AA:BB")) (family_indices DcDcCharger)
  /\ NoDup (map device_unique_id (sample_decode DcDcCharger))
  /\ List.length (sample_decode DcDcCharger) = 24.
Proof.
  apply (decode_ids_distinct DcDcCharger (lit "AA:BB") None (lit "van")
           (sample_payloads DcDcCharger)).
  vm_compute. reflexivity.
Defined.

Lemma lookup_first (l : list RenogyDeviceData) (d : RenogyDeviceData) :
  NoDup (map device_unique_id l) -> In d l ->
  get_device_by_unique_id l (device_unique_id d) = Some d.
Proof.
  unfold get_device_by_unique_id.
  induction l as [|x l IH]; intros Hnd Hin; [destruct Hin|].
  cbn [map] in Hnd. apply NoDup_cons in Hnd as [Hx Hl]. cbn [List.filter].
  destruct Hin as [->|Hin].
  - now rewrite bool_decide_eq_true_2.
  - rewrite bool_decide_eq_false_2; [now apply IH|].
    intros Heq. apply Hx. rewrite Heq. apply list_elem_of_In. now apply in_map.
Qed.

Lemma lookup_absent (l : list RenogyDeviceData) (uid : pystr) :
  ~ In uid (map device_unique_id l) -> get_device_by_unique_id l uid = None.
Proof.
  unfold get_device_by_unique_id.
  induction l as [|x l IH]; intros Hn; [reflexivity|].
  cbn [List.filter]. rewrite bool_decide_eq_false_2.
  - apply IH. intros Hin. apply Hn. now right.
  - intros Heq. apply Hn. now left.
Qed.

(** Looking a measurement of a full decode up by its unique id gives
    that very measurement back, so every sensor entity finds its own
    reading after a poll; an id no measurement has gives [None]. *)
Theorem lookup_after_decode (f : family) (mac_ : pystr) (dn : option pystr)
    (nm : pystr) (payloads : list (list byte)) (es : list RenogyDeviceData)
    (d : RenogyDeviceData) :
  full_decode f mac_ dn nm payloads = Some es ->
  In d es ->
  get_device_by_unique_id es (device_unique_id d) = Some d
  /\ forall uid, ~ In uid (map device_unique_id es) ->
                 get_device_by_unique_id es uid = None.
Proof.
  intros H Hin. split; [|apply lookup_absent].
  apply lookup_first; [|exact Hin].
  rewrite (full_decode_ids _ _ _ _ _ _ H). apply family_ids_distinct.
Qed.

(** The second measurement of the test device's decode. *)
Definition sample_reading : RenogyDeviceData :=
  match sample_decode TestDevice with
  | _ :: d :: _ => d
  | _ => mkData 0 [] [] STRING_DATA [] VNone false ∅
  end.

Lemma lookup_after_decode_witness :
  get_device_by_unique_id (sample_decode TestDevice) (device_unique_id sample_reading)
  = Some sample_reading
  /\ forall uid, ~ In uid (map device_unique_id (sample_decode TestDevice)) ->
                 get_device_by_unique_id (sample_decode TestDevice) uid = None.
Proof.
  apply (lookup_after_decode TestDevice (lit "AA:BB") None (lit "van")
           (sample_payloads TestDevice)).
  - vm_compute. reflexivity.
  - vm_compute. right. left. reflexivity.
Defined.

End Lookup.

(* ===================================================================== *)
(** * Discovery ([config_flow.py]) and dispatch *)
(* ===================================================================== *)

(** [s.startswith(p)] *)
Fixpoint startswith (s p : pystr) : bool :=
  match p, s with
  | [], _ => true
  | _ :: _, [] => false
  | a :: p', b :: s' => (a =? b)%Z && startswith s' p'
  end.

(** The dictionary [discovery_get_data] returns. *)
Record discovered : Type := mkDiscovered {
  conf_name : pystr;
  conf_mac : pystr;
  conf_type : pystr;
}.

(** What [discovery_get_data] can raise. *)
Inductive discovery_error : Set :=
| RenogyBluetoothDeviceUpdateError
| NameIsNone.   (* the [AttributeError] of [None.startswith] *)

(** [RBConfigFlow.discovery_get_data]; [lookup] is
    [bluetooth.async_ble_device_from_address(self.hass, .)]. *)
Definition discovery_get_data (lookup : pystr -> option BLEDevice) (addr : pystr)
    : discovered + discovery_error :=
  match lookup addr with
  | None => inr RenogyBluetoothDeviceUpdateError
  | Some ble_device =>
      match ble_name ble_device with
      | None => inr NameIsNone
      | Some nm =>
          inl (mkDiscovered nm (address ble_device)
                 (if startswith nm (lit "RTMShunt") then lit "SmartShunt300"
                  else if startswith nm (lit "BT-TH-") then lit "DcDcCharger"
                  else if startswith nm (lit "RNGRIU") then lit "Inverter"
                  else lit "Unknown"))
      end
  end.

Section Dispatch.

(** The configured tag of each family. *)
Definition tag_of (f : family) : pystr :=
  match f with
  | Inverter => lit "Inverter"
  | DcDcCharger => lit "DcDcCharger"
  | SmartShunt300 => lit "SmartShunt300"
  | TestDevice => lit "TestDevice"
  end.

(** The end of [get_devices]: an empty result is an error. *)
Definition checked (ran : option (world * res (list RenogyDeviceData)))
    : option (list call * res (list RenogyDeviceData)) :=
  match ran with
  | None => None
  | Some (w, Raise e) => Some (calls w, Raise e)
  | Some (w, Ok devicesRet) =>
      if (List.length devicesRet =? 0)%nat then Some (calls w, Raise APIConnectionError)
      else Some (calls w, Ok devicesRet)
  end.

Ltac decide_tags :=
  repeat match goal with
         | |- context [bool_decide (?a = ?b)] =>
             first [ rewrite (bool_decide_eq_true_2 (a = b)) by reflexivity
                   | rewrite (bool_decide_eq_false_2 (a = b))
                       by (vm_compute; discriminate) ]
         end.

(** Dispatch of a real family: the address must resolve, and then the
    session of that family, and of no other, is constructed for the
    resolved device with its advertised name and run. *)
Lemma get_devices_family (f : family) (lookup : pystr -> option BLEDevice)
    (mac_ name_ : pystr) :
  f <> TestDevice ->
  API.get_devices lookup mac_ name_ (tag_of f)
  = match lookup mac_ with
    | None => Some ([], Raise ConfigEntryNotReady)
    | Some ble => checked (execute (new_device f mac_ (ble_name ble) name_) (Some ble))
    end.
Proof.
  intros Hf. unfold API.get_devices, checked.
  destruct f; [| | |congruence]; cbn [tag_of new_device]; decide_tags;
    destruct (lookup mac_) as [ble|]; try reflexivity;
    cbv beta iota;
    match goal with
    | |- context [execute ?d ?b] => destruct (execute d b) as [[w [l|e]]|]
    end; reflexivity.
Qed.

(** What discovery makes of an advertised name, and what dispatch then
    does with it.  The type is chosen by the first matching prefix among
    "RTMShunt", "BT-TH-" and "RNGRIU"; a device with one of them is
    polled by the session of its family.  Any other device is configured
    as "Unknown", a tag for which no session exists: polling it makes no
    call on the link and raises [APIConnectionError] every time. *)
Theorem discovery_then_dispatch (lookup : pystr -> option BLEDevice)
    (addr name_ : pystr) (ble : BLEDevice) (nm : pystr) :
  lookup addr = Some ble -> ble_name ble = Some nm ->
  exists tag,
    discovery_get_data lookup addr = inl (mkDiscovered nm (address ble) tag)
    /\ ((startswith nm (lit "RTMShunt") = true
         /\ tag = lit "SmartShunt300"
         /\ API.get_devices lookup addr name_ tag
            = checked (execute (Shunt.init addr (Some nm) name_) (Some ble)))
        \/ (startswith nm (lit "RTMShunt") = false
            /\ startswith nm (lit "BT-TH-") = true
            /\ tag = lit "DcDcCharger"
            /\ API.get_devices lookup addr name_ tag
               = checked (execute (DCCharger.init addr (Some nm) name_) (Some ble)))
        \/ (startswith nm (lit "RTMShunt") = false
            /\ startswith nm (lit "BT-TH-") = false
            /\ startswith nm (lit "RNGRIU") = true
            /\ tag = lit "Inverter"
            /\ API.get_devices lookup addr name_ tag
               = checked (execute (InverterDev.init addr (Some nm) name_) (Some ble)))
        \/ (startswith nm (lit "RTMShunt") = false
            /\ startswith nm (lit "BT-TH-") = false
            /\ startswith nm (lit "RNGRIU") = false
            /\ tag = lit "Unknown"
            /\ API.get_devices lookup addr name_ tag
               = Some ([], Raise APIConnectionError))).
Proof.
  intros Hl Hn. unfold discovery_get_data. rewrite Hl, Hn.
  destruct (startswith nm (lit "RTMShunt")) eqn:H1;
    [|destruct (startswith nm (lit "BT-TH-")) eqn:H2;
      [|destruct (startswith nm (lit "RNGRIU")) eqn:H3]];
    eexists; (split; [reflexivity|]).
  - left. do 2 (split; [reflexivity|]).
    rewrite (get_devices_family SmartShunt300) by discriminate.
    now rewrite Hl, Hn.
  - right. left. do 3 (split; [reflexivity|]).
    rewrite (get_devices_family DcDcCharger) by discriminate.
    now rewrite Hl, Hn.
  - right. right. left. do 4 (split; [reflexivity|]).
    rewrite (get_devices_family Inverter) by discriminate.
    now rewrite Hl, Hn.
  - right. right. right. do 4 (split; [reflexivity|]).
    unfold API.get_devices. decide_tags. now rewrite Hl.
Qed.

(** A registry that knows one device, a battery monitor of another
    make. *)
Definition other_ble : BLEDevice :=
  mkBLEDevice (lit "11:22:33:44:55:66") (Some (lit "BM2-monitor")) quiet_link.

Definition one_device (addr : pystr) : option BLEDevice :=
  if bool_decide (addr = lit "11:22:33:44:55:66") then Some other_ble else None.

Lemma discovery_then_dispatch_witness :
  exists tag,
    discovery_get_data one_device (lit "11:22:33:44:55:66")
    = inl (mkDiscovered (lit "BM2-monitor") (address other_ble) tag)
    /\ tag = lit "Unknown"
    /\ API.get_devices one_device (lit "11:22:33:44:55:66") (lit "van") tag
       = Some ([], Raise APIConnectionError).
Proof.
  destruct (discovery_then_dispatch one_device (lit "11:22:33:44:55:66") (lit "van")
              other_ble (lit "BM2-monitor") eq_refl eq_refl)
    as (tag & Hd & [(H & _)|[(_ & H & _)|[(_ & _ & H & _)|(_ & _ & _ & Ht & Hg)]]]);
    try (vm_compute in H; discriminate).
  exists tag. auto.
Defined.

End Dispatch.

(* ===================================================================== *)
(** * Whole polls *)
(* ===================================================================== *)

Section SilentPoll.

(** [execute] on a link that never answers (the run behind C1, for the
    dispatch layer). *)
Lemma silent_execute (self : RenogyDevice) (ble : BLEDevice) (nu : pystr)
    (s : section) (req : list Z) (frame : list byte) :
  WRITE_SERVICE_UUID self <> Some (lit "TEST") ->
  NOTIFY_SERVICE_UUID self = Some nu ->
  notification_event self = false ->
  sections self !! section_index self = Some s ->
  create_generic_read_request (dev_device_id self) (function self)
    (Some (register s)) (Some (words s)) = Ok (Some req) ->
  bytes_of_ints req = Ok frame ->
  connect_result (link ble) = Ok true ->
  (forall n, write_raises (link ble) n = false) ->
  silent (link ble) (READ_OPERATION self) ->
  exists w,
    execute self (Some ble) = Some (w, Ok [])
    /\ calls w
       = [Connect (address ble); StartNotify nu]
         ++ match WRITE_SERVICE_UUID self with
            | Some uuid => [Write uuid frame; Write uuid frame]
            | None => []
            end ++ [Disconnect].
Proof.
  intros Htest Hnu He Hs Hreq Hframe Hconn Hok Hsil.
  pose proof (lookup_lt_Some _ _ _ Hs) as Hlt.
  destruct (List.length (sections self) - section_index self) as [|fuel] eqn:Hfuel;
    [lia|].
  unfold execute, execute_fuel. rewrite Hfuel. unfold execute_try. cbn [dev].
  rewrite bool_decide_eq_false_2 by exact Htest.
  rewrite Hnu, Hconn. cbn [negb]. cbn [section_loop emit dev calls client_set ticks].
  destruct (Nat.ltb_spec (section_index self) (List.length (sections self))) as [_|];
    [|lia].
  rewrite (silent_send_loop _ _ s req frame) by (simpl; auto).
  cbn [dev calls client_set ticks emit].
  eexists. split; [reflexivity|]. now rewrite <- !app_assoc.
Qed.

(** A poll of an inverter, charger or shunt whose link connects,
    accepts writes and never answers: the dispatch layer raises
    [APIConnectionError], after two requests for the first section (none
    for the shunt, which only listens) and a disconnect. *)
Theorem silent_poll_raises (f : family) (lookup : pystr -> option BLEDevice)
    (mac_ name_ : pystr) (ble : BLEDevice) :
  f <> TestDevice ->
  lookup mac_ = Some ble ->
  connect_result (link ble) = Ok true ->
  (forall n, write_raises (link ble) n = false) ->
  silent (link ble) (READ_OPERATION (new_device f mac_ (ble_name ble) name_)) ->
  exists cs,
    API.get_devices lookup mac_ name_ (tag_of f) = Some (cs, Raise APIConnectionError)
    /\ List.length (writes cs) = match f with SmartShunt300 => 0 | _ => 2 end
    /\ last cs = Some Disconnect.
Proof.
  intros Hf Hl Hconn Hok Hsil. rewrite (get_devices_family f) by exact Hf. rewrite Hl.
  set (self := new_device f mac_ (ble_name ble) name_) in *.
  assert (Hfresh : exists nu s, WRITE_SERVICE_UUID self <> Some (lit "TEST")
                                /\ NOTIFY_SERVICE_UUID self = Some nu
                                /\ notification_event self = false
                                /\ sections self !! section_index self = Some s
                                /\ dev_device_id self = 255%Z /\ function self = 3%Z).
  { subst self. destruct f; [| | |congruence]; cbn; eexists _, _;
      (split; [try discriminate; vm_compute; discriminate|]); repeat split. }
  destruct Hfresh as (nu & s & Htest & Hnu & He & Hs & Hd & Hfn).
  destruct (create_request_ok (dev_device_id self) (function self) (register s) (words s))
    as (req & frame & Hreq & Hframe); [rewrite ?Hd, ?Hfn; lia..|].
  destruct (silent_execute self ble nu s req frame) as (w & Hex & Hc); try assumption.
  rewrite Hex. cbn [checked List.length Nat.eqb]. eexists. split; [reflexivity|].
  rewrite Hc. split.
  - subst self. destruct f; [| | |congruence]; reflexivity.
  - rewrite app_assoc. apply last_snoc.
Qed.

Lemma silent_poll_raises_witness :
  exists cs,
    API.get_devices (fun _ => Some quiet_ble) (lit "AA:BB:CC:DD:EE:FF") (lit "van")
      (tag_of Inverter) = Some (cs, Raise APIConnectionError)
    /\ List.length (writes cs) = match Inverter with SmartShunt300 => 0 | _ => 2 end
    /\ last cs = Some Disconnect.
Proof.
  apply (silent_poll_raises Inverter (fun _ => Some quiet_ble) (lit "AA:BB:CC:DD:EE:FF")
           (lit "van") quiet_ble).
  - discriminate.
  - reflexivity.
  - reflexivity.
  - reflexivity.
  - apply quiet_link_silent.
Defined.

End SilentPoll.

(** ** The shunt, streaming *)

Section ShuntPoll.

(** A frame a shunt session lets pass: too short to decode, or without
    the shunt's operation code 87 at offset 1. *)
Definition passed_over (q : list byte) : Prop :=
  List.length q < 110 \/ bytes_to_int q 1 1 None false <> Ok (VInt 87).

Lemma shunt_passes_over (self : RenogyDevice) (qs : list (list byte)) :
  kind self = SmartShunt300 -> READ_OPERATION self = 87%Z ->
  Forall passed_over qs -> fold_left deliver qs self = self.
Proof.
  intros Hk Hop H. induction H as [|q qs Hq _ IH]; cbn [fold_left]; [reflexivity|].
  replace (deliver self q) with self; [exact IH|]. symmetry.
  destruct Hq as [Hlen|Hne].
  - apply (deliver_not_valid self self q (Ok invalid_items)).
    + unfold parse_section. rewrite Hk. now apply shunt_short_decode.
    + now intros its [= <-].
  - apply deliver_other_operation. now rewrite Hop.
Qed.

Lemma shunt_idle_sleep (t : Transport) (w : world) :
  kind (dev w) = SmartShunt300 -> READ_OPERATION (dev w) = 87%Z ->
  Forall passed_over (notifications t (ticks w)) ->
  sleep t w = mkWorld (dev w) (client_set w) (calls w) (S (ticks w)).
Proof.
  intros Hk Hop Hq. unfold sleep. f_equal. now apply shunt_passes_over.
Qed.

Lemma shunt_idle_wait (t : Transport) (n : nat) :
  forall w : world,
    kind (dev w) = SmartShunt300 -> READ_OPERATION (dev w) = 87%Z ->
    notification_event (dev w) = false ->
    (forall j, j < n -> Forall passed_over (notifications t (ticks w + j))) ->
    wait_loop t n w = mkWorld (dev w) (client_set w) (calls w) (ticks w + n).
Proof.
  induction n as [|n IH]; intros w Hk Hop He Hq.
  - cbn [wait_loop]. rewrite Nat.add_0_r. now destruct w.
  - rewrite wait_loop_step, He, shunt_idle_sleep; try assumption.
    + rewrite IH; cbn [dev client_set calls ticks]; try assumption.
      * f_equal. lia.
      * intros j Hj. replace (S (ticks w) + j) with (ticks w + S j) by lia.
        apply Hq. lia.
    + rewrite <- (Nat.add_0_r (ticks w)). apply Hq. lia.
Qed.

(** The wait ends with the sleep that delivers the first frame of 110
    bytes or more carrying the code 87; what the link delivers after it
    changes nothing. *)
Lemma shunt_wait_accepts (t : Transport) (junk rest : list (list byte))
    (p : list byte) (its : items) :
  forall (n k : nat) (w : world),
    kind (dev w) = SmartShunt300 -> READ_OPERATION (dev w) = 87%Z ->
    notification_event (dev w) = false ->
    section_index (dev w) = 0 ->
    k < n ->
    (forall j, j < k -> Forall passed_over (notifications t (ticks w + j))) ->
    notifications t (ticks w + k) = junk ++ p :: rest ->
    Forall passed_over junk ->
    bytes_to_int p 1 1 None false = Ok (VInt 87) ->
    Shunt.parse_section (dev w) p 0 = (set_first_parse (dev w) false, Ok its) ->
    valid its = true ->
    wait_loop t n w
    = mkWorld (set_event (set_ret_dev_data (set_first_parse (dev w) false)
                            (ret_dev_data (dev w) ++ entities its)) true)
        (client_set w) (calls w) (ticks w + S k).
Proof.
  induction n as [|n IH]; intros k w Hk Hop He Hi Hlt Hq Hn Hj Hp1 Hdec Hv; [lia|].
  rewrite wait_loop_step, He. destruct k as [|k].
  - rewrite Nat.add_0_r in Hn.
    assert (Hd : deliver (dev w) p
                 = set_event (set_ret_dev_data (set_first_parse (dev w) false)
                                (ret_dev_data (dev w) ++ entities its)) true).
    { rewrite (deliver_accepted (dev w) (set_first_parse (dev w) false) p its).
      - reflexivity.
      - now rewrite Hop.
      - unfold parse_section. now rewrite Hk, Hi.
      - exact Hv. }
    assert (Hsl : sleep t w
                  = mkWorld (deliver (dev w) p) (client_set w) (calls w) (S (ticks w))).
    { unfold sleep. f_equal. rewrite Hn, fold_left_app.
      rewrite (shunt_passes_over (dev w) junk) by assumption. cbn [fold_left].
      apply latch_closed; rewrite Hd; [left; exact Hk | reflexivity]. }
    rewrite Hsl, wait_loop_event_set by (cbn [dev]; now rewrite Hd).
    rewrite Hd. f_equal. lia.
  - rewrite shunt_idle_sleep; try assumption.
    + rewrite (IH k); cbn [dev client_set calls ticks]; try assumption.
      * f_equal. lia.
      * lia.
      * intros j Hjk. replace (S (ticks w) + j) with (ticks w + S j) by lia.
        apply Hq. lia.
      * rewrite <- Hn. f_equal. lia.
    + rewrite <- (Nat.add_0_r (ticks w)). apply Hq. lia.
Qed.

(** The two attempts of the inner loop give the shunt fifty sleeps. *)
Lemma shunt_send_loop (t : Transport) (junk rest : list (list byte))
    (p : list byte) (its : items) (k : nat) (w : world) :
  WRITE_SERVICE_UUID (dev w) = None ->
  kind (dev w) = SmartShunt300 -> READ_OPERATION (dev w) = 87%Z ->
  notification_event (dev w) = false ->
  section_index (dev w) = 0 ->
  k < 50 ->
  (forall j, j < k -> Forall passed_over (notifications t (ticks w + j))) ->
  notifications t (ticks w + k) = junk ++ p :: rest ->
  Forall passed_over junk ->
  bytes_to_int p 1 1 None false = Ok (VInt 87) ->
  Shunt.parse_section (dev w) p 0 = (set_first_parse (dev w) false, Ok its) ->
  valid its = true ->
  send_loop t 2 w
  = (mkWorld (set_event (set_ret_dev_data (set_first_parse (dev w) false)
                           (ret_dev_data (dev w) ++ entities its)) true)
       (client_set w) (calls w) (ticks w + S k), Ok true).
Proof.
  intros Hw Hk Hop He Hi Hlt Hq Hn Hj Hp1 Hdec Hv.
  rewrite send_loop_step, Hw. cbv beta iota zeta.
  destruct (Nat.lt_ge_cases k 25) as [Hk25|Hk25].
  - rewrite (shunt_wait_accepts t junk rest p its 25 k w) by assumption.
    reflexivity.
  - rewrite (shunt_idle_wait t 25 w); try assumption;
      [|intros j Hj25; apply Hq; lia].
    cbn [dev]. rewrite He, send_loop_step. cbn [dev]. rewrite Hw.
    cbv beta iota zeta.
    rewrite (shunt_wait_accepts t junk rest p its 25 (k - 25));
      cbn [dev client_set calls ticks]; try assumption.
    + cbn [notification_event set_event]. do 2 f_equal. lia.
    + lia.
    + intros j Hj25. replace (ticks w + 25 + j) with (ticks w + (25 + j)) by lia.
      apply Hq. lia.
    + rewrite <- Hn. f_equal. lia.
Qed.

(** The six measurements of an accepted shunt frame, with the five
    fields they are read from. *)
Lemma shunt_decode_readings (self : RenogyDevice) (bs : list byte) :
  first_parse self = true -> 110 <= List.length bs ->
  exists percent volts starter amps temp,
    (bytes_to_int bs 34 2 (Some 0.1%float) false = Ok (VFloat percent)
     /\ bytes_to_int bs 25 3 (Some 0.001%float) false = Ok (VFloat volts)
     /\ bytes_to_int bs 30 2 (Some 0.001%float) false = Ok (VFloat starter)
     /\ bytes_to_int bs 21 3 (Some 0.001%float) true = Ok (VFloat amps)
     /\ bytes_to_int bs 66 2 (Some 0.1%float) false = Ok (VFloat temp))
    /\ Shunt.parse_section self bs 0
       = (set_first_parse self false,
          Ok (mkItems true
            [mkData 1 (ha_device_name self) (entity_unique_id (mac self) 1) PERCENTAGE
               (lit "Main Battery Percent") (VFloat percent) true ∅;
             mkData 1 (ha_device_name self) (entity_unique_id (mac self) 2)
               VOLTAGE_SENSOR (lit "Main Battery Voltage") (VFloat volts) false ∅;
             mkData 2 (lit "Starter Battery") (entity_unique_id (mac self) 3)
               VOLTAGE_SENSOR (lit "Starter Battery Voltage") (VFloat starter) false ∅;
             mkData 1 (ha_device_name self) (entity_unique_id (mac self) 4)
               CURRENT_SENSOR (lit "Charge Amps") (VFloat amps) false ∅;
             mkData 1 (ha_device_name self) (entity_unique_id (mac self) 5)
               POWER_SENSOR (lit "Charge Watts") (VFloat (PrimFloat.mul volts amps))
               false ∅;
             mkData 1 (ha_device_name self) (entity_unique_id (mac self) 6)
               TEMPERATURE_SENSOR (lit "Main Battery Temperature") (VFloat temp)
               false ∅])).
Proof.
  intros Hf Hlen.
  destruct (bytes_to_int_scaled bs 34 2 0.1%float false) as [f1 E1]; [lia|].
  destruct (bytes_to_int_scaled bs 25 3 0.001%float false) as [f2 E2]; [lia|].
  destruct (bytes_to_int_scaled bs 30 2 0.001%float false) as [f3 E3]; [lia|].
  destruct (bytes_to_int_scaled bs 21 3 0.001%float true) as [f4 E4]; [lia|].
  destruct (bytes_to_int_scaled bs 66 2 0.1%float false) as [f6 E6]; [lia|].
  exists f1, f2, f3, f4, f6. split; [now repeat split|].
  unfold Shunt.parse_section. rewrite Hf.
  destruct (Nat.ltb_spec (List.length bs) 110) as [|_]; [lia|].
  cbn [Nat.eqb negb orb]. rewrite E1, E2, E3, E4, E6. reflexivity.
Qed.

(** A shunt poll.  The session never writes: it connects, subscribes
    and waits up to fifty sleeps.  When the first frame of at least 110
    bytes with the code 87 at offset 1 arrives during sleep [k], after
    frames that are shorter or carry another code, the poll ends with
    that sleep and returns the six measurements of that frame: the
    primary "Main Battery Percent" with the controller attributes, and
    "Charge Watts" as the product of the voltage and the current that
    were read. *)
Theorem shunt_poll (mac_ dn nm : pystr) (ble : BLEDevice) (k : nat)
    (junk rest : list (list byte)) (p : list byte) :
  connect_result (link ble) = Ok true ->
  k < 50 ->
  (forall j, j < k -> Forall passed_over (notifications (link ble) j)) ->
  notifications (link ble) k = junk ++ p :: rest ->
  Forall passed_over junk ->
  p !! 1 = Some x57 -> 110 <= List.length p ->
  exists w es percent volts starter amps temp,
    execute (Shunt.init mac_ (Some dn) nm) (Some ble) = Some (w, Ok es)
    /\ calls w = [Connect (address ble);
                  StartNotify (lit "0000c411-0000-1000-8000-00805f9b34fb");
                  Disconnect]
    /\ ticks w = S k
    /\ (bytes_to_int p 34 2 (Some 0.1%float) false = Ok (VFloat percent)
        /\ bytes_to_int p 25 3 (Some 0.001%float) false = Ok (VFloat volts)
        /\ bytes_to_int p 30 2 (Some 0.001%float) false = Ok (VFloat starter)
        /\ bytes_to_int p 21 3 (Some 0.001%float) true = Ok (VFloat amps)
        /\ bytes_to_int p 66 2 (Some 0.1%float) false = Ok (VFloat temp))
    /\ map name es
       = [lit "Main Battery Percent"; lit "Main Battery Voltage";
          lit "Starter Battery Voltage"; lit "Charge Amps"; lit "Charge Watts";
          lit "Main Battery Temperature"]
    /\ map state es
       = [VFloat percent; VFloat volts; VFloat starter; VFloat amps;
          VFloat (PrimFloat.mul volts amps); VFloat temp]
    /\ map is_main es = [true; false; false; false; false; false]
    /\ map attributes es
       = [<["config_name" := VStr nm]> (
          <["device_name" := VStr (strip dn)]> (
          <["mac" := VStr mac_]> ∅)); ∅; ∅; ∅; ∅; ∅].
Proof.
  intros Hconn Hk Hq Hn Hj Hp1 Hlen.
  set (self := Shunt.init mac_ (Some dn) nm).
  destruct (shunt_decode_readings self p eq_refl Hlen)
    as (f1 & f2 & f3 & f4 & f6 & Hreads & Hdec).
  unfold execute, execute_fuel.
  replace (List.length (sections self) - section_index self) with 1 by reflexivity.
  unfold execute_try. cbn [dev].
  replace (WRITE_SERVICE_UUID self) with (@None pystr) by reflexivity.
  rewrite bool_decide_eq_false_2 by discriminate.
  replace (NOTIFY_SERVICE_UUID self)
    with (Some (lit "0000c411-0000-1000-8000-00805f9b34fb")) by reflexivity.
  rewrite Hconn. cbn [negb emit dev calls client_set ticks].
  cbn [section_loop dev].
  replace (section_index self <? List.length (sections self)) with true by reflexivity.
  match type of Hdec with
  | _ = (_, Ok ?its) =>
      rewrite (shunt_send_loop (link ble) junk rest p its k); cbn [dev ticks];
        try reflexivity; try assumption; try exact Hdec;
        [|exact (bytes_to_int_byte p 1 x57 Hp1)]
  end.
  cbn. eexists _, _, f1, f2, f3, f4, f6.
  split; [reflexivity|]. now repeat split.
Qed.

(** A link that streams: a truncated frame during the first sleep,
    nothing during the second, and from the third on a read response
    followed by two full shunt frames. *)
Definition streaming_ble : BLEDevice :=
  mkBLEDevice (lit "AA:BB:CC:DD:EE:FF") (Some (lit "RTMShunt300"))
    (mkTransport (Ok true) (fun _ => false)
       (fun j => match j with
                 | 0 => [[xff; x57; x00]]
                 | 1 => []
                 | _ => [modbus_frame; shunt_frame; shunt_frame]
                 end)).

Lemma shunt_poll_witness :
  exists w es percent volts starter amps temp,
    execute (Shunt.init (lit "AA:BB:CC:DD:EE:FF") (Some (lit "RTMShunt300")) (lit "van"))
      (Some streaming_ble) = Some (w, Ok es)
    /\ calls w = [Connect (address streaming_ble);
                  StartNotify (lit "0000c411-0000-1000-8000-00805f9b34fb");
                  Disconnect]
    /\ ticks w = 3
    /\ (bytes_to_int shunt_frame 34 2 (Some 0.1%float) false = Ok (VFloat percent)
        /\ bytes_to_int shunt_frame 25 3 (Some 0.001%float) false = Ok (VFloat volts)
        /\ bytes_to_int shunt_frame 30 2 (Some 0.001%float) false = Ok (VFloat starter)
        /\ bytes_to_int shunt_frame 21 3 (Some 0.001%float) true = Ok (VFloat amps)
        /\ bytes_to_int shunt_frame 66 2 (Some 0.1%float) false = Ok (VFloat temp))
    /\ map name es
       = [lit "Main Battery Percent"; lit "Main Battery Voltage";
          lit "Starter Battery Voltage"; lit "Charge Amps"; lit "Charge Watts";
          lit "Main Battery Temperature"]
    /\ map state es
       = [VFloat percent; VFloat volts; VFloat starter; VFloat amps;
          VFloat (PrimFloat.mul volts amps); VFloat temp]
    /\ map is_main es = [true; false; false; false; false; false]
    /\ map attributes es
       = [<["config_name" := VStr (lit "van")]> (
          <["device_name" := VStr (strip (lit "RTMShunt300"))]> (
          <["mac" := VStr (lit "AA:BB:CC:DD:EE:FF")]> ∅)); ∅; ∅; ∅; ∅; ∅].
Proof.
  apply (shunt_poll (lit "AA:BB:CC:DD:EE:FF") (lit "RTMShunt300") (lit "van")
           streaming_ble 2 [modbus_frame] [shunt_frame] shunt_frame).
  - reflexivity.
  - lia.
  - intros [|[|j]] Hj; [| |lia].
    + constructor; [left; simpl; lia | constructor].
    + constructor.
  - reflexivity.
  - constructor; [left; simpl; lia | constructor].
  - reflexivity.
  - simpl. lia.
Defined.

End ShuntPoll.

(** ** The inverter, answered *)

Section InverterPoll.

(** The eight measurements of the statistics section. *)
Lemma parse_inverter_stats_readings (self : RenogyDevice) (bs : list byte) :
  23 <= List.length bs ->
  exists v3 v4 v5 v6 v7 v8 v9 v10,
    InverterDev.parse_inverter_stats self bs
    = (self,
       Ok (mkItems true
         [mkData 1 (ha_device_name self) (entity_unique_id (mac self) 3) VOLTAGE_SENSOR
            (lit "Input Voltage") (VFloat v3) false ∅;
          mkData 1 (ha_device_name self) (entity_unique_id (mac self) 4) CURRENT_SENSOR
            (lit "Input Current") (VFloat v4) false ∅;
          mkData 1 (ha_device_name self) (entity_unique_id (mac self) 5) VOLTAGE_SENSOR
            (lit "Output Voltage") (VFloat v5) false ∅;
          mkData 1 (ha_device_name self) (entity_unique_id (mac self) 6) CURRENT_SENSOR
            (lit "Output Current") (VFloat v6) true
            (<["model" := VStr (model self)]> ∅);
          mkData 1 (ha_device_name self) (entity_unique_id (mac self) 7) INT_DATA
            (lit "Output Frequency") (VFloat v7) false ∅;
          mkData 2 (lit "Main Battery") (entity_unique_id (mac self) 8) VOLTAGE_SENSOR
            (lit "Battery Voltage") (VFloat v8) false ∅;
          mkData 1 (ha_device_name self) (entity_unique_id (mac self) 9)
            TEMPERATURE_SENSOR (lit "Inverter Temperature") (VFloat v9) false ∅;
          mkData 1 (ha_device_name self) (entity_unique_id (mac self) 10) INT_DATA
            (lit "Input Frequency") (VFloat v10) false ∅])).
Proof.
  intros Hlen.
  destruct (bytes_to_int_scaled bs 3 2 0.1%float false) as [v3 E3]; [lia|].
  destruct (bytes_to_int_scaled bs 5 2 0.01%float false) as [v4 E4]; [lia|].
  destruct (bytes_to_int_scaled bs 7 2 0.1%float false) as [v5 E5]; [lia|].
  destruct (bytes_to_int_scaled bs 9 2 0.01%float false) as [v6 E6]; [lia|].
  destruct (bytes_to_int_scaled bs 11 2 0.01%float false) as [v7 E7]; [lia|].
  destruct (bytes_to_int_scaled bs 13 2 0.1%float false) as [v8 E8]; [lia|].
  destruct (bytes_to_int_scaled bs 15 2 0.1%float false) as [v9 E9]; [lia|].
  destruct (bytes_to_int_scaled bs 21 2 0.01%float false) as [v10 E10]; [lia|].
  exists v3, v4, v5, v6, v7, v8, v9, v10.
  unfold InverterDev.parse_inverter_stats.
  rewrite E3, E4, E5, E6, E7, E8, E9, E10. reflexivity.
Qed.

(** The four measurements of the load section. *)
Lemma parse_load_info_readings (self : RenogyDevice) (bs : list byte) :
  15 <= List.length bs ->
  exists v18 v19 v20 v22,
    InverterDev.parse_load_info self bs
    = (self,
       Ok (mkItems true
         [mkData 1 (ha_device_name self) (entity_unique_id (mac self) 18) CURRENT_SENSOR
            (lit "Load Current") (VFloat v18) false ∅;
          mkData 1 (ha_device_name self) (entity_unique_id (mac self) 19) POWER_SENSOR
            (lit "Load Active Power") (VInt v19) false ∅;
          mkData 1 (ha_device_name self) (entity_unique_id (mac self) 20) POWER_SENSOR
            (lit "Load Apparent Power") (VInt v20) false ∅;
          mkData 1 (ha_device_name self) (entity_unique_id (mac self) 22) PERCENTAGE
            (lit "Load Percentage") (VInt v22) false ∅])).
Proof.
  intros Hlen.
  destruct (bytes_to_int_scaled bs 3 2 0.1%float false) as [v18 E18]; [lia|].
  destruct (bytes_to_int_plain bs 5 2 false) as [v19 E19]; [lia|].
  destruct (bytes_to_int_plain bs 7 2 false) as [v20 E20]; [lia|].
  destruct (bytes_to_int_plain bs 13 2 false) as [v22 E22]; [lia|].
  exists v18, v19, v20, v22.
  unfold InverterDev.parse_load_info. rewrite E18, E19, E20, E22. reflexivity.
Qed.

(** An inverter poll on a link that connects, accepts writes and
    answers each of the four sections with one read response: the poll
    returns thirteen measurements in section order.  "Device ID" is the
    two-byte integer at offset 3 of the second payload; "Output
    Current" is the primary, and carries the model decoded from bytes
    3..18 of the first payload, with its trailing NUL characters removed
    and its blanks kept, beside the controller attributes; no other
    measurement has attributes. *)
Theorem inverter_poll (mac_ dn nm : pystr) (ble : BLEDevice)
    (b0 b1 b2 b3 : list byte) (m : pystr) (hi lo : byte) :
  connect_result (link ble) = Ok true ->
  (forall n, write_raises (link ble) n = false) ->
  (forall j p, [b0; b1; b2; b3] !! j = Some p ->
     notifications (link ble) j = [p] /\ p !! 1 = Some x03) ->
  decode_utf8 (slice b0 3 19) = Ok m ->
  b1 !! 3 = Some hi -> b1 !! 4 = Some lo ->
  23 <= List.length b2 -> 15 <= List.length b3 ->
  exists w es,
    execute (InverterDev.init mac_ (Some dn) nm) (Some ble) = Some (w, Ok es)
    /\ map name es
       = [lit "Device ID"; lit "Input Voltage"; lit "Input Current";
          lit "Output Voltage"; lit "Output Current"; lit "Output Frequency";
          lit "Battery Voltage"; lit "Inverter Temperature"; lit "Input Frequency";
          lit "Load Current"; lit "Load Active Power"; lit "Load Apparent Power";
          lit "Load Percentage"]
    /\ map device_unique_id es
       = map (entity_unique_id mac_) [2; 3; 4; 5; 6; 7; 8; 9; 10; 18; 19; 20; 22]%Z
    /\ map is_main es
       = [false; false; false; false; true; false; false; false; false; false; false;
          false; false]
    /\ map attributes es
       = [∅; ∅; ∅; ∅;
          <["config_name" := VStr nm]> (
          <["device_name" := VStr (strip dn)]> (
          <["mac" := VStr mac_]> (
          <["model" := VStr (rstrip_nul m)]> ∅)));
          ∅; ∅; ∅; ∅; ∅; ∅; ∅; ∅]
    /\ (state <$> es !! 0) = Some (VInt (byte_val hi * 256 + byte_val lo)).
Proof.
  intros Hconn Hok Hn Hm Hhi Hlo H2 H3.
  set (d0 := InverterDev.init mac_ (Some dn) nm).
  set (d1 := set_model d0 (rstrip_nul m)).
  assert (P0 : parse_section d0 b0 0 = (d1, Ok (mkItems true []))).
  { unfold parse_section, InverterDev.parse_section, InverterDev.parse_inverter_model.
    cbn [kind d0 InverterDev.init]. now rewrite Hm. }
  assert (P1 : parse_section d1 b1 1
               = (d1, Ok (mkItems true
                    [mkData 1 (ha_device_name d1) (entity_unique_id (mac d1) 2) INT_DATA
                       (lit "Device ID") (VInt (byte_val hi * 256 + byte_val lo))
                       false ∅]))).
  { unfold parse_section, InverterDev.parse_section, InverterDev.parse_device_id.
    cbn [kind d1 d0 set_model InverterDev.init].
    now rewrite (bytes_to_int_word _ _ _ _ Hhi Hlo). }
  destruct (parse_inverter_stats_readings d1 b2 H2)
    as (v3 & v4 & v5 & v6 & v7 & v8 & v9 & v10 & P2).
  destruct (parse_load_info_readings d1 b3 H3) as (v18 & v19 & v20 & v22 & P3).
  assert (Hdec : exists es, decode_from d0 0 [b0; b1; b2; b3] = Some es
                   /\ es = entities (mkItems true []) ++ es).
  { cbn [decode_from]. rewrite P0. cbn [valid]. rewrite P1. cbn [valid].
    unfold parse_section at 1. cbn [kind d1 d0 set_model InverterDev.init].
    unfold InverterDev.parse_section at 1. rewrite P2. cbn [valid].
    unfold parse_section at 1. cbn [kind d1 d0 set_model InverterDev.init].
    unfold InverterDev.parse_section at 1. rewrite P3. cbn [valid entities app].
    eexists. split; reflexivity. }
  destruct Hdec as (es & Hdec & _).
  destruct (answered_execute d0 ble
              (lit "0000fff1-0000-1000-8000-00805f9b34fb")
              (lit "0000ffd1-0000-1000-8000-00805f9b34fb")
              [b0; b1; b2; b3] es) as [w Hex];
    try reflexivity; try assumption; try (cbn; lia).
  { vm_compute. discriminate. }
  { intros j q Hq. destruct (Hn j q Hq) as [Hnj Hop]. split; [exact Hnj|].
    now rewrite (bytes_to_int_byte _ _ _ Hop). }
  rewrite (add_devices_named _ dn) in Hex by reflexivity.
  cbn [ret_dev_data d0 InverterDev.init app] in Hex.
  exists w, (map (with_controller (InverterDev.init mac_ (Some dn) nm) dn) es).
  split; [exact Hex|].
  cbn [decode_from] in Hdec. rewrite P0 in Hdec. cbn [valid] in Hdec.
  rewrite P1 in Hdec. cbn [valid] in Hdec.
  unfold parse_section at 1 in Hdec. cbn [kind d1 d0 set_model InverterDev.init] in Hdec.
  unfold InverterDev.parse_section at 1 in Hdec. rewrite P2 in Hdec. cbn [valid] in Hdec.
  unfold parse_section at 1 in Hdec. cbn [kind d1 d0 set_model InverterDev.init] in Hdec.
  unfold InverterDev.parse_section at 1 in Hdec. rewrite P3 in Hdec.
  cbn [valid entities app] in Hdec. injection Hdec as <-.
  cbn. now repeat split.
Qed.

(** Four read responses of an inverter: a model padded with a blank
    and NUL bytes, device id 32, and two zero-filled data sections. *)
Definition inverter_responses : list (list byte) :=
  [[xff; x03; x10] ++ list_byte_of_string "RIV1220PU-126 " ++ [x00; x00; x00; x00];
   [xff; x03; x02; x00; x20; x00; x00];
   [xff; x03; x14] ++ List.repeat x00 22;
   [xff; x03; x0c] ++ List.repeat x00 14].

Definition inverter_ble : BLEDevice :=
  mkBLEDevice (lit "AA:BB:CC:DD:EE:FF") (Some (lit "RNGRIU1234 "))
    (mkTransport (Ok true) (fun _ => false)
       (fun j => match inverter_responses !! j with Some p => [p] | None => [] end)).

Lemma inverter_poll_witness :
  exists w es,
    execute (InverterDev.init (lit "AA:BB:CC:DD:EE:FF") (Some (lit "RNGRIU1234 "))
               (lit "van")) (Some inverter_ble) = Some (w, Ok es)
    /\ map name es
       = [lit "Device ID"; lit "Input Voltage"; lit "Input Current";
          lit "Output Voltage"; lit "Output Current"; lit "Output Frequency";
          lit "Battery Voltage"; lit "Inverter Temperature"; lit "Input Frequency";
          lit "Load Current"; lit "Load Active Power"; lit "Load Apparent Power";
          lit "Load Percentage"]
    /\ map device_unique_id es
       = map (entity_unique_id (lit "AA:BB:CC:DD:EE:FF"))
           [2; 3; 4; 5; 6; 7; 8; 9; 10; 18; 19; 20; 22]%Z
    /\ map is_main es
       = [false; false; false; false; true; false; false; false; false; false; false;
          false; false]
    /\ map attributes es
       = [∅; ∅; ∅; ∅;
          <["config_name" := VStr (lit "van")]> (
          <["device_name" := VStr (strip (lit "RNGRIU1234 "))]> (
          <["mac" := VStr (lit "AA:BB:CC:DD:EE:FF")]> (
          <["model" := VStr (rstrip_nul (lit "RIV1220PU-126 " ++ [0; 0]%Z))]> ∅)));
          ∅; ∅; ∅; ∅; ∅; ∅; ∅; ∅]
    /\ (state <$> es !! 0) = Some (VInt (byte_val x00 * 256 + byte_val x20)).
Proof.
  apply (inverter_poll (lit "AA:BB:CC:DD:EE:FF") (lit "RNGRIU1234 ") (lit "van")
           inverter_ble
           ([xff; x03; x10] ++ list_byte_of_string "RIV1220PU-126 "
              ++ [x00; x00; x00; x00])
           [xff; x03; x02; x00; x20; x00; x00]
           ([xff; x03; x14] ++ List.repeat x00 22)
           ([xff; x03; x0c] ++ List.repeat x00 14)
           (lit "RIV1220PU-126 " ++ [0; 0]%Z) x00 x20).
  - reflexivity.
  - reflexivity.
  - intros [|[|[|[|j]]]] p [= <-]; split; reflexivity.
  - reflexivity.
  - reflexivity.
  - reflexivity.
  - simpl. lia.
  - simpl. lia.
Defined.

End InverterPoll.

(* ===================================================================== *)
(** * The sensor platform ([sensor.py]) *)
(* ===================================================================== *)

#[global] Instance RenogyDeviceType_eq_dec : EqDecision RenogyDeviceType.
Proof. solve_decision. Defined.

(** The sensor entity classes of the platform. *)
Inductive SensorClass : Set :=
| TemperatureSensor
| PercentageSensor
| VoltageSensor
| CurrentSensor
| PowerSensor
| EnergyStorageSensor
| AmpHourSensor
| IntSensor
| StringSensor.

(** The body of the loop of [async_setup_entry]: nine independent
    tests on the measurement's type, each appending a sensor. *)
Definition add_sensors (sensors : list (SensorClass * RenogyDeviceData))
    (device : RenogyDeviceData) : list (SensorClass * RenogyDeviceData) :=
  let ty := device_type device in
  let sensors := if bool_decide (ty = TEMPERATURE_SENSOR)
                 then sensors ++ [(TemperatureSensor, device)] else sensors in
  let sensors := if bool_decide (ty = PERCENTAGE)
                 then sensors ++ [(PercentageSensor, device)] else sensors in
  let sensors := if bool_decide (ty = VOLTAGE_SENSOR)
                 then sensors ++ [(VoltageSensor, device)] else sensors in
  let sensors := if bool_decide (ty = CURRENT_SENSOR)
                 then sensors ++ [(CurrentSensor, device)] else sensors in
  let sensors := if bool_decide (ty = POWER_SENSOR)
                 then sensors ++ [(PowerSensor, device)] else sensors in
  let sensors := if bool_decide (ty = ENERGY_STORAGE)
                 then sensors ++ [(EnergyStorageSensor, device)] else sensors in
  let sensors := if bool_decide (ty = AMP_HOURS_SENSOR)
                 then sensors ++ [(AmpHourSensor, device)] else sensors in
  let sensors := if bool_decide (ty = INT_DATA)
                 then sensors ++ [(IntSensor, device)] else sensors in
  let sensors := if bool_decide (ty = STRING_DATA)
                 then sensors ++ [(StringSensor, device)] else sensors in
  sensors.

(** [async_setup_entry], as the list handed to [async_add_entities]. *)
Definition async_setup_entry (devices : list RenogyDeviceData)
    : list (SensorClass * RenogyDeviceData) :=
  fold_left add_sensors devices [].

Section Sensors.

(** A state that [float()] and [int()] accept whatever it holds. *)
Definition is_number (v : pyval) : bool :=
  match v with
  | VInt _ | VFloat _ => true
  | _ => false
  end.

(** What the platform needs of a measurement: a type it has a sensor
    for, and a number for every sensor that converts its state. *)
Definition well_typed (d : RenogyDeviceData) : Prop :=
  device_type d <> DOOR_SENSOR
  /\ (device_type d <> STRING_DATA -> is_number (state d) = true).

Lemma bytes_to_int_number (bs : list byte) (off len : nat) (sc : option float)
    (sg : bool) (v : pyval) :
  bytes_to_int bs off len sc sg = Ok v -> is_number v = true.
Proof.
  unfold bytes_to_int. intros H. apply res_bind_ok in H as (n & _ & H).
  destruct sc; injection H as <-; reflexivity.
Qed.

Lemma py_mul_number (a b v : pyval) :
  is_number a = true -> is_number b = true -> py_mul a b = Ok v -> is_number v = true.
Proof.
  destruct a, b; try discriminate; intros _ _ [= <-]; reflexivity.
Qed.

Ltac typed :=
  repeat constructor; try discriminate; intros _; cbn [state];
  eauto using bytes_to_int_number, py_mul_number.

(** Every measurement a decoder emits is well typed. *)
Lemma parse_section_typed (self self' : RenogyDevice) (bs : list byte) (i : nat)
    (its : items) :
  parse_section self bs i = (self', Ok its) -> Forall well_typed (entities its).
Proof.
  unfold parse_section, well_typed. destruct (kind self).
  - unfold InverterDev.parse_section.
    destruct i as [|[|[|[|i]]]].
    + unfold InverterDev.parse_inverter_model.
      destruct (decode_utf8 (slice bs 3 19)); intros [= _ <-]. constructor.
    + unfold InverterDev.parse_device_id. intros [= _ H].
      bind_inv H. injection H as <-. typed.
    + unfold InverterDev.parse_inverter_stats. intros [= _ H].
      bind_inv H. injection H as <-. typed.
    + unfold InverterDev.parse_load_info. intros [= _ H].
      bind_inv H. injection H as <-. typed.
    + intros [= _ <-]. constructor.
  - unfold DCCharger.parse_section.
    destruct i as [|[|[|[|[|i]]]]].
    + unfold DCCharger.parse_device_info.
      destruct (decode_utf8 (slice bs 3 19)); intros [= _ <-]. constructor.
    + unfold DCCharger.parse_device_address. intros [= _ H].
      bind_inv H. injection H as <-. typed.
    + unfold DCCharger.parse_state. intros [= _ H].
      bind_inv H. injection H as <-. repeat constructor; [discriminate|].
      intros Hne. now contradiction Hne.
    + unfold DCCharger.parse_battery_type.
      destruct (bytes_to_int bs 3 2 None false); intros [= _ <-]. constructor.
    + unfold DCCharger.parse_charging_info. intros [= _ H].
      bind_inv H. injection H as <-. typed.
    + intros [= _ <-]. constructor.
  - unfold Shunt.parse_section.
    destruct (negb (i =? 0) || negb (first_parse self) || (List.length bs <? 110)).
    + intros [= _ <-]. constructor.
    + intros [= _ H]. bind_inv H. injection H as <-. typed.
  - unfold Test.parse_section.
    destruct (negb (i =? 0) || negb (first_parse self)).
    + intros [= _ <-]. constructor.
    + intros [= _ <-]. typed.
Qed.

Lemma decode_from_typed (payloads : list (list byte)) :
  forall (self : RenogyDevice) (i : nat) (es : list RenogyDeviceData),
    decode_from self i payloads = Some es -> Forall well_typed es.
Proof.
  induction payloads as [|p ps IH]; intros self i es; cbn [decode_from].
  - intros [= <-]. constructor.
  - destruct (parse_section self p i) as [self1 [its|e]] eqn:Hp; [|discriminate].
    destruct (valid its); [|discriminate].
    destruct (decode_from self1 (S i) ps) as [l|] eqn:Hl; [|discriminate].
    intros [= <-]. apply Forall_app. split.
    + exact (parse_section_typed _ _ _ _ _ Hp).
    + exact (IH _ _ _ Hl).
Qed.

(** One round of the loop appends to what is there. *)
Lemma add_sensors_app (acc : list (SensorClass * RenogyDeviceData))
    (d : RenogyDeviceData) :
  add_sensors acc d = acc ++ add_sensors [] d.
Proof.
  unfold add_sensors. destruct (device_type d); cbn; now rewrite ?app_nil_r.
Qed.

Lemma fold_add_sensors (l : list RenogyDeviceData) :
  forall acc, fold_left add_sensors l acc = acc ++ fold_left add_sensors l [].
Proof.
  induction l as [|x l IH]; intros acc; cbn [fold_left].
  - now rewrite app_nil_r.
  - rewrite (IH (add_sensors acc x)), (IH (add_sensors [] x)), (add_sensors_app acc).
    now rewrite app_assoc.
Qed.

Lemma async_setup_entry_cons (d : RenogyDeviceData) (l : list RenogyDeviceData) :
  async_setup_entry (d :: l) = add_sensors [] d ++ async_setup_entry l.
Proof. unfold async_setup_entry. cbn [fold_left]. apply fold_add_sensors. Qed.

(** The platform creates exactly one sensor for each measurement of a
    full decode, in the order of the decode: no measurement is dropped,
    since no decoder emits a door sensor, and none gets two sensors.
    The sensor is a [StringSensor] exactly for the measurements of type
    [STRING_DATA], and every other sensor, whose [native_value] converts
    the state with [float()] or [int()], is given an integer or a float,
    never [None] or a string. *)
Theorem sensors_cover_decode (f : family) (mac_ : pystr) (dn : option pystr)
    (nm : pystr) (payloads : list (list byte)) (es : list RenogyDeviceData) :
  full_decode f mac_ dn nm payloads = Some es ->
  map snd (async_setup_entry es) = es
  /\ Forall (fun s => (fst s = StringSensor <-> device_type (snd s) = STRING_DATA)
                      /\ (fst s <> StringSensor -> is_number (state (snd s)) = true))
       (async_setup_entry es).
Proof.
  unfold full_decode. intros H.
  destruct (List.length payloads =? List.length (sections (new_device f mac_ dn nm)))%nat;
    [|discriminate].
  apply decode_from_typed in H.
  induction H as [|d l [Hd Hs] _ [IH1 IH2]]; [split; [reflexivity | constructor]|].
  rewrite async_setup_entry_cons. rewrite map_app, IH1. split.
  - unfold add_sensors. destruct (device_type d); try reflexivity. now contradiction Hd.
  - apply Forall_app. split; [|exact IH2].
    unfold add_sensors. destruct (device_type d) eqn:Ht; cbn;
      try (now contradiction Hd);
      repeat constructor; cbn [fst snd]; rewrite ?Ht; try discriminate;
        try (intros _; apply Hs; discriminate); try reflexivity;
        try (intros Hc; now contradiction Hc).
Qed.

Lemma sensors_cover_decode_witness :
  map snd (async_setup_entry (sample_decode DcDcCharger)) = sample_decode DcDcCharger
  /\ Forall (fun s => (fst s = StringSensor <-> device_type (snd s) = STRING_DATA)
                      /\ (fst s <> StringSensor -> is_number (state (snd s)) = true))
       (async_setup_entry (sample_decode DcDcCharger)).
Proof.
  apply (sensors_cover_decode DcDcCharger (lit "AA:BB") None (lit "van")
           (sample_payloads DcDcCharger)).
  vm_compute. reflexivity.
Defined.

End Sensors.

(* ===================================================================== *)
(** * The controller name ([api.py]) *)
(* ===================================================================== *)

(** The property [API.controller_name]:
    ["renogy_" + self.mac.replace(":", "_")]. *)
Definition controller_name (mac_ : pystr) : pystr :=
  lit "renogy_" ++ replace_char 58 95 mac_.

Section ControllerName.

Local Open Scope Z_scope.

Lemma lower_replace (s : pystr) :
  lower (replace_char 58 95 s) = replace_char 58 95 (lower s).
Proof.
  unfold lower, replace_char. rewrite !map_map. apply map_ext. intros c.
  unfold lower_char.
  destruct (Z.eqb_spec c 58) as [->|Hc]; [reflexivity|].
  destruct ((65 <=? c) && (c <=? 90)) eqn:Hu.
  - apply andb_true_iff in Hu as [H1 H2]. apply Z.leb_le in H1, H2.
    destruct (Z.eqb_spec (c + 32) 58); [lia | reflexivity].
  - destruct (Z.eqb_spec c 58); [contradiction | reflexivity].
Qed.

Lemma replace_lower_same (s : pystr) :
  replace_char 58 95 (lower s) = replace_char 58 95 s -> lower s = s.
Proof.
  induction s as [|c s IH]; [reflexivity|]. cbn [lower replace_char map].
  intros [= Hc Hs]. f_equal; [|exact (IH Hs)].
  unfold lower_char in *.
  destruct ((65 <=? c) && (c <=? 90)) eqn:Hu; [|reflexivity].
  apply andb_true_iff in Hu as [H1 H2]. apply Z.leb_le in H1, H2.
  destruct (Z.eqb_spec (c + 32) 58); [lia|].
  destruct (Z.eqb_spec c 58); lia.
Qed.

(** The two names the source asks to keep in step.  The device unique
    id is the controller name in lower case followed by "_id"; the
    controller name itself is its prefix exactly when the address holds
    no upper-case letter, since only the unique id lowers the address. *)
Theorem unique_id_of_controller_name (mac_ : pystr) :
  is_ascii mac_ ->
  dev_unique_id mac_ = lower (controller_name mac_) ++ lit "_id"
  /\ (dev_unique_id mac_ = controller_name mac_ ++ lit "_id" <-> lower mac_ = mac_).
Proof.
  intros _. unfold dev_unique_id, controller_name. split.
  - unfold lower at 2. rewrite map_app. fold (lower (replace_char 58 95 mac_)).
    rewrite lower_replace, <- app_assoc. reflexivity.
  - rewrite <- app_assoc. split.
    + intros H. apply app_inv_head, app_inv_tail in H. now apply replace_lower_same.
    + now intros ->.
Qed.

Lemma unique_id_of_controller_name_witness :
  dev_unique_id (lit "AA:BB:CC:DD:EE:FF")
  = lower (controller_name (lit "AA:BB:CC:DD:EE:FF")) ++ lit "_id"
  /\ (dev_unique_id (lit "AA:BB:CC:DD:EE:FF")
      = controller_name (lit "AA:BB:CC:DD:EE:FF") ++ lit "_id"
      <-> lower (lit "AA:BB:CC:DD:EE:FF") = lit "AA:BB:CC:DD:EE:FF").
Proof.
  apply (unique_id_of_controller_name (lit "AA:BB:CC:DD:EE:FF")).
  unfold is_ascii. apply Forall_forall. intros c Hc.
  apply list_elem_of_In in Hc. vm_compute in Hc.
  repeat (destruct Hc as [<-|Hc]; [lia|]). destruct Hc.
Defined.

End ControllerName.
